(** * pr_to_update_go.go_pr_maker: a shallow embedding

    The module [go_pr_maker.py] opens a pull request that bumps the Go
    version pinned by a repository.  Its functions are embedded below
    under the names they have in the source.  Python [str] values are
    modelled by [string], a character standing for the code point of its
    number, so that texts range over the code points below 256; there the
    regular-expression class [\d] is exactly [0-9] and [\s] is the class
    [Str.is_space].  The code talks to three outside parties: the process
    environment and local files, two HTTP endpoints of the Go web site, and
    the GitHub REST service together with the local [git] clone.  They are
    collected in one record, [World], which every effectful function reads
    and updates through the state-and-exception monad [M].  [print] calls
    only report progress and are left out. *)

From Stdlib Require Import String Ascii List ZArith Lia Bool.
From stdpp Require Import base option list gmap strings infinite.

Open Scope string_scope.

(** Appending to a string literal computes. *)
#[local] Arguments String.append !s1 s2 / : simpl nomatch.

(** ** Strings and the two version patterns *)

Module Str.

Definition is_digit (c : ascii) : bool :=
  (48 <=? nat_of_ascii c)%nat && (nat_of_ascii c <=? 57)%nat.

Definition is_dot (c : ascii) : bool := bool_decide (c = "."%char).

(** the character class [[\d.]] *)
Definition is_digit_or_dot (c : ascii) : bool := is_digit c || is_dot c.

(** [\s] in a [str] pattern, on the code points below 256: TAB, LF, VT,
    FF, CR, the separators 28-31, the space, NEL (U+0085) and the no-break
    space (U+00A0). *)
Definition is_space (c : ascii) : bool :=
  let n := nat_of_ascii c in
  ((9 <=? n)%nat && (n <=? 13)%nat) || ((28 <=? n)%nat && (n <=? 32)%nat)
  || (n =? 133)%nat || (n =? 160)%nat.

(** The longest prefix whose characters satisfy [p], and what follows:
    a greedy [p*] at the start of [s]. *)
Fixpoint span (p : ascii → bool) (s : string) : string * string :=
  match s with
  | String c s' =>
      if p c then let '(a, b) := span p s' in (String c a, b) else ("", s)
  | "" => ("", "")
  end.

Fixpoint all (p : ascii → bool) (s : string) : bool :=
  match s with
  | String c s' => p c && all p s'
  | "" => true
  end.

Definition starts_with (p : ascii → bool) (s : string) : bool :=
  match s with
  | String c _ => p c
  | "" => false
  end.

Fixpoint contains (c : ascii) (s : string) : bool :=
  match s with
  | String d s' => bool_decide (c = d) || contains c s'
  | "" => false
  end.

(** [s.startswith(p)]: the rest of [s] after the prefix [p]. *)
Fixpoint strip_prefix (p s : string) : option string :=
  match p, s with
  | "", _ => Some s
  | String a p', String b s' =>
      if bool_decide (a = b) then strip_prefix p' s' else None
  | String _ _, "" => None
  end.

(** [s.replace('.', '\\.')] *)
Fixpoint escape_dots (s : string) : string :=
  match s with
  | String c s' =>
      if is_dot c then String "\" (String "." (escape_dots s'))
      else String c (escape_dots s')
  | "" => ""
  end.

(** [re.sub(r'[\s\t]+', ' ', s)]: every maximal run of white space
    becomes one space.  [in_run] says whether the previous character
    belonged to a run. *)
Fixpoint collapse_from (in_run : bool) (s : string) : string :=
  match s with
  | String c s' =>
      if is_space c
      then (if in_run then collapse_from true s'
            else String " " (collapse_from true s'))
      else String c (collapse_from false s')
  | "" => ""
  end.

Definition collapse_whitespace (s : string) : string := collapse_from false s.

(** [s[:s.rfind('/') + 1]] *)
Fixpoint upto_last_slash (s : string) : string :=
  match s with
  | String c s' =>
      if contains "/" s' then String c (upto_last_slash s')
      else if bool_decide (c = "/"%char) then "/" else ""
  | "" => ""
  end.

(** [s.rstrip('/')] *)
Fixpoint rstrip_slash (s : string) : string :=
  match s with
  | String c s' =>
      let r := rstrip_slash s' in
      if bool_decide (r = "") && bool_decide (c = "/"%char) then ""
      else String c r
  | "" => ""
  end.

(** [posixpath.dirname] *)
Definition dirname (p : string) : string :=
  let head := upto_last_slash p in
  if all (λ c, bool_decide (c = "/"%char)) head then head
  else rstrip_slash head.

(** [posixpath.join] of two components *)
Definition path_join (a b : string) : string :=
  if starts_with (λ c, bool_decide (c = "/"%char)) b then b
  else if bool_decide (a = "") then b
  else if bool_decide (rstrip_slash a = a) then a ++ "/" ++ b
  else a ++ b.

End Str.

(** [get_major_version]: [re.search(r'^\d+\.\d+', s)], group 0 or [''].
    Without [re.MULTILINE] the anchor pins the match to position 0.  The
    greedy [\d+] takes every leading digit; giving one back never helps,
    since the character after a shorter run is a digit and not the dot. *)
Definition get_major_version (from_go_version : string) : string :=
  let '(major, rest) := Str.span Str.is_digit from_go_version in
  match major, rest with
  | String _ _, String c rest' =>
      if Str.is_dot c then
        let '(minor, _) := Str.span Str.is_digit rest' in
        match minor with
        | String _ _ => major ++ "." ++ minor
        | "" => ""
        end
      else ""
  | _, _ => ""
  end.

(** [re.search(r"[\d.]+", s)]: the leftmost, longest run of digits and
    dots, [None] when [s] has none. *)
Fixpoint search_version_token (s : string) : option string :=
  match s with
  | String c s' =>
      if Str.is_digit_or_dot c then Some (fst (Str.span Str.is_digit_or_dot s))
      else search_version_token s'
  | "" => None
  end.

(** ** Exceptions and results *)

(** The value found under a key of a decoded JSON object, as far as the
    code tells values apart: a [str], or anything else. *)
Inductive PyValue :=
| PyStr (s : string)
| PyOther.

(** The exceptions the module raises or lets through.  A
    [GithubException] carries the HTTP status and [data["message"]] of the
    response ([None] when the body has no such key); PyGithub's subclasses
    are recognised from these two, see [is_UnknownObjectException]. *)
Inductive exn :=
| KeyError (key : string)
| AttributeError (attr : string)
| RequestException (status : N)
| GithubException (status : N) (message : option PyValue)
| PermissionError (msg : string)
| IsADirectoryError (msg : string)
| FileNotFoundError (path : string)
| CalledProcessError (cmd : list string)
| LookupError (msg : string)
| Exception (msg : string)
| ValueError (msg : string).

Inductive result (A : Type) :=
| Ok (a : A)
| Err (e : exn).
Arguments Ok {A} a.
Arguments Err {A} e.

(** PyGithub raises [UnknownObjectException] for a 404 whose message is
    "Not Found" and [BadCredentialsException] for a 401 whose message is
    "Bad credentials"; both are subclasses of [GithubException]. *)
Definition is_UnknownObjectException (e : exn) : bool :=
  match e with
  | GithubException 404 (Some (PyStr "Not Found")) => true
  | _ => false
  end.

Definition is_BadCredentialsException (e : exn) : bool :=
  match e with
  | GithubException 401 (Some (PyStr "Bad credentials")) => true
  | _ => false
  end.

(** ** The outside world *)

(** [GoVersion]: one entry of the release index; [files] is never read. *)
Record GoVersion := {
  stable : bool;
  version : string;
}.

Record InputGitAuthor := {
  author_name : string;
  author_email : string;
}.

(** A git commit object.  Object ids (the [sha] strings of the API) are
    plain strings. *)
Record GitCommit := {
  commit_tree : string;
  commit_parents : list string;
  commit_message : string;
  commit_author : option InputGitAuthor;
  commit_committer : option InputGitAuthor;
}.

(** A tree is kept flat: the full path of every regular file with its
    content, and [Directory] at the paths that are directories. *)
Inductive TreeEntry :=
| Blob (content : string)
| Directory.

Record PullRequest := {
  pr_title : string;
  pr_body : string;
  pr_head_label : string;
  pr_head_ref : string;
  pr_base : string;
  pr_open : bool;
  pr_maintainer_can_modify : bool;
  pr_labels : list string;
}.

(** A milestone with the one field of its [raw_data] that is read. *)
Record Milestone := {
  title : string;
  raw_html_url : option string;
}.

Record Repository := {
  branches : gmap string string;
  commits : gmap string GitCommit;
  trees : gmap string (gmap string TreeEntry);
  pulls : gmap N PullRequest;
  labels : gset string;
  (** as served for [state='all', sort='due_on', direction='desc'] *)
  milestones : list Milestone;
}.

(** [InputGitTreeElement(path, mode='100644', type='blob', content)] *)
Record InputGitTreeElement := {
  element_path : string;
  element_content : string;
}.

(** The requests that change the remote service, in the form they are sent. *)
Inductive Request :=
| CreateGitRef (repo ref sha : string)
| UpdateFile (repo path message content sha branch : string)
    (author : option InputGitAuthor)
| CreateGitTree (repo : string) (elements : list InputGitTreeElement) (base_tree : string)
| CreateGitCommit (repo message tree : string) (parents : list string)
    (author : option InputGitAuthor)
| PatchRef (repo branch sha : string)
| CreatePull (repo title body head base : string)
| AddToLabels (repo : string) (number : N) (label : string).

(** The local clone in which the action runs. *)
Record LocalGit := {
  origin : string;
  origin_reachable : bool;
  local_commits : gmap string GitCommit;
  local_trees : gmap string (gmap string TreeEntry);
  index : gmap string string;
  worktree : gmap string string;
}.

Record World := {
  environ : gmap string string;
  (** files outside the clone, by absolute path *)
  files : gmap string string;
  (** outcome of GET [GO_VERSION_URL], [raise_for_status] and [json.loads] *)
  go_version_feed : result (list GoVersion);
  (** outcome of GET [RELEASE_PAGE_URL], [raise_for_status] and [decode] *)
  release_page : result string;
  (** when set, the service answers every request with this error *)
  gh_outage : option exn;
  gh_repos : gmap string Repository;
  (** the search index: issue numbers served for a query string *)
  gh_search : gmap string (list N);
  (** every state-changing request sent so far, latest first *)
  gh_log : list Request;
  git : LocalGit;
}.

(** ** The monad of effectful code *)

Definition M (A : Type) : Type := World → result A * World.

Definition ret {A} (a : A) : M A := λ w, (Ok a, w).

Definition raise {A} (e : exn) : M A := λ w, (Err e, w).

Definition bind {A B} (m : M A) (k : A → M B) : M B :=
  λ w, match m w with
       | (Ok a, w') => k a w'
       | (Err e, w') => (Err e, w')
       end.

(** [try: m / except ...: handler e]; a handler answering [None] does not
    catch the exception. *)
Definition try_except {A} (m : M A) (handler : exn → option (M A)) : M A :=
  λ w, match m w with
       | (Ok a, w') => (Ok a, w')
       | (Err e, w') =>
           match handler e with
           | Some h => h w'
           | None => (Err e, w')
           end
       end.

Definition get {A} (f : World → A) : M A := λ w, (Ok (f w), w).

Definition modify (f : World → World) : M unit := λ w, (Ok tt, f w).

Definition lift {A} (r : result A) : M A := λ w, (r, w).

Notation "'let*' x ':=' m 'in' k" := (bind m (λ x, k))
  (at level 10, x pattern, m at level 100, k at level 200,
   format "'let*'  x  ':='  m  'in' '//' k").

(** ** Record updates *)

Definition set_gh_log (f : list Request → list Request) (w : World) : World :=
  {| environ := environ w; files := files w; go_version_feed := go_version_feed w;
     release_page := release_page w; gh_outage := gh_outage w; gh_repos := gh_repos w;
     gh_search := gh_search w; gh_log := f (gh_log w); git := git w |}.

Definition set_gh_repos (f : gmap string Repository → gmap string Repository)
    (w : World) : World :=
  {| environ := environ w; files := files w; go_version_feed := go_version_feed w;
     release_page := release_page w; gh_outage := gh_outage w; gh_repos := f (gh_repos w);
     gh_search := gh_search w; gh_log := gh_log w; git := git w |}.

Definition set_git (f : LocalGit → LocalGit) (w : World) : World :=
  {| environ := environ w; files := files w; go_version_feed := go_version_feed w;
     release_page := release_page w; gh_outage := gh_outage w; gh_repos := gh_repos w;
     gh_search := gh_search w; gh_log := gh_log w; git := f (git w) |}.

Definition set_branches (f : gmap string string → gmap string string)
    (r : Repository) : Repository :=
  {| branches := f (branches r); commits := commits r; trees := trees r;
     pulls := pulls r; labels := labels r; milestones := milestones r |}.

Definition set_commits (f : gmap string GitCommit → gmap string GitCommit)
    (r : Repository) : Repository :=
  {| branches := branches r; commits := f (commits r); trees := trees r;
     pulls := pulls r; labels := labels r; milestones := milestones r |}.

Definition set_trees
    (f : gmap string (gmap string TreeEntry) → gmap string (gmap string TreeEntry))
    (r : Repository) : Repository :=
  {| branches := branches r; commits := commits r; trees := f (trees r);
     pulls := pulls r; labels := labels r; milestones := milestones r |}.

Definition set_pulls (f : gmap N PullRequest → gmap N PullRequest)
    (r : Repository) : Repository :=
  {| branches := branches r; commits := commits r; trees := trees r;
     pulls := f (pulls r); labels := labels r; milestones := milestones r |}.

Definition add_label (l : string) (pr : PullRequest) : PullRequest :=
  {| pr_title := pr_title pr; pr_body := pr_body pr; pr_head_label := pr_head_label pr;
     pr_head_ref := pr_head_ref pr; pr_base := pr_base pr; pr_open := pr_open pr;
     pr_maintainer_can_modify := pr_maintainer_can_modify pr;
     pr_labels := pr_labels pr ++ [l] |}.

(** ** The remote repository service

    The GitHub endpoints the module calls, with the behaviour the code
    relies on: objects are looked up by id, a missing object is a 404, a
    rejected write a 409 or 422.  Each state-changing request is recorded
    in [gh_log] when it is sent, whatever the answer.  Handles (a
    [Repository] is its full name, a [Commit], [GitCommit] or [GitTree] its
    [sha]) stand for the PyGithub objects. *)

Definition new_line : string := String "010" "".

Definition not_found {A} : M A := raise (GithubException 404 (Some (PyStr "Not Found"))).

Definition unprocessable {A} (msg : string) : M A :=
  raise (GithubException 422 (Some (PyStr msg))).

(** Send a request: it is answered with the outage error, if any. *)
Definition request (log : option Request) : M unit :=
  let* _ := match log with
            | Some r => modify (set_gh_log (cons r))
            | None => ret tt
            end in
  let* outage := get gh_outage in
  match outage with
  | Some e => raise e
  | None => ret tt
  end.

Definition find_repo (repo : string) : M Repository :=
  let* repos := get gh_repos in
  match repos !! repo with
  | Some r => ret r
  | None => not_found
  end.

Definition store_repo (repo : string) (r : Repository) : M unit :=
  modify (set_gh_repos <[repo := r]>).

(** The tree of a commit. *)
Definition tree_of (r : Repository) (sha : string) : option (gmap string TreeEntry) :=
  c ← commits r !! sha; trees r !! commit_tree c.

(** An id no object of the repository has. *)
Definition new_id (r : Repository) : string := fresh (dom (commits r) ∪ dom (trees r)).

(** [to] is [from] or one of its ancestors, searched to depth [fuel]. *)
Fixpoint reaches (fuel : nat) (cs : gmap string GitCommit) (from to : string) : bool :=
  bool_decide (from = to) ||
  match fuel with
  | O => false
  | S fuel' =>
      match cs !! from with
      | Some c => existsb (λ p, reaches fuel' cs p to) (commit_parents c)
      | None => false
      end
  end.

Section Service.

(** The id git gives a blob: a function of its content. *)
Variable blob_sha : string → string.

(** [Github.get_repo(full_name)] *)
Definition Github_get_repo (full_name : string) : M string :=
  let* _ := request None in
  let* _ := find_repo full_name in
  ret full_name.

(** [Github.search_issues(query)]: the numbers of the issues found. *)
Definition Github_search_issues (query : string) : M (list N) :=
  let* _ := request None in
  let* idx := get gh_search in
  ret (default [] (idx !! query)).

Inductive Contents :=
| ContentFile (path sha decoded_content : string)
| ContentList.

(** [Repository.get_contents(path, ref)] for a ref of the form
    [refs/heads/<branch>]. *)
Definition Repository_get_contents (repo path ref : string) : M Contents :=
  let* _ := request None in
  let* r := find_repo repo in
  match Str.strip_prefix "refs/heads/" ref ≫= (λ b, branches r !! b) with
  | None =>
      raise (GithubException 404 (Some (PyStr ("No commit found for the ref " ++ ref))))
  | Some head =>
      match tree_of r head ≫= (λ t, t !! path) with
      | Some (Blob content) => ret (ContentFile path (blob_sha content) content)
      | Some Directory => ret ContentList
      | None => not_found
      end
  end.

(** [Repository.get_branch(name).commit.sha] *)
Definition Repository_get_branch (repo name : string) : M string :=
  let* _ := request None in
  let* r := find_repo repo in
  match branches r !! name with
  | Some sha => ret sha
  | None => raise (GithubException 404 (Some (PyStr "Branch not found")))
  end.

(** [Repository.get_git_ref('heads/<branch>').object.sha] *)
Definition Repository_get_git_ref (repo ref : string) : M string :=
  let* _ := request None in
  let* r := find_repo repo in
  match Str.strip_prefix "heads/" ref ≫= (λ b, branches r !! b) with
  | Some sha => ret sha
  | None => not_found
  end.

(** [Repository.get_commit(sha)] and [Repository.get_git_commit(sha)] *)
Definition Repository_get_commit (repo sha : string) : M string :=
  let* _ := request None in
  let* r := find_repo repo in
  match commits r !! sha with
  | Some _ => ret sha
  | None => not_found
  end.

Definition Repository_get_git_commit (repo sha : string) : M string :=
  Repository_get_commit repo sha.

(** [Repository.get_git_tree(sha)] *)
Definition Repository_get_git_tree (repo sha : string) : M string :=
  let* _ := request None in
  let* r := find_repo repo in
  match trees r !! sha with
  | Some _ => ret sha
  | None => not_found
  end.

(** [Repository.create_git_ref(ref, sha)] *)
Definition Repository_create_git_ref (repo ref sha : string) : M unit :=
  let* _ := request (Some (CreateGitRef repo ref sha)) in
  let* r := find_repo repo in
  match Str.strip_prefix "refs/heads/" ref with
  | None => unprocessable "Reference name must start with refs/"
  | Some b =>
      if bool_decide (is_Some (branches r !! b))
      then unprocessable "Reference already exists"
      else if bool_decide (is_Some (commits r !! sha))
      then store_repo repo (set_branches <[b := sha]> r)
      else unprocessable "Object does not exist"
  end.

(** Store a tree and a commit on top of [parents]; the id of the commit
    and the repository with both objects. *)
Definition add_commit (r : Repository) (t : gmap string TreeEntry)
    (parents : list string) (message : string)
    (author committer : option InputGitAuthor) : string * Repository :=
  let tree_id := new_id r in
  let r1 := set_trees <[tree_id := t]> r in
  let commit_id := new_id r1 in
  (commit_id,
   set_commits <[commit_id := {| commit_tree := tree_id; commit_parents := parents;
                                 commit_message := message; commit_author := author;
                                 commit_committer := committer |}]> r1).

(** [Repository.update_file(path, message, content, sha, branch, ...)]:
    one commit on [branch] that replaces the file at [path], accepted
    only when [sha] is the id of the blob now at [path]. *)
Definition Repository_update_file (repo path message content sha branch : string)
    (committer author : option InputGitAuthor) : M string :=
  let* _ := request (Some (UpdateFile repo path message content sha branch author)) in
  let* r := find_repo repo in
  match branches r !! branch with
  | None => raise (GithubException 404 (Some (PyStr "Branch not found")))
  | Some head =>
      match tree_of r head with
      | None => not_found
      | Some t =>
          match t !! path with
          | Some (Blob old) =>
              if bool_decide (blob_sha old = sha)
              then
                let '(c, r') := add_commit r (<[path := Blob content]> t) [head]
                                  message author committer in
                let* _ := store_repo repo (set_branches <[branch := c]> r') in
                ret c
              else raise (GithubException 409
                            (Some (PyStr (path ++ " does not match " ++ sha))))
          | _ => raise (GithubException 409
                          (Some (PyStr (path ++ " does not match " ++ sha))))
          end
      end
  end.

(** The tree [base] with the blobs of [elements] laid over it, a later
    element winning over an earlier one at the same path. *)
Definition overlay (elements : list InputGitTreeElement) (base : gmap string TreeEntry)
    : gmap string TreeEntry :=
  foldl (λ t e, <[element_path e := Blob (element_content e)]> t) base elements.

(** [Repository.create_git_tree(tree_elements, base_tree)] *)
Definition Repository_create_git_tree (repo : string)
    (elements : list InputGitTreeElement) (base_tree : string) : M string :=
  let* _ := request (Some (CreateGitTree repo elements base_tree)) in
  let* r := find_repo repo in
  match trees r !! base_tree with
  | None => unprocessable "base_tree is not a valid tree oid"
  | Some base =>
      let tree_id := new_id r in
      let* _ := store_repo repo (set_trees <[tree_id := overlay elements base]> r) in
      ret tree_id
  end.

(** [Repository.create_git_commit(message, tree, parents, author, committer)] *)
Definition Repository_create_git_commit (repo message tree : string)
    (parents : list string) (author committer : option InputGitAuthor) : M string :=
  let* _ := request (Some (CreateGitCommit repo message tree parents author)) in
  let* r := find_repo repo in
  if bool_decide (is_Some (trees r !! tree))
     && forallb (λ p, bool_decide (is_Some (commits r !! p))) parents
  then
    let commit_id := new_id r in
    let* _ := store_repo repo
      (set_commits <[commit_id := {| commit_tree := tree; commit_parents := parents;
                                     commit_message := message; commit_author := author;
                                     commit_committer := committer |}]> r) in
    ret commit_id
  else unprocessable "Tree or parent does not exist".

(** [PATCH <repo url>/git/refs/heads/<branch>] with [{'sha': sha}] and no
    [force]: the branch moves only forward. *)
Definition Requester_patch_ref (repo branch sha : string) : M unit :=
  let* _ := request (Some (PatchRef repo branch sha)) in
  let* r := find_repo repo in
  match branches r !! branch with
  | None => unprocessable "Reference does not exist"
  | Some head =>
      if bool_decide (is_Some (commits r !! sha))
      then if reaches (size (commits r)) (commits r) sha head
           then store_repo repo (set_branches <[branch := sha]> r)
           else unprocessable "Update is not a fast forward"
      else unprocessable "Object does not exist"
  end.

(** [Repository.get_pull(number)] *)
Definition Repository_get_pull (repo : string) (number : N) : M PullRequest :=
  let* _ := request None in
  let* r := find_repo repo in
  match pulls r !! number with
  | Some pr => ret pr
  | None => not_found
  end.

(** The branch named by a head label [owner:branch] (or [branch]). *)
Fixpoint head_ref_of (label : string) : string :=
  match label with
  | String c rest =>
      if bool_decide (c = ":"%char) then rest
      else if Str.contains ":" rest then head_ref_of rest else label
  | "" => ""
  end.

(** [Repository.create_pull(title, body, head, base, maintainer_can_modify)]:
    the number of the new pull request. *)
Definition Repository_create_pull (repo title body head base : string)
    (maintainer_can_modify : bool) : M N :=
  let* _ := request (Some (CreatePull repo title body head base)) in
  let* r := find_repo repo in
  if bool_decide (is_Some (branches r !! head_ref_of head))
     && bool_decide (is_Some (branches r !! base))
  then
    let number := fresh (dom (pulls r)) in
    let* _ := store_repo repo
      (set_pulls <[number := {| pr_title := title; pr_body := body; pr_head_label := head;
                                pr_head_ref := head_ref_of head; pr_base := base;
                                pr_open := true;
                                pr_maintainer_can_modify := maintainer_can_modify;
                                pr_labels := [] |}]> r) in
    ret number
  else unprocessable "Validation Failed".

(** [Repository.get_label(name)] *)
Definition Repository_get_label (repo name : string) : M string :=
  let* _ := request None in
  let* r := find_repo repo in
  if bool_decide (name ∈ labels r) then ret name else not_found.

(** [PullRequest.add_to_labels(label)] *)
Definition PullRequest_add_to_labels (repo : string) (number : N) (label : string)
    : M unit :=
  let* _ := request (Some (AddToLabels repo number label)) in
  let* r := find_repo repo in
  match pulls r !! number with
  | Some pr => store_repo repo (set_pulls <[number := add_label label pr]> r)
  | None => not_found
  end.

(** [Repository.get_milestones(state='all', sort='due_on', direction='desc')] *)
Definition Repository_get_milestones (repo : string) : M (list Milestone) :=
  let* _ := request None in
  let* r := find_repo repo in
  ret (milestones r).

End Service.

(** ** The local clone and the processes run in it

    [subprocess.run(..., check=True)] raises [CalledProcessError] when the
    command exits with a non-zero status. *)

(** The regular files of a tree, as a checkout writes them. *)
Definition blobs (t : gmap string TreeEntry) : gmap string string :=
  omap (λ e, match e with Blob content => Some content | Directory => None end) t.

Definition set_objects (cs : gmap string GitCommit) (ts : gmap string (gmap string TreeEntry))
    (g : LocalGit) : LocalGit :=
  {| origin := origin g; origin_reachable := origin_reachable g;
     local_commits := cs; local_trees := ts; index := index g; worktree := worktree g |}.

Definition set_checkout (idx wt : gmap string string) (g : LocalGit) : LocalGit :=
  {| origin := origin g; origin_reachable := origin_reachable g;
     local_commits := local_commits g; local_trees := local_trees g;
     index := idx; worktree := wt |}.

(** [git fetch origin]: the objects of the remote are copied into the
    clone. *)
Definition git_fetch_origin : M unit :=
  let* g := get git in
  let* repos := get gh_repos in
  match repos !! origin g with
  | Some r =>
      if origin_reachable g
      then modify (set_git (set_objects (commits r ∪ local_commits g)
                                        (trees r ∪ local_trees g)))
      else raise (CalledProcessError ["git"; "fetch"; "origin"])
  | None => raise (CalledProcessError ["git"; "fetch"; "origin"])
  end.

(** [git checkout <sha>].  The index, which the code never stages anything
    into, holds the files of the commit checked out before.  A path is
    switched when the commit to check out has something else there than
    the index.  Git refuses when a switched path holds, in the work tree, a
    file that is not the one of the index (a local modification, or an
    untracked file in the way); otherwise it writes the switched paths and
    leaves every other path of the work tree as it is, local modifications
    included. *)
Definition switched (idx target : gmap string string) (path : string) : bool :=
  bool_decide (idx !! path ≠ target !! path).

Definition checkout_refused (idx target wt : gmap string string) : bool :=
  existsb (λ path, switched idx target path
                   && bool_decide (is_Some (wt !! path))
                   && bool_decide (wt !! path ≠ idx !! path))
          (elements (dom idx ∪ dom target)).

Definition checkout_worktree (idx target wt : gmap string string) : gmap string string :=
  filter (λ entry, switched idx target entry.1 = true) target
  ∪ filter (λ entry, switched idx target entry.1 = false) wt.

Definition git_checkout (sha : string) : M unit :=
  let* g := get git in
  match local_commits g !! sha ≫= (λ c, local_trees g !! commit_tree c) with
  | Some t =>
      if checkout_refused (index g) (blobs t) (worktree g)
      then raise (CalledProcessError ["git"; "checkout"; sha])
      else modify (set_git (set_checkout (blobs t)
                              (checkout_worktree (index g) (blobs t) (worktree g))))
  | None => raise (CalledProcessError ["git"; "checkout"; sha])
  end.

(** [git diff --exit-code -- <file>] with [check=False]: whether the
    return code is 0, that is, whether the tracked file is unchanged in
    the work tree.  A path that is not tracked shows no difference. *)
Definition tracked_file_changed (g : LocalGit) (file : string) : bool :=
  match index g !! file with
  | Some tracked => negb (bool_decide (worktree g !! file = Some tracked))
  | None => false
  end.

Definition git_diff_exit_code (file : string) : M bool :=
  let* g := get git in
  ret (negb (tracked_file_changed g file)).

(** [git log -1 --pretty=%T <sha>], decoded and stripped: the id of the
    tree of the commit. *)
Definition git_log_tree (sha : string) : M string :=
  let* g := get git in
  match local_commits g !! sha with
  | Some c => ret (commit_tree c)
  | None => raise (CalledProcessError ["git"; "log"; "-1"; "--pretty=%T"; sha])
  end.

(** [open(file).read()] for a path that is absolute, or relative to the
    work tree. *)
Definition read_file (file : string) : M string :=
  let* w := get id in
  let found := if Str.starts_with (λ c, bool_decide (c = "/"%char)) file
               then files w !! file else worktree (git w) !! file in
  match found with
  | Some content => ret content
  | None => raise (FileNotFoundError file)
  end.

(** ** [go_pr_maker.py] *)

(** The names imported from [pr_to_update_go.constants], which the module
    takes as given.  [GIT_AUTHOR_EMAIL_TEMPLATE] is only ever formatted
    with [git_author_name], so it is kept as that function. *)
Record Constants := {
  ENV_GITHUB_TOKEN : string;
  ENV_GITHUB_REPOSITORY : string;
  ENV_GITHUB_REPOSITORY_OWNER : string;
  GO_REPO_NAME : string;
  RELEASE_PAGE_URL : string;
  ENV_GO_VERSION_FILE : string;
  ENV_GIT_AUTHOR_NAME : string;
  GIT_AUTHOR_EMAIL_TEMPLATE_format : string → string;
}.

(** The attributes of a [GoPRMaker]; [gh_api] is the service of the world,
    [repo] the handle [get_repo] returned, [author] is [None] for [NotSet],
    and [latest_go_version] is [None] until [run] assigns it. *)
Record GoPRMaker := {
  repo : string;
  author : option InputGitAuthor;
  latest_go_version : option string;
}.

(** The keyword arguments [set_go_version] collects for [update_file];
    [committer] is always [NotSet]. *)
Record UpdateFileKwargs := {
  kw_branch : string;
  kw_content : string;
  kw_path : string;
  kw_message : string;
  kw_sha : string;
  kw_author : option InputGitAuthor;
}.

Section Methods.

Variable K : Constants.

Variable blob_sha : string → string.

(** [re.search(pattern, string, re.MULTILINE | re.DOTALL)]: group 0 of the
    match, or the error of a pattern that does not compile. *)
Variable re_search : string → string → result (option string).

(** [template.format(...)] with keyword arguments *)
Variable str_format : string → list (string * string) → result string.

(** The script [update_golang_org_x.sh], as the change it makes to the work
    tree; [None] when it exits with a non-zero status. *)
Variable update_golang_org_x_sh : gmap string string → option (gmap string string).

Definition getenv (var : string) : M string :=
  let* env := get environ in
  match env !! var with
  | Some value => ret value
  | None => raise (KeyError var)
  end.

Definition get_repo_name : M string := getenv (ENV_GITHUB_REPOSITORY K).

Definition get_repo_owner : M string := getenv (ENV_GITHUB_REPOSITORY_OWNER K).

Definition get_release_notes (go_version : string) : M string :=
  let* release_notes_content := (λ w, (release_page w, w)) in
  let go_version_pattern := Str.escape_dots go_version in
  let release_notes_pattern := "<p>\s*\n\s*go" ++ go_version_pattern ++ ".*?</p>" in
  let* release_notes_matches := lift (re_search release_notes_pattern release_notes_content) in
  match release_notes_matches with
  | None => raise (Exception ("Could not find release notes on " ++ RELEASE_PAGE_URL K))
  | Some group0 => ret (Str.collapse_whitespace group0)
  end.

(** [os.path.join(os.path.dirname(__file__), '/pr_template.md')] is
    ['/pr_template.md'], the second component being absolute. *)
Definition get_pr_body (go_version milestone_url : string) : M string :=
  let* pr_template := read_file (Str.path_join "pr_to_update_go" "/pr_template.md") in
  let go_major_version := get_major_version go_version in
  let* release_notes := get_release_notes go_version in
  lift (str_format pr_template
          [("GO_VERSION", go_version); ("GO_MAJOR_VERSION", go_major_version);
           ("RELEASE_NOTES", release_notes); ("MILESTONE_URL", milestone_url)]).

(** The [for ... else] of [get_latest_major_upgrade]: [Some] version when
    the loop leaves through [break], [None] when it runs to its end. *)
Fixpoint latest_major_loop (major_version : string) (go_version_content : list GoVersion)
    : option string :=
  match go_version_content with
  | [] => None
  | go_version :: rest =>
      if negb (stable go_version) then latest_major_loop major_version rest
      else
        match search_version_token (version go_version) with
        | None => latest_major_loop major_version rest
        | Some fetched_go_version =>
            if bool_decide (major_version = get_major_version fetched_go_version)
            then Some fetched_go_version
            else latest_major_loop major_version rest
        end
  end.

Definition get_latest_major_upgrade (from_go_version : string) : M string :=
  let major_version := get_major_version from_go_version in
  let* go_version_content := (λ w, (go_version_feed w, w)) in
  match latest_major_loop major_version go_version_content with
  | Some fetched_go_version => ret fetched_go_version
  | None => raise (Exception ("No supported " ++ major_version ++ " Go versions exist."))
  end.

Definition get_repo (repo_name : string) : M string :=
  try_except (Github_get_repo repo_name)
    (λ e, if is_BadCredentialsException e
          then Some (raise (PermissionError ("Credentials from token '" ++ ENV_GITHUB_TOKEN K
                                             ++ "' were bad")))
          else None).

(** [GoPRMaker.__init__] *)
Definition init : M GoPRMaker :=
  let* repo_name := get_repo_name in
  let* repo := get_repo repo_name in
  let* author :=
    try_except
      (let* git_author_name := getenv (ENV_GIT_AUTHOR_NAME K) in
       let git_author_email := GIT_AUTHOR_EMAIL_TEMPLATE_format K git_author_name in
       ret (Some {| author_name := git_author_name; author_email := git_author_email |}))
      (λ e, match e with KeyError _ => Some (ret None) | _ => None end) in
  ret {| repo := repo; author := author; latest_go_version := None |}.

Definition file_contents (self : GoPRMaker) (file branch : string)
    : M (string * string * string) :=
  let* contents := Repository_get_contents blob_sha (repo self) file ("refs/heads/" ++ branch) in
  match contents with
  | ContentList =>
      raise (IsADirectoryError ("cannot get file contents of '" ++ file ++ "': is a directory"))
  | ContentFile path sha decoded_content => ret (path, sha, decoded_content)
  end.

Definition get_repo_go_version (self : GoPRMaker) (branch : string) : M string :=
  let* go_version_file := getenv (ENV_GO_VERSION_FILE K) in
  let* (_, decoded_content) := file_contents self go_version_file branch in
  ret decoded_content.

(** Reading [self.latest_go_version] *)
Definition get_latest_go_version (self : GoPRMaker) : M string :=
  match latest_go_version self with
  | Some v => ret v
  | None => raise (AttributeError "latest_go_version")
  end.

(** [branch_exists]: the [try] block yields [Some True] when it returns
    and [None] when control falls through to the final [return False]. *)
Definition branch_exists (self : GoPRMaker) (branch : string) : M bool :=
  let* returned :=
    try_except
      (let* repo_go_version := get_repo_go_version self branch in
       let* latest := get_latest_go_version self in
       if bool_decide (latest = repo_go_version) then ret (Some true) else ret None)
      (λ e, match e with
            | GithubException _ data =>
                match data with
                | None => Some (raise (KeyError "message"))
                | Some (PyStr message) =>
                    if bool_decide (is_Some (Str.strip_prefix "No commit found for the ref" message))
                    then Some (ret None)
                    else None
                | Some PyOther => None
                end
            | _ => None
            end) in
  match returned with
  | Some b => ret b
  | None => ret false
  end.

Definition update_branch (self : GoPRMaker) (branch_name sha : string) : M unit :=
  Requester_patch_ref (repo self) branch_name sha.

Fixpoint find_milestone (milestone_title : string) (milestones : list Milestone)
    : option Milestone :=
  match milestones with
  | [] => None
  | milestone :: rest =>
      if bool_decide (title milestone = milestone_title) then Some milestone
      else find_milestone milestone_title rest
  end.

Definition get_go_milestone (self : GoPRMaker) (go_version : string) : M (option string) :=
  let* go_repo := get_repo (GO_REPO_NAME K) in
  let* milestones := Repository_get_milestones go_repo in
  let milestone_title := "Go" ++ go_version in
  match find_milestone milestone_title milestones with
  | Some milestone => ret (raw_html_url milestone)
  | None => raise (Exception ("Could not find a milestone named " ++ milestone_title ++ "."))
  end.

Definition update_file (self : GoPRMaker) (kwargs : UpdateFileKwargs) : M string :=
  Repository_update_file blob_sha (repo self) (kw_path kwargs) (kw_message kwargs)
    (kw_content kwargs) (kw_sha kwargs) (kw_branch kwargs) None (kw_author kwargs).

Definition set_go_version (self : GoPRMaker)
    (go_version commit_message source_branch_name : string) : M string :=
  let* sha := Repository_get_branch (repo self) "master" in
  let ref := "refs/heads/" ++ source_branch_name in
  let* _ := Repository_create_git_ref (repo self) ref sha in
  let* go_version_file := getenv (ENV_GO_VERSION_FILE K) in
  let* (_, file_sha, _) := file_contents self go_version_file source_branch_name in
  let kwargs :=
    {| kw_branch := source_branch_name;
       kw_content := "$" ++ go_version ++ new_line;
       kw_path := go_version_file;
       kw_message := commit_message;
       kw_sha := file_sha;
       kw_author := None |} in
  let* kwargs :=
    try_except
      (let* git_author_name := getenv (ENV_GIT_AUTHOR_NAME K) in
       let git_author_email := GIT_AUTHOR_EMAIL_TEMPLATE_format K git_author_name in
       let author := {| author_name := git_author_name; author_email := git_author_email |} in
       ret {| kw_branch := kw_branch kwargs; kw_content := kw_content kwargs;
              kw_path := kw_path kwargs; kw_message := kw_message kwargs;
              kw_sha := kw_sha kwargs; kw_author := Some author |})
      (λ e, match e with KeyError _ => Some (ret kwargs) | _ => None end) in
  let* _ := update_file self kwargs in
  let env_path := Str.path_join (Str.dirname go_version_file) ".env" in
  let* (_, file_sha', _) := file_contents self go_version_file source_branch_name in
  let kwargs :=
    {| kw_branch := kw_branch kwargs;
       kw_content := "GO_VERSION=" ++ go_version ++ new_line;
       kw_path := env_path;
       kw_message := kw_message kwargs;
       kw_sha := file_sha';
       kw_author := kw_author kwargs |} in
  update_file self kwargs.

Definition files_to_check : list string :=
  ["go.mod"; "go.sum"; Str.path_join "vendor" "modules.txt"].

(** The loop of [update_golang_org_x] over [files_to_check], appending to
    [tree_elements]. *)
Fixpoint collect_tree_elements (files : list string)
    (tree_elements : list InputGitTreeElement) : M (list InputGitTreeElement) :=
  match files with
  | [] => ret tree_elements
  | file :: rest =>
      let* unchanged := git_diff_exit_code file in
      if unchanged then collect_tree_elements rest tree_elements
      else
        let* content := read_file file in
        let tree_element := {| element_path := file; element_content := content |} in
        collect_tree_elements rest (tree_elements ++ [tree_element])
  end.

Definition run_update_golang_org_x_sh : M unit :=
  let* g := get git in
  match update_golang_org_x_sh (worktree g) with
  | Some wt => modify (set_git (set_checkout (index g) wt))
  | None => raise (CalledProcessError ["pr_to_update_go/update_golang_org_x.sh"])
  end.

Definition update_golang_org_x (self : GoPRMaker) (previous_commit : string)
    : M (option string) :=
  let* _ := git_fetch_origin in
  let* _ := git_checkout previous_commit in
  let* _ := run_update_golang_org_x_sh in
  let* tree_elements := collect_tree_elements files_to_check [] in
  if bool_decide (length tree_elements = 0) then ret None
  else
    let* tree_hash := git_log_tree previous_commit in
    let* base_tree := Repository_get_git_tree (repo self) tree_hash in
    let* tree := Repository_create_git_tree (repo self) tree_elements base_tree in
    let* latest := get_latest_go_version self in
    let commit_message := "Update golang.org/x/ dependencies for go" ++ latest in
    let* previous_git_commit := Repository_get_git_commit (repo self) previous_commit in
    let* git_commit :=
      Repository_create_git_commit (repo self) commit_message tree [previous_git_commit]
        (author self) (author self) in
    ret (Some git_commit).

(** The loop of [create_pr] over the search results: [true] when it
    returns from the function, [false] when it runs to its end. *)
Fixpoint find_pull (self : GoPRMaker) (prs : list N) (source_branch_name : string) : M bool :=
  match prs with
  | [] => ret false
  | list_item :: rest =>
      let* pull_request := Repository_get_pull (repo self) list_item in
      if bool_decide (pr_head_ref pull_request ≠ source_branch_name)
      then find_pull self rest source_branch_name
      else ret true
  end.

Definition create_pr (self : GoPRMaker)
    (latest_go_version commit_message owner source_branch_name target_branch : string)
    : M unit :=
  let* prs := Github_search_issues
                ("repo:" ++ repo self ++ " is:pr is:open head:" ++ source_branch_name) in
  let* returned := find_pull self prs source_branch_name in
  if returned then ret tt
  else
    let* milestone_url := get_go_milestone self latest_go_version in
    match milestone_url with
    | None => raise (LookupError ("no milestone found for '$" ++ latest_go_version ++ "'"))
    | Some milestone_url =>
        let* pr_body := get_pr_body latest_go_version milestone_url in
        let* pull_request :=
          Repository_create_pull (repo self) commit_message pr_body
            (owner ++ ":" ++ source_branch_name) target_branch true in
        try_except
          (let* go_version_label := Repository_get_label (repo self) "go version" in
           PullRequest_add_to_labels (repo self) pull_request go_version_label)
          (λ e, if is_UnknownObjectException e then Some (ret tt) else None)
    end.

Definition set_latest_go_version (v : string) (self : GoPRMaker) : GoPRMaker :=
  {| repo := repo self; author := author self; latest_go_version := Some v |}.

(** [run]: the object, with the attribute [run] assigned, is the result. *)
Definition run (self : GoPRMaker) (update_version_only : bool) : M GoPRMaker :=
  let* repo_go_version := get_repo_go_version self "master" in
  let* latest := get_latest_major_upgrade repo_go_version in
  let self := set_latest_go_version latest self in
  let commit_message := "Update Go version to " ++ latest in
  let source_branch_name := "go-" ++ latest in
  let target_branch := "master" in
  if bool_decide (repo_go_version = latest) then ret self
  else
    let* exists_ := branch_exists self source_branch_name in
    let* commit :=
      if negb exists_
      then let* c := set_go_version self latest commit_message source_branch_name in
           ret (Some c)
      else ret None in
    let* commit :=
      match commit with
      | Some c => ret c
      | None =>
          let* source_branch_ref :=
            Repository_get_git_ref (repo self) ("heads/" ++ source_branch_name) in
          Repository_get_commit (repo self) source_branch_ref
      end in
    let* _ := git_fetch_origin in
    let* _ := git_checkout commit in
    if update_version_only then ret self
    else
      let* update_golang_org_x_commit := update_golang_org_x self commit in
      let* _ :=
        match update_golang_org_x_commit with
        | Some sha => update_branch self source_branch_name sha
        | None => ret tt
        end in
      let* owner := get_repo_owner in
      let* _ := create_pr self latest commit_message owner source_branch_name target_branch in
      ret self.

End Methods.

(** ** [re.search] and [str.format]

    The two library functions are parameters of the methods above.  For
    running the methods they are given here on the part of their syntax
    that the patterns of [get_release_notes] and a template of named
    fields use; on a pattern or a template outside that part the sample
    functions say so with an [Exception]. *)

Module Re.

Inductive atom :=
| Lit (c : ascii)
(** [\s] *)
| Space
(** [.] under [re.DOTALL] *)
| Any.

Inductive token :=
| TAtom (a : atom)
| TStar
| TQuestion.

(** An atom, alone or under the greedy [*] or the lazy [*?]. *)
Inductive item :=
| One (a : atom)
| Star (a : atom)
| LazyStar (a : atom).

Definition is_alnum (c : ascii) : bool :=
  let n := nat_of_ascii c in
  ((48 <=? n)%nat && (n <=? 57)%nat) || ((65 <=? n)%nat && (n <=? 90)%nat)
  || ((97 <=? n)%nat && (n <=? 122)%nat).

Definition is_special (c : ascii) : bool := Str.contains c ".^$*+?{}[]\|()".

(** A backslash makes [\s] the class of white space, [\n] the line feed
    and a character that is neither a letter nor a digit that character. *)
Definition escaped (c : ascii) : option atom :=
  if bool_decide (c = "s"%char) then Some Space
  else if bool_decide (c = "n"%char) then Some (Lit "010"%char)
  else if is_alnum c then None
  else Some (Lit c).

Definition plain (c : ascii) : option token :=
  if bool_decide (c = "*"%char) then Some TStar
  else if bool_decide (c = "?"%char) then Some TQuestion
  else if bool_decide (c = "."%char) then Some (TAtom Any)
  else if is_special c then None
  else Some (TAtom (Lit c)).

Fixpoint tokens (pattern : string) : option (list token) :=
  match pattern with
  | "" => Some []
  | String c p =>
      if bool_decide (c = "\"%char) then
        match p with
        | String d p' =>
            a ← escaped d; ts ← tokens p'; Some (TAtom a :: ts)
        | "" => None
        end
      else t ← plain c; ts ← tokens p; Some (t :: ts)
  end.

Fixpoint items (ts : list token) : option (list item) :=
  match ts with
  | [] => Some []
  | TAtom a :: ts' =>
      match ts' with
      | TStar :: TQuestion :: ts'' => its ← items ts''; Some (LazyStar a :: its)
      | TStar :: ts'' => its ← items ts''; Some (Star a :: its)
      | _ => its ← items ts'; Some (One a :: its)
      end
  | _ => None
  end.

Definition accepts (a : atom) (c : ascii) : bool :=
  match a with
  | Lit d => bool_decide (c = d)
  | Space => Str.is_space c
  | Any => true
  end.

(** The text the pattern matches at the start of [s], found as the
    backtracking matcher finds it: a greedy star tries the longest run
    first, a lazy one the shortest. *)
Fixpoint match_here (its : list item) : string → option string :=
  match its with
  | [] => λ _, Some ""
  | One a :: rest =>
      λ s, match s with
           | String c s' => if accepts a c then String c <$> match_here rest s' else None
           | "" => None
           end
  | Star a :: rest =>
      fix star (s : string) : option string :=
        match s with
        | String c s' =>
            if accepts a c then
              match star s' with
              | Some m => Some (String c m)
              | None => match_here rest s
              end
            else match_here rest s
        | "" => match_here rest ""
        end
  | LazyStar a :: rest =>
      fix star (s : string) : option string :=
        match match_here rest s with
        | Some m => Some m
        | None =>
            match s with
            | String c s' => if accepts a c then String c <$> star s' else None
            | "" => None
            end
        end
  end.

(** The match at the leftmost position that has one. *)
Fixpoint search_from (its : list item) (s : string) : option string :=
  match match_here its s with
  | Some m => Some m
  | None =>
      match s with
      | String _ s' => search_from its s'
      | "" => None
      end
  end.

(** [re.search(pattern, text, re.MULTILINE | re.DOTALL)], group 0 *)
Definition search (pattern text : string) : result (option string) :=
  match tokens pattern ≫= items with
  | Some its => Ok (search_from its text)
  | None => Err (Exception "re.search: pattern outside the syntax of the sample")
  end.

End Re.

Module Fmt.

Definition is_name_char (c : ascii) : bool :=
  Re.is_alnum c || bool_decide (c = "_"%char).

Fixpoint lookup_field (name : string) (kwargs : list (string * string)) : option string :=
  match kwargs with
  | [] => None
  | (k, v) :: rest => if bool_decide (k = name) then Some v else lookup_field name rest
  end.

(** [field] is the name read so far of the replacement field the scan is
    in, [None] outside a field.  [{{] and [}}] stand for a brace. *)
Fixpoint format_from (field : option string) (template : string)
    (kwargs : list (string * string)) : result string :=
  match template with
  | "" =>
      match field with
      | None => Ok ""
      | Some _ => Err (ValueError "expected '}' before end of string")
      end
  | String c t =>
      match field with
      | Some name =>
          if bool_decide (c = "}"%char) then
            if bool_decide (name = "") || Str.starts_with Str.is_digit name
            then Err (Exception "str.format: positional field outside the syntax of the sample")
            else
              match lookup_field name kwargs with
              | Some value =>
                  match format_from None t kwargs with
                  | Ok rest => Ok (value ++ rest)
                  | Err e => Err e
                  end
              | None => Err (KeyError name)
              end
          else if is_name_char c then format_from (Some (name ++ String c "")) t kwargs
          else Err (Exception "str.format: field outside the syntax of the sample")
      | None =>
          if bool_decide (c = "{"%char) then
            match t with
            | String d t' =>
                if bool_decide (d = "{"%char) then
                  match format_from None t' kwargs with
                  | Ok rest => Ok (String "{" rest)
                  | Err e => Err e
                  end
                else format_from (Some "") t kwargs
            | "" => Err (ValueError "Single '{' encountered in format string")
            end
          else if bool_decide (c = "}"%char) then
            match t with
            | String d t' =>
                if bool_decide (d = "}"%char) then
                  match format_from None t' kwargs with
                  | Ok rest => Ok (String "}" rest)
                  | Err e => Err e
                  end
                else Err (ValueError "Single '}' encountered in format string")
            | "" => Err (ValueError "Single '}' encountered in format string")
            end
          else
            match format_from None t kwargs with
            | Ok rest => Ok (String c rest)
            | Err e => Err e
            end
      end
  end.

(** [template.format(...)] with the keyword arguments [kwargs] *)
Definition format (template : string) (kwargs : list (string * string)) : result string :=
  format_from None template kwargs.

End Fmt.

(** ** A sample world

    The repository [apache/trafficcontrol] pins Go 1.22.1 on [master]; the
    release index lists 1.22.5 as the newest stable 1.22 release. *)

Module Sample.

Definition K : Constants :=
  {| ENV_GITHUB_TOKEN := "GITHUB_TOKEN";
     ENV_GITHUB_REPOSITORY := "GITHUB_REPOSITORY";
     ENV_GITHUB_REPOSITORY_OWNER := "GITHUB_REPOSITORY_OWNER";
     GO_REPO_NAME := "golang/go";
     RELEASE_PAGE_URL := "https://go.dev/doc/devel/release";
     ENV_GO_VERSION_FILE := "GO_VERSION_FILE";
     ENV_GIT_AUTHOR_NAME := "GIT_AUTHOR_NAME";
     GIT_AUTHOR_EMAIL_TEMPLATE_format := λ name, name ++ "@users.noreply.github.com" |}.

(** Blob ids that tell contents apart. *)
Definition blob_sha (content : string) : string := "blob:" ++ content.

Definition re_search : string → string → result (option string) := Re.search.

Definition str_format : string → list (string * string) → result string := Fmt.format.

(** The release history, as the Go web site lays it out. *)
Definition release_history : string :=
  "<h2 id=go1.22>go1.22 (released 2024-02-06)</h2>" ++ new_line
  ++ "<p>" ++ new_line
  ++ "  go1.22.4 (released 2024-06-04) includes security fixes to the" ++ new_line
  ++ "  archive/zip and net/netip packages." ++ new_line
  ++ "</p>" ++ new_line
  ++ "<p>" ++ new_line
  ++ "  go1.22.5 (released 2024-07-02) includes security fixes to the" ++ new_line
  ++ "  net/http package,  as well as bug fixes to the compiler." ++ new_line
  ++ "</p>" ++ new_line.

Definition pr_template : string :=
  "Update Go to {GO_VERSION}, the latest of Go {GO_MAJOR_VERSION}." ++ new_line
  ++ "{RELEASE_NOTES}" ++ new_line
  ++ "Milestone: {MILESTONE_URL}" ++ new_line.

(** The script rewrites [go.sum]. *)
Definition update_golang_org_x_sh (wt : gmap string string) : option (gmap string string) :=
  Some (<["go.sum" := "golang.org/x/sys v0.21.0"]> wt).

(** A script that finds nothing to update. *)
Definition idle_sh (wt : gmap string string) : option (gmap string string) := Some wt.

Definition root_commit : GitCommit :=
  {| commit_tree := "t0"; commit_parents := []; commit_message := "Initial commit";
     commit_author := None; commit_committer := None |}.

Definition root_tree : gmap string TreeEntry :=
  {[ "GO_VERSION" := Blob "1.22.1";
     ".env" := Blob ("GO_VERSION=1.22.1" ++ new_line);
     "go.mod" := Blob "go 1.22";
     "go.sum" := Blob "golang.org/x/sys v0.20.0";
     "vendor" := Directory;
     "vendor/modules.txt" := Blob "# golang.org/x/sys v0.20.0" ]}.

Definition trafficcontrol : Repository :=
  {| branches := {[ "master" := "c0" ]};
     commits := {[ "c0" := root_commit ]};
     trees := {[ "t0" := root_tree ]};
     pulls := ∅;
     labels := {[ "go version" ]};
     milestones := [] |}.

Definition milestone_1_23 : Milestone :=
  {| title := "Go1.23"; raw_html_url := Some "https://github.com/golang/go/milestone/212" |}.

Definition milestone_1_22 : Milestone :=
  {| title := "Go1.22"; raw_html_url := Some "https://github.com/golang/go/milestone/201" |}.

(** A milestone whose raw data has no [html_url]. *)
Definition milestone_1_22_5 : Milestone :=
  {| title := "Go1.22.5"; raw_html_url := None |}.

Definition golang (ms : list Milestone) : Repository :=
  {| branches := ∅; commits := ∅; trees := ∅; pulls := ∅; labels := ∅; milestones := ms |}.

Definition feed : list GoVersion :=
  [ {| stable := false; version := "go1.23rc1" |};
    {| stable := true; version := "go1.22.5" |};
    {| stable := true; version := "go1.22.4" |};
    {| stable := true; version := "go1.21.12" |} ].

Definition clone : LocalGit :=
  {| origin := "apache/trafficcontrol"; origin_reachable := true;
     local_commits := ∅; local_trees := ∅; index := ∅; worktree := ∅ |}.

Definition world_with (content : list GoVersion) (tc : Repository) (ms : list Milestone)
    (search : gmap string (list N)) : World :=
  {| environ := {[ "GITHUB_REPOSITORY" := "apache/trafficcontrol";
                   "GITHUB_REPOSITORY_OWNER" := "apache";
                   "GO_VERSION_FILE" := "GO_VERSION" ]};
     files := {[ "/pr_template.md" := pr_template ]};
     go_version_feed := Ok content;
     release_page := Ok release_history;
     gh_outage := None;
     gh_repos := {[ "apache/trafficcontrol" := tc; "golang/go" := golang ms ]};
     gh_search := search;
     gh_log := [];
     git := clone |}.

Definition world : World :=
  world_with feed trafficcontrol [milestone_1_23; milestone_1_22] ∅.

(** Scenario A: the newest stable 1.22 release is the pinned one. *)
Definition world_up_to_date : World :=
  world_with [ {| stable := true; version := "go1.23.0" |};
               {| stable := true; version := "go1.22.1" |} ]
    trafficcontrol [milestone_1_23; milestone_1_22] ∅.

(** The version file ends with a line feed, as a text file does. *)
Definition trafficcontrol_newline : Repository :=
  set_trees (λ _, {[ "t0" := <["GO_VERSION" := Blob ("1.22.1" ++ new_line)]> root_tree ]})
    trafficcontrol.

Definition world_newline : World :=
  world_with [ {| stable := true; version := "go1.23.0" |};
               {| stable := true; version := "go1.22.1" |} ]
    trafficcontrol_newline [milestone_1_23; milestone_1_22] ∅.

(** The service answers every request with the error [e]. *)
Definition world_outage (e : exn) : World :=
  {| environ := environ world; files := files world;
     go_version_feed := go_version_feed world; release_page := release_page world;
     gh_outage := Some e;
     gh_repos := gh_repos world; gh_search := gh_search world;
     gh_log := []; git := git world |}.

(** A 502 with a body that is not JSON: PyGithub's [data] then has no
    ["message"]. *)
Definition world_bad_gateway : World := world_outage (GithubException 502 None).

Definition server_error : exn := GithubException 500 (Some (PyStr "Server Error")).

(** Pull request 7 is open on the working branch; 5 is one the search
    also serves, on another branch. *)
Definition open_pull (head_ref : string) : PullRequest :=
  {| pr_title := "Update Go version to 1.22.5"; pr_body := "";
     pr_head_label := "apache:" ++ head_ref; pr_head_ref := head_ref; pr_base := "master";
     pr_open := true; pr_maintainer_can_modify := true; pr_labels := [] |}.

Definition trafficcontrol_with_pulls : Repository :=
  set_pulls (λ _, {[ 5%N := open_pull "go-1.22.5-backport"; 7%N := open_pull "go-1.22.5" ]})
    trafficcontrol.

Definition search_results : gmap string (list N) :=
  {[ "repo:apache/trafficcontrol is:pr is:open head:go-1.22.5" := [5%N; 7%N] ]}.

Definition world_with_pull : World :=
  world_with feed trafficcontrol_with_pulls [milestone_1_23; milestone_1_22] search_results.

(** The search serves only pull request 5, and the milestone of 1.22.5 has
    no [html_url]. *)
Definition world_without_url : World :=
  world_with feed trafficcontrol_with_pulls [milestone_1_23; milestone_1_22_5]
    {[ "repo:apache/trafficcontrol is:pr is:open head:go-1.22.5" := [5%N] ]}.

Definition maker : GoPRMaker :=
  {| repo := "apache/trafficcontrol"; author := None; latest_go_version := None |}.

(** The paragraph of 1.22.5 in [release_history], white space collapsed. *)
Definition notes_1_22_5 : string :=
  "<p> go1.22.5 (released 2024-07-02) includes security fixes to the net/http package,"
  ++ " as well as bug fixes to the compiler. </p>".

(** [pr_template] filled in for 1.22.5. *)
Definition body_1_22_5 (milestone_url : string) : string :=
  "Update Go to 1.22.5, the latest of Go 1.22." ++ new_line
  ++ notes_1_22_5 ++ new_line
  ++ "Milestone: " ++ milestone_url ++ new_line.

Definition maker_1_22_5 : GoPRMaker := set_latest_go_version "1.22.5" maker.

(** The sample world with the author variable set. *)
Definition world_with_author : World :=
  {| environ := <["GIT_AUTHOR_NAME" := "asf-ci"]> (environ world);
     files := files world; go_version_feed := go_version_feed world;
     release_page := release_page world; gh_outage := None;
     gh_repos := gh_repos world; gh_search := gh_search world;
     gh_log := []; git := git world |}.

(** A repository whose [.env] already holds what the version file is about
    to receive. *)
Definition trafficcontrol_dollar_env : Repository :=
  set_trees (λ _, {[ "t0" := <[".env" := Blob ("$1.22.5" ++ new_line)]> root_tree ]})
    trafficcontrol.

Definition world_dollar_env : World :=
  world_with feed trafficcontrol_dollar_env [milestone_1_23; milestone_1_22] ∅.

(** The branch of 1.22.5 is there and pins 1.22.5. *)
Definition bump_commit : GitCommit :=
  {| commit_tree := "t1"; commit_parents := ["c0"];
     commit_message := "Update Go version to 1.22.5";
     commit_author := None; commit_committer := None |}.

Definition bumped_tree : gmap string TreeEntry := <["GO_VERSION" := Blob "1.22.5"]> root_tree.

Definition trafficcontrol_bumped (prs : gmap N PullRequest) : Repository :=
  {| branches := {[ "master" := "c0"; "go-1.22.5" := "c1" ]};
     commits := {[ "c0" := root_commit; "c1" := bump_commit ]};
     trees := {[ "t0" := root_tree; "t1" := bumped_tree ]};
     pulls := prs;
     labels := {[ "go version" ]};
     milestones := [] |}.

Definition milestone_1_22_5_with_url : Milestone :=
  {| title := "Go1.22.5";
     raw_html_url := Some "https://github.com/golang/go/milestone/340" |}.

(** The branch is ready and no pull request is open yet. *)
Definition world_ready : World :=
  world_with feed (trafficcontrol_bumped ∅) [milestone_1_23; milestone_1_22_5_with_url] ∅.

(** What a first run leaves behind in [world]. *)
Definition world_after_run : World :=
  (run K blob_sha re_search str_format update_golang_org_x_sh maker false world).2.

End Sample.

(** ** The vocabulary of the properties *)

(** A record the loop stops at: stable, with a version token whose major
    version is the one looked for. *)
Definition eligible (major_version : string) (r : GoVersion) : Prop :=
  stable r = true
  ∧ ∃ token, search_version_token (version r) = Some token
             ∧ get_major_version token = major_version.

(** An action that leaves the world as it found it, whatever it returns. *)
Definition read_only {A} (m : M A) : Prop := ∀ w, (m w).2 = w.

(** An action that takes no request back: the log it leaves ends with the
    log it found. *)
Definition log_grows {A} (m : M A) : Prop := ∀ w, gh_log w `suffix_of` gh_log (m w).2.

(** The error [branch_exists] takes for a missing ref: a [GithubException]
    whose message is a [str] that starts with the fixed text. *)
Definition is_ref_not_found (e : exn) : bool :=
  match e with
  | GithubException _ (Some (PyStr message)) =>
      bool_decide (is_Some (Str.strip_prefix "No commit found for the ref" message))
  | _ => false
  end.

(** The steps run in the clone leave the service alone, and fail only as
    a process that exits with an error. *)
Definition local_step (m : M unit) : Prop :=
  ∀ w r w', m w = (r, w') →
    gh_repos w' = gh_repos w ∧ gh_log w' = gh_log w
    ∧ origin (git w') = origin (git w)
    ∧ (r = Ok tt ∨ ∃ cmd, r = Err (CalledProcessError cmd)).

(** What a request sent by [set_go_version] looks like, for the version
    file named by the environment. *)
Definition sent_by_set_go_version (blob_sha : string → string)
    (go_version commit_message source_branch_name go_version_file : string) (q : Request)
    : Prop :=
  match q with
  | CreateGitRef _ ref _ => ref = "refs/heads/" ++ source_branch_name
  | UpdateFile _ path message content sha branch _ =>
      message = commit_message ∧ branch = source_branch_name
      ∧ ((path = go_version_file ∧ content = "$" ++ go_version ++ new_line)
         ∨ (path = Str.path_join (Str.dirname go_version_file) ".env"
            ∧ content = "GO_VERSION=" ++ go_version ++ new_line
            ∧ sha = blob_sha ("$" ++ go_version ++ new_line)))
  | _ => False
  end.

(** The entry at [path] in the tree at the head of a branch. *)
Definition file_on_branch (w : World) (name branch path : string) : option TreeEntry :=
  R ← gh_repos w !! name; head ← branches R !! branch; t ← tree_of R head; t !! path.

(** A text in which white space is only ever one space at a time;
    [after_space] says whether the character before was a space. *)
Fixpoint single_spaced (after_space : bool) (s : string) : bool :=
  match s with
  | String c s' =>
      if Str.is_space c
      then bool_decide (c = " "%char) && negb after_space && single_spaced true s'
      else single_spaced false s'
  | "" => true
  end.

(** The characters of a text that are not white space, in order. *)
Fixpoint visible (s : string) : string :=
  match s with
  | String c s' => if Str.is_space c then visible s' else String c (visible s')
  | "" => ""
  end.

(** The author a request is sent with. *)
Definition request_author (q : Request) : option (option InputGitAuthor) :=
  match q with
  | UpdateFile _ _ _ _ _ _ a => Some a
  | CreateGitCommit _ _ _ _ a => Some a
  | _ => None
  end.

(** The repositories of [w'] are those of [w] with, at most, commits and
    trees added: no branch moved, no pull request or label touched, no
    object replaced. *)
Definition repos_extended (w w' : World) : Prop :=
  ∀ name R, gh_repos w !! name = Some R →
    ∃ R', gh_repos w' !! name = Some R'
      ∧ branches R' = branches R ∧ pulls R' = pulls R ∧ labels R' = labels R
      ∧ milestones R' = milestones R
      ∧ commits R ⊆ commits R' ∧ trees R ⊆ trees R'.

(** The requests that prepare the branch: creating it and updating its
    files. *)
Definition prepares_branch (q : Request) : Prop :=
  match q with
  | CreateGitRef _ _ _ | UpdateFile _ _ _ _ _ _ _ => True
  | _ => False
  end.

(** * Properties *)

(** ** Strings *)

Lemma append_empty_r (s : string) : s ++ "" = s.
Proof. induction s as [|c s IH]; simpl; [done|]. by rewrite IH. Qed.

Lemma append_assoc (a b c : string) : (a ++ b) ++ c = a ++ (b ++ c).
Proof. induction a as [|x a IH]; simpl; [done|]. by rewrite IH. Qed.

Lemma span_spec (p : ascii → bool) (s a b : string) :
  Str.span p s = (a, b) →
  s = a ++ b ∧ Str.all p a = true ∧ Str.starts_with p b = false.
Proof.
  revert a b. induction s as [|c s IH]; intros a b H; simpl in H.
  - inversion H; subst. done.
  - destruct (p c) eqn:Hc.
    + destruct (Str.span p s) as [a' b'] eqn:Hs. inversion H; subst.
      destruct (IH a' b eq_refl) as (-> & Hall & Hb).
      simpl. rewrite Hc, Hall. done.
    + inversion H; subst. simpl. by rewrite Hc.
Qed.

Lemma span_app (p : ascii → bool) (a b : string) :
  Str.all p a = true →
  Str.span p (a ++ b) = (a ++ fst (Str.span p b), snd (Str.span p b)).
Proof.
  induction a as [|c a IH]; simpl; intros H.
  - by destruct (Str.span p b).
  - apply andb_true_iff in H as [Hc Ha]. rewrite Hc, (IH Ha). done.
Qed.

Lemma span_stop (p : ascii → bool) (b : string) :
  Str.starts_with p b = false → Str.span p b = ("", b).
Proof. destruct b as [|c b]; simpl; [done|]. by intros ->. Qed.

Lemma app_nonempty_l (a b : string) : a ≠ "" → a ++ b ≠ "".
Proof. by destruct a. Qed.

Lemma dot_is_not_digit (c : ascii) : Str.is_dot c = true → Str.is_digit c = false.
Proof. unfold Str.is_dot. intros ->%bool_decide_eq_true. reflexivity. Qed.

(** A string that begins with digits, a dot and digits: what
    [get_major_version] makes of it. *)
Lemma get_major_version_match (major minor rest : string) :
  Str.all Str.is_digit major = true → Str.all Str.is_digit minor = true →
  major ≠ "" → minor ≠ "" →
  get_major_version (major ++ "." ++ minor ++ rest)
  = major ++ "." ++ minor ++ fst (Str.span Str.is_digit rest).
Proof.
  intros HM Hm HM0 Hm0. unfold get_major_version.
  rewrite (span_app _ _ _ HM). simpl.
  destruct major as [|c major]; [done|]. simpl.
  rewrite (span_app _ _ _ Hm).
  destruct (Str.span Str.is_digit rest) as [d r] eqn:Hr. simpl.
  destruct minor as [|c' minor]; [done|]. simpl.
  by rewrite append_empty_r.
Qed.

(** ** The doctests and a few paths *)

Example get_major_version_doctest_1 : get_major_version "1.23.45-6rc7" = "1.23".
Proof. reflexivity. Qed.

Example get_major_version_doctest_2 : get_major_version "not a release version" = "".
Proof. reflexivity. Qed.

Example search_version_token_go : search_version_token "go1.22.5" = Some "1.22.5".
Proof. reflexivity. Qed.

Example dirname_plain : Str.dirname "GO_VERSION" = "" ∧ Str.dirname "a/b/GO_VERSION" = "a/b"
  ∧ Str.dirname "/GO_VERSION" = "/" ∧ Str.dirname "a//x" = "a".
Proof. repeat split; reflexivity. Qed.

Example path_join_env : Str.path_join "" ".env" = ".env" ∧ Str.path_join "a/b" ".env" = "a/b/.env"
  ∧ Str.path_join "/" ".env" = "/.env" ∧ Str.path_join "x" "/pr_template.md" = "/pr_template.md".
Proof. repeat split; reflexivity. Qed.

Example collapse_whitespace_ex :
  Str.collapse_whitespace ("<p>" ++ String "010" "  go1.2  x" ++ String "009" (String "010" "y")) = "<p> go1.2 x y".
Proof. reflexivity. Qed.

(** ** C9: [get_major_version] *)

(** C9.  For every version string [v], [get_major_version v] is the
    leading [<digits>.<digits>] substring of [v], both runs of digits
    non-empty and the second as long as it can be, or the empty string when
    [v] starts with no such substring; the two doctests hold. *)
Theorem get_major_version_leading (v : string) :
  get_major_version "1.23.45-6rc7" = "1.23"
  ∧ get_major_version "not a release version" = ""
  ∧ ((∃ major minor rest,
        v = major ++ "." ++ minor ++ rest
        ∧ Str.all Str.is_digit major = true ∧ major ≠ ""
        ∧ Str.all Str.is_digit minor = true ∧ minor ≠ ""
        ∧ Str.starts_with Str.is_digit rest = false
        ∧ get_major_version v = major ++ "." ++ minor)
     ∨ (get_major_version v = ""
        ∧ ∀ major minor rest,
            Str.all Str.is_digit major = true → major ≠ "" →
            Str.all Str.is_digit minor = true → minor ≠ "" →
            v ≠ major ++ "." ++ minor ++ rest)).
Proof.
  split; [reflexivity|]. split; [reflexivity|].
  destruct (decide (get_major_version v = "")) as [Hempty|Hne].
  - right. split; [done|]. intros major minor rest HM HM0 Hm Hm0 ->.
    rewrite get_major_version_match in Hempty by done.
    by destruct major.
  - left. unfold get_major_version in *.
    destruct (Str.span Str.is_digit v) as [major rest] eqn:Hv.
    destruct major as [|c major]; [done|].
    destruct rest as [|d rest]; [done|].
    destruct (Str.is_dot d) eqn:Hd; [|done].
    destruct (Str.span Str.is_digit rest) as [minor rest'] eqn:Hrest.
    destruct minor as [|c' minor]; [done|].
    apply span_spec in Hv as (-> & HM & _).
    apply span_spec in Hrest as (-> & Hm & Hstop).
    apply bool_decide_eq_true in Hd as ->.
    exists (String c major), (String c' minor), rest'.
    repeat split; done.
Qed.

(** ** The monad *)

Lemma bind_ok {A B} (m : M A) (k : A → M B) (w w1 : World) (a : A) :
  m w = (Ok a, w1) → bind m k w = k a w1.
Proof. unfold bind. by intros ->. Qed.

Lemma bind_err {A B} (m : M A) (k : A → M B) (w w1 : World) (e : exn) :
  m w = (Err e, w1) → bind m k w = (Err e, w1).
Proof. unfold bind. by intros ->. Qed.

Lemma bind_inv {A B} (m : M A) (k : A → M B) (w w' : World) (r : result B) :
  bind m k w = (r, w') →
  (∃ a w1, m w = (Ok a, w1) ∧ k a w1 = (r, w'))
  ∨ (∃ e, m w = (Err e, w') ∧ r = Err e).
Proof.
  unfold bind. destruct (m w) as [[a|e] w1]; intros H.
  - left. by exists a, w1.
  - right. inversion H; subst. by exists e.
Qed.

(** ** C5: [get_latest_major_upgrade] *)

Lemma latest_major_loop_some (major_version : string) (content : list GoVersion) (v : string) :
  latest_major_loop major_version content = Some v →
  ∃ before r after,
    content = (before ++ r :: after)%list
    ∧ stable r = true
    ∧ search_version_token (version r) = Some v
    ∧ get_major_version v = major_version
    ∧ ∀ r', r' ∈ before → ¬ eligible major_version r'.
Proof.
  induction content as [|r content IH]; simpl; [done|].
  intros H.
  destruct (stable r) eqn:Hs; simpl in H;
    [destruct (search_version_token (version r)) as [t|] eqn:Ht;
       [case_bool_decide as Hm|]|].
  - inversion H; subst t. exists [], r, content. repeat split; try done.
    intros r' Hr'. by apply elem_of_nil in Hr'.
  - destruct (IH H) as (before & r0 & after & -> & ? & ? & ? & Hb).
    exists (r :: before), r0, after. repeat split; try done.
    intros r' [->|Hr']%elem_of_cons; [|by apply Hb].
    intros (_ & t' & Ht' & Hmaj). congruence.
  - destruct (IH H) as (before & r0 & after & -> & ? & ? & ? & Hb).
    exists (r :: before), r0, after. repeat split; try done.
    intros r' [->|Hr']%elem_of_cons; [|by apply Hb].
    intros (_ & t' & Ht' & Hmaj). congruence.
  - destruct (IH H) as (before & r0 & after & -> & ? & ? & ? & Hb).
    exists (r :: before), r0, after. repeat split; try done.
    intros r' [->|Hr']%elem_of_cons; [|by apply Hb].
    intros (Hst & _). congruence.
Qed.

Lemma latest_major_loop_none (major_version : string) (content : list GoVersion) :
  latest_major_loop major_version content = None →
  ∀ r, r ∈ content → ¬ eligible major_version r.
Proof.
  induction content as [|r content IH]; simpl; intros H r' Hr'.
  - by apply elem_of_nil in Hr'.
  - apply elem_of_cons in Hr' as [->|Hr'].
    + intros (Hst & t & Ht & Hmaj). rewrite Hst, Ht in H. simpl in H.
      by rewrite bool_decide_eq_true_2 in H.
    + apply IH; [|done].
      destruct (stable r); simpl in H; [|done].
      destruct (search_version_token (version r)); [|done].
      by case_bool_decide.
Qed.

(** C5.  When the release index is fetched, [get_latest_major_upgrade]
    returns the version token of the first record, in feed order, that is
    stable and whose token has the major version of the given version, so
    never one taken from a record that is not stable; it raises when the
    feed has no such record.  The world is left as it was. *)
Theorem get_latest_major_upgrade_first_stable
    (from_go_version : string) (content : list GoVersion) (w : World) :
  go_version_feed w = Ok content →
  let major_version := get_major_version from_go_version in
  (∃ before r after token,
     content = (before ++ r :: after)%list
     ∧ stable r = true
     ∧ search_version_token (version r) = Some token
     ∧ get_major_version token = major_version
     ∧ (∀ r', r' ∈ before → ¬ eligible major_version r')
     ∧ get_latest_major_upgrade from_go_version w = (Ok token, w))
  ∨ ((∀ r, r ∈ content → ¬ eligible major_version r)
     ∧ get_latest_major_upgrade from_go_version w
       = (Err (Exception ("No supported " ++ major_version ++ " Go versions exist.")), w)).
Proof.
  intros Hfeed major_version. unfold get_latest_major_upgrade, bind. rewrite Hfeed.
  fold major_version.
  destruct (latest_major_loop major_version content) as [v|] eqn:Hloop.
  - left. apply latest_major_loop_some in Hloop as (before & r & after & ? & ? & ? & ? & ?).
    by exists before, r, after, v.
  - right. split; [|done]. by apply latest_major_loop_none.
Qed.

Lemma get_latest_major_upgrade_first_stable_witness :
  go_version_feed Sample.world = Ok Sample.feed
  ∧ get_latest_major_upgrade "1.22.1" Sample.world = (Ok "1.22.5", Sample.world).
Proof.
  split; [reflexivity|].
  destruct (get_latest_major_upgrade_first_stable "1.22.1" Sample.feed Sample.world eq_refl)
    as [(before & r & after & token & _ & _ & _ & _ & _ & H)|[_ H]].
  - rewrite H. f_equal. vm_compute in H. congruence.
  - vm_compute in H. congruence.
Defined.

(** ** Code that only reads *)

Create HintDb read_only discriminated.

Lemma read_only_ret {A} (a : A) : read_only (ret a).
Proof. done. Qed.

Lemma read_only_raise {A} (e : exn) : read_only (@raise A e).
Proof. done. Qed.

Lemma read_only_get {A} (f : World → A) : read_only (get f).
Proof. done. Qed.

Lemma read_only_lift {A} (r : result A) : read_only (lift r).
Proof. done. Qed.

Lemma read_only_bind {A B} (m : M A) (k : A → M B) :
  read_only m → (∀ a, read_only (k a)) → read_only (bind m k).
Proof.
  intros Hm Hk w. unfold bind. specialize (Hm w).
  destruct (m w) as [[a|e] w1]; simpl in *; subst; [apply Hk|done].
Qed.

Lemma read_only_try_except {A} (m : M A) (handler : exn → option (M A)) :
  read_only m → (∀ e h, handler e = Some h → read_only h) →
  read_only (try_except m handler).
Proof.
  intros Hm Hh w. unfold try_except. specialize (Hm w).
  destruct (m w) as [[a|e] w1]; simpl in *; subst; [done|].
  destruct (handler e) as [h|] eqn:He; [by eapply Hh|done].
Qed.

Lemma read_only_run {A} (m : M A) (w w' : World) (r : result A) :
  read_only m → m w = (r, w') → w' = w.
Proof. intros Hm H. specialize (Hm w). by rewrite H in Hm. Qed.

#[local] Hint Resolve read_only_ret read_only_raise read_only_get read_only_lift : read_only.

(** Take a read-only claim apart along the structure of the action. *)
Ltac read_only_step :=
  match goal with
  | |- read_only (bind _ _) => apply read_only_bind; [|intros ?]
  | |- read_only (try_except _ _) => apply read_only_try_except; [|intros ? ? ?]
  | |- read_only (match ?x with _ => _ end) => destruct x eqn:?
  | |- read_only (if ?x then _ else _) => destruct x eqn:?
  | |- read_only (let '(_, _) := ?x in _) => destruct x eqn:?
  | H : (if ?x then _ else _) = Some _ |- _ => destruct x; simplify_eq
  | H : match ?x with _ => _ end = Some _ |- _ => destruct x; simplify_eq
  | |- read_only _ => solve [auto with read_only]
  end.

Ltac read_only_solve := repeat read_only_step.

Lemma read_only_request_none : read_only (request None).
Proof. unfold request. read_only_solve. Qed.

Lemma read_only_not_found {A} : read_only (@not_found A).
Proof. done. Qed.

#[local] Hint Resolve read_only_request_none read_only_not_found : read_only.

Lemma read_only_find_repo (repo : string) : read_only (find_repo repo).
Proof. unfold find_repo. read_only_solve. Qed.

#[local] Hint Resolve read_only_find_repo : read_only.

Lemma read_only_getenv (var : string) : read_only (getenv var).
Proof. unfold getenv. read_only_solve. Qed.

Lemma read_only_Github_get_repo (name : string) : read_only (Github_get_repo name).
Proof. unfold Github_get_repo. read_only_solve. Qed.

Lemma read_only_Github_search_issues (q : string) : read_only (Github_search_issues q).
Proof. unfold Github_search_issues. read_only_solve. Qed.

Lemma read_only_Repository_get_contents (blob_sha : string → string) (repo path ref : string) :
  read_only (Repository_get_contents blob_sha repo path ref).
Proof. unfold Repository_get_contents. read_only_solve. Qed.

Lemma read_only_Repository_get_pull (repo : string) (n : N) :
  read_only (Repository_get_pull repo n).
Proof. unfold Repository_get_pull. read_only_solve. Qed.

Lemma read_only_Repository_get_milestones (repo : string) :
  read_only (Repository_get_milestones repo).
Proof. unfold Repository_get_milestones. read_only_solve. Qed.

Lemma read_only_Repository_get_label (repo name : string) :
  read_only (Repository_get_label repo name).
Proof. unfold Repository_get_label. read_only_solve. Qed.

Lemma read_only_read_file (file : string) : read_only (read_file file).
Proof. unfold read_file. read_only_solve. Qed.

#[local] Hint Resolve read_only_getenv read_only_Github_get_repo
  read_only_Github_search_issues read_only_Repository_get_contents
  read_only_Repository_get_pull read_only_Repository_get_milestones
  read_only_Repository_get_label read_only_read_file : read_only.

Lemma read_only_get_repo (K : Constants) (name : string) : read_only (get_repo K name).
Proof. unfold get_repo. read_only_solve. Qed.

#[local] Hint Resolve read_only_get_repo : read_only.

Lemma read_only_file_contents (blob_sha : string → string) (self : GoPRMaker)
    (file branch : string) :
  read_only (file_contents blob_sha self file branch).
Proof. unfold file_contents. read_only_solve. Qed.

#[local] Hint Resolve read_only_file_contents : read_only.

Lemma read_only_get_repo_go_version (K : Constants) (blob_sha : string → string)
    (self : GoPRMaker) (branch : string) :
  read_only (get_repo_go_version K blob_sha self branch).
Proof. unfold get_repo_go_version. read_only_solve. Qed.

Lemma read_only_get_latest_major_upgrade (v : string) :
  read_only (get_latest_major_upgrade v).
Proof.
  intros w. unfold get_latest_major_upgrade, bind.
  destruct (go_version_feed w) as [content|e]; [|done].
  by destruct (latest_major_loop _ content).
Qed.

Lemma read_only_get_go_milestone (K : Constants) (self : GoPRMaker) (v : string) :
  read_only (get_go_milestone K self v).
Proof. unfold get_go_milestone. read_only_solve. Qed.

Lemma read_only_find_pull (self : GoPRMaker) (prs : list N) (b : string) :
  read_only (find_pull self prs b).
Proof. induction prs as [|n prs IH]; simpl; read_only_solve. Qed.

#[local] Hint Resolve read_only_get_repo_go_version read_only_get_latest_major_upgrade
  read_only_get_go_milestone read_only_find_pull : read_only.

(** ** Requests that are answered *)

Lemma strip_prefix_app (p s : string) : Str.strip_prefix p (p ++ s) = Some s.
Proof.
  induction p as [|c p IH]; simpl; [by destruct s|].
  by rewrite bool_decide_eq_true_2.
Qed.

Section Answered.

Variable w : World.
Hypothesis Hup : gh_outage w = None.

Lemma request_none_ok : request None w = (Ok tt, w).
Proof. unfold request, bind, get, ret. by rewrite Hup. Qed.

Lemma find_repo_ok (name : string) (R : Repository) :
  gh_repos w !! name = Some R → find_repo name w = (Ok R, w).
Proof. unfold find_repo, bind, get, ret. by intros ->. Qed.

Lemma Github_get_repo_ok (name : string) (R : Repository) :
  gh_repos w !! name = Some R → Github_get_repo name w = (Ok name, w).
Proof.
  intros HR. unfold Github_get_repo.
  rewrite (bind_ok _ _ _ _ _ request_none_ok).
  by rewrite (bind_ok _ _ _ _ _ (find_repo_ok _ _ HR)).
Qed.

Lemma get_repo_ok (K : Constants) (name : string) (R : Repository) :
  gh_repos w !! name = Some R → get_repo K name w = (Ok name, w).
Proof. intros HR. unfold get_repo, try_except. by rewrite (Github_get_repo_ok _ _ HR). Qed.

Lemma Repository_get_milestones_ok (name : string) (R : Repository) :
  gh_repos w !! name = Some R →
  Repository_get_milestones name w = (Ok (milestones R), w).
Proof.
  intros HR. unfold Repository_get_milestones.
  rewrite (bind_ok _ _ _ _ _ request_none_ok).
  by rewrite (bind_ok _ _ _ _ _ (find_repo_ok _ _ HR)).
Qed.

Lemma Github_search_issues_ok (query : string) :
  Github_search_issues query w = (Ok (default [] (gh_search w !! query)), w).
Proof.
  unfold Github_search_issues.
  by rewrite (bind_ok _ _ _ _ _ request_none_ok).
Qed.

Lemma Repository_get_pull_ok (name : string) (R : Repository) (n : N) (pr : PullRequest) :
  gh_repos w !! name = Some R → pulls R !! n = Some pr →
  Repository_get_pull name n w = (Ok pr, w).
Proof.
  intros HR Hpr. unfold Repository_get_pull.
  rewrite (bind_ok _ _ _ _ _ request_none_ok).
  rewrite (bind_ok _ _ _ _ _ (find_repo_ok _ _ HR)).
  by rewrite Hpr.
Qed.

(** The milestone lookup, once the Go repository answers. *)
Lemma get_go_milestone_eval (K : Constants) (self : GoPRMaker) (v : string) (G : Repository) :
  gh_repos w !! GO_REPO_NAME K = Some G →
  get_go_milestone K self v w
  = match find_milestone ("Go" ++ v) (milestones G) with
    | Some milestone => (Ok (raw_html_url milestone), w)
    | None => (Err (Exception ("Could not find a milestone named " ++ ("Go" ++ v) ++ ".")), w)
    end.
Proof.
  intros HG. unfold get_go_milestone.
  rewrite (bind_ok _ _ _ _ _ (get_repo_ok K _ _ HG)).
  rewrite (bind_ok _ _ _ _ _ (Repository_get_milestones_ok _ _ HG)).
  by destruct (find_milestone _ _).
Qed.

(** The loop over the search results when none is on the branch ... *)
Lemma find_pull_none (self : GoPRMaker) (R : Repository) (prs : list N) (b : string) :
  gh_repos w !! repo self = Some R →
  (∀ n, n ∈ prs → ∃ pr, pulls R !! n = Some pr ∧ pr_head_ref pr ≠ b) →
  find_pull self prs b w = (Ok false, w).
Proof.
  intros HR. induction prs as [|n prs IH]; intros Hall; simpl; [done|].
  destruct (Hall n) as (pr & Hpr & Hne); [by left|].
  rewrite (bind_ok _ _ _ _ _ (Repository_get_pull_ok _ _ _ _ HR Hpr)).
  rewrite bool_decide_eq_true_2 by done.
  apply IH. intros n' Hn'. apply Hall. by right.
Qed.

(** ... and when one of them is. *)
Lemma find_pull_some (self : GoPRMaker) (R : Repository) (prs : list N) (b : string) :
  gh_repos w !! repo self = Some R →
  (∀ n, n ∈ prs → is_Some (pulls R !! n)) →
  (∃ n pr, n ∈ prs ∧ pulls R !! n = Some pr ∧ pr_head_ref pr = b) →
  find_pull self prs b w = (Ok true, w).
Proof.
  intros HR. induction prs as [|n prs IH]; intros Hall (m & pr & Hin & Hpr & Hb).
  - by apply elem_of_nil in Hin.
  - simpl. destruct (Hall n) as [pr' Hpr']; [by left|].
    rewrite (bind_ok _ _ _ _ _ (Repository_get_pull_ok _ _ _ _ HR Hpr')).
    case_bool_decide as Hne; [|done].
    apply IH; [intros n' Hn'; apply Hall; by right|].
    apply elem_of_cons in Hin as [->|Hin]; [congruence|].
    by exists m, pr.
Qed.

End Answered.

Lemma find_milestone_some (t : string) (ms : list Milestone) (m : Milestone) :
  find_milestone t ms = Some m →
  ∃ before after, ms = (before ++ m :: after)%list ∧ title m = t
                  ∧ ∀ m', m' ∈ before → title m' ≠ t.
Proof.
  induction ms as [|m0 ms IH]; simpl; [done|].
  case_bool_decide as Ht; intros H.
  - inversion H; subst m0. exists [], ms. repeat split; [done|].
    intros m' Hm'. by apply elem_of_nil in Hm'.
  - destruct (IH H) as (before & after & -> & ? & Hb).
    exists (m0 :: before), after. repeat split; [done|].
    intros m' [->|Hm']%elem_of_cons; [done|by apply Hb].
Qed.

Lemma find_milestone_none (t : string) (ms : list Milestone) :
  find_milestone t ms = None → ∀ m, m ∈ ms → title m ≠ t.
Proof.
  induction ms as [|m0 ms IH]; simpl; intros H m Hm.
  - by apply elem_of_nil in Hm.
  - case_bool_decide as Ht; [done|].
    apply elem_of_cons in Hm as [->|Hm]; [done|by apply IH].
Qed.

(** ** C1: [get_go_milestone] *)

(** C1, as the code has it.  Once the Go repository answers,
    [get_go_milestone] looks for the first milestone whose title is exactly
    ["Go"] followed by the version string it was given, unshortened: it
    returns the [html_url] of that milestone's raw data, and raises when no
    milestone has that title.  Against the titles [Go1.23] and [Go1.22],
    version ["1.23"] finds the first and version ["9.9.9"] none. *)
Theorem get_go_milestone_exact_title
    (K : Constants) (self : GoPRMaker) (go_version : string) (w : World) (G : Repository) :
  gh_outage w = None →
  gh_repos w !! GO_REPO_NAME K = Some G →
  ((∃ before milestone after,
      milestones G = (before ++ milestone :: after)%list
      ∧ title milestone = "Go" ++ go_version
      ∧ (∀ m', m' ∈ before → title m' ≠ "Go" ++ go_version)
      ∧ get_go_milestone K self go_version w = (Ok (raw_html_url milestone), w))
   ∨ ((∀ m, m ∈ milestones G → title m ≠ "Go" ++ go_version)
      ∧ get_go_milestone K self go_version w
        = (Err (Exception ("Could not find a milestone named Go" ++ go_version ++ ".")), w)))
  ∧ find_milestone ("Go" ++ "1.23") [Sample.milestone_1_23; Sample.milestone_1_22]
    = Some Sample.milestone_1_23
  ∧ find_milestone ("Go" ++ "9.9.9") [Sample.milestone_1_23; Sample.milestone_1_22] = None.
Proof.
  intros Hup HG. split; [|by split].
  rewrite (get_go_milestone_eval w Hup K self go_version G HG).
  destruct (find_milestone _ _) as [m|] eqn:Hfind.
  - left. apply find_milestone_some in Hfind as (before & after & ? & ? & ?).
    by exists before, m, after.
  - right. split; [|done]. by apply find_milestone_none.
Qed.

Lemma get_go_milestone_exact_title_witness :
  gh_outage Sample.world = None
  ∧ gh_repos Sample.world !! GO_REPO_NAME Sample.K
    = Some (Sample.golang [Sample.milestone_1_23; Sample.milestone_1_22])
  ∧ get_go_milestone Sample.K Sample.maker "1.23" Sample.world
    = (Ok (Some "https://github.com/golang/go/milestone/212"), Sample.world)
  ∧ (get_go_milestone Sample.K Sample.maker "9.9.9" Sample.world).1
    = Err (Exception "Could not find a milestone named Go9.9.9.").
Proof.
  assert (H1 : gh_outage Sample.world = None) by reflexivity.
  assert (H2 : gh_repos Sample.world !! GO_REPO_NAME Sample.K
               = Some (Sample.golang [Sample.milestone_1_23; Sample.milestone_1_22]))
    by reflexivity.
  split; [exact H1|]. split; [exact H2|].
  split.
  - destruct (get_go_milestone_exact_title Sample.K Sample.maker "1.23" Sample.world _ H1 H2)
      as [[(before & m & after & _ & _ & _ & H)|[_ H]] _];
      vm_compute in H; vm_compute; congruence.
  - destruct (get_go_milestone_exact_title Sample.K Sample.maker "9.9.9" Sample.world _ H1 H2)
      as [[(before & m & after & _ & _ & _ & H)|[_ H]] _];
      vm_compute in H; vm_compute; congruence.
Defined.

(** The titles [Go1.23] and [Go1.22] include the one made of the major
    version of ["1.23.0"], and still the lookup for ["1.23.0"] raises: the
    title it asks for is [Go1.23.0]. *)
Lemma get_go_milestone_major_minor_counterexample :
  find_milestone ("Go" ++ get_major_version "1.23.0") (milestones
    (Sample.golang [Sample.milestone_1_23; Sample.milestone_1_22]))
  = Some Sample.milestone_1_23
  ∧ get_go_milestone Sample.K Sample.maker "1.23.0" Sample.world
    = (Err (Exception "Could not find a milestone named Go1.23.0."), Sample.world).
Proof. split; vm_compute; reflexivity. Qed.

(** ** C10: a milestone without [html_url] *)

(** C10.  When the milestone with the title looked for has no [html_url]
    in its raw data, [get_go_milestone] returns [None] although the
    milestone was found; [create_pr], when no search result is a pull
    request on the branch, then raises [LookupError] and leaves the world
    as it was: nothing is sent, no pull request is created. *)
Theorem create_pr_milestone_without_url
    (K : Constants) (re_search : string → string → result (option string))
    (str_format : string → list (string * string) → result string)
    (self : GoPRMaker) (go_version commit_message owner branch target : string)
    (w : World) (G R : Repository) (milestone : Milestone) :
  gh_outage w = None →
  gh_repos w !! GO_REPO_NAME K = Some G →
  find_milestone ("Go" ++ go_version) (milestones G) = Some milestone →
  raw_html_url milestone = None →
  gh_repos w !! repo self = Some R →
  (∀ n, n ∈ default [] (gh_search w !! ("repo:" ++ repo self ++ " is:pr is:open head:" ++ branch)) →
        ∃ pr, pulls R !! n = Some pr ∧ pr_head_ref pr ≠ branch) →
  get_go_milestone K self go_version w = (Ok None, w)
  ∧ create_pr K re_search str_format self go_version commit_message owner branch target w
    = (Err (LookupError ("no milestone found for '$" ++ go_version ++ "'")), w).
Proof.
  intros Hup HG Hfind Hurl HR Hprs.
  assert (Hm : get_go_milestone K self go_version w = (Ok None, w)).
  { rewrite (get_go_milestone_eval w Hup K self go_version G HG), Hfind. by rewrite Hurl. }
  split; [done|]. unfold create_pr.
  rewrite (bind_ok _ _ _ _ _ (Github_search_issues_ok w Hup _)).
  rewrite (bind_ok _ _ _ _ _ (find_pull_none w Hup self R _ branch HR Hprs)).
  by rewrite (bind_ok _ _ _ _ _ Hm).
Qed.

Lemma create_pr_milestone_without_url_witness :
  get_go_milestone Sample.K Sample.maker "1.22.5" Sample.world_without_url
  = (Ok None, Sample.world_without_url)
  ∧ create_pr Sample.K Sample.re_search Sample.str_format Sample.maker
      "1.22.5" "Update Go version to 1.22.5" "apache" "go-1.22.5" "master"
      Sample.world_without_url
    = (Err (LookupError "no milestone found for '$1.22.5'"), Sample.world_without_url).
Proof.
  apply (create_pr_milestone_without_url Sample.K Sample.re_search Sample.str_format
           Sample.maker "1.22.5" "Update Go version to 1.22.5" "apache" "go-1.22.5" "master"
           Sample.world_without_url
           (Sample.golang [Sample.milestone_1_23; Sample.milestone_1_22_5])
           Sample.trafficcontrol_with_pulls Sample.milestone_1_22_5);
    try reflexivity.
  intros n Hn. vm_compute in Hn.
  apply list_elem_of_singleton in Hn as ->.
  exists (Sample.open_pull "go-1.22.5-backport"). split; [reflexivity|].
  vm_compute. discriminate.
Defined.

(** ** C4: the pinned version is the latest *)

(** When the text read from [master], compared as it is, is the version
    [get_latest_major_upgrade] returns for it, [run] ends there: it
    returns with the world as it was, so no branch is created, no file is
    updated, no pull request is created and no request is sent. *)
Lemma run_up_to_date
    (K : Constants) (blob_sha : string → string)
    (re_search : string → string → result (option string))
    (str_format : string → list (string * string) → result string)
    (script : gmap string string → option (gmap string string))
    (self : GoPRMaker) (update_version_only : bool) (w : World) (v : string) :
  (get_repo_go_version K blob_sha self "master" w).1 = Ok v →
  (get_latest_major_upgrade v w).1 = Ok v →
  run K blob_sha re_search str_format script self update_version_only w
  = (Ok (set_latest_go_version v self), w).
Proof.
  intros Hrepo Hlatest.
  assert (H1 : get_repo_go_version K blob_sha self "master" w = (Ok v, w)).
  { pose proof (read_only_get_repo_go_version K blob_sha self "master" w) as Hw.
    destruct (get_repo_go_version _ _ _ _ _) as [r w1]; simpl in *. by subst. }
  assert (H2 : get_latest_major_upgrade v w = (Ok v, w)).
  { pose proof (read_only_get_latest_major_upgrade v w) as Hw.
    destruct (get_latest_major_upgrade _ _) as [r w1]; simpl in *. by subst. }
  unfold run.
  rewrite (bind_ok _ _ _ _ _ H1), (bind_ok _ _ _ _ _ H2).
  by rewrite bool_decide_eq_true_2.
Qed.

Lemma run_up_to_date_witness :
  (get_repo_go_version Sample.K Sample.blob_sha Sample.maker "master"
     Sample.world_up_to_date).1 = Ok "1.22.1"
  ∧ (get_latest_major_upgrade "1.22.1" Sample.world_up_to_date).1 = Ok "1.22.1"
  ∧ run Sample.K Sample.blob_sha Sample.re_search Sample.str_format
      Sample.update_golang_org_x_sh Sample.maker false Sample.world_up_to_date
    = (Ok (set_latest_go_version "1.22.1" Sample.maker), Sample.world_up_to_date).
Proof.
  split; [reflexivity|]. split; [reflexivity|].
  apply run_up_to_date; reflexivity.
Defined.

(** C4.  On [master] of [Sample.world_newline] the version file holds
    1.22.1 and the line feed that ends a text file, and 1.22.1 is the
    latest stable release of Go 1.22.  [file_contents], whose docstring
    promises the text with all trailing white space stripped, hands the
    text over as it is; [run] compares it, line feed included, with the
    latest version, takes the repository for outdated, creates the branch
    [go-1.22.1] and rewrites the version file on it, where it should have
    stopped without a write. *)
Theorem run_newline_terminated_version_file :
  let w := Sample.world_newline in
  let out := run Sample.K Sample.blob_sha Sample.re_search Sample.str_format
               Sample.update_golang_org_x_sh Sample.maker false w in
  file_on_branch w "apache/trafficcontrol" "master" "GO_VERSION"
  = Some (Blob ("1.22.1" ++ new_line))
  ∧ (get_repo_go_version Sample.K Sample.blob_sha Sample.maker "master" w).1
    = Ok ("1.22.1" ++ new_line)
  ∧ (get_latest_major_upgrade ("1.22.1" ++ new_line) w).1 = Ok "1.22.1"
  ∧ out.1 = Err (GithubException 409
                   (Some (PyStr (".env does not match "
                                 ++ Sample.blob_sha ("$1.22.1" ++ new_line)))))
  ∧ gh_log out.2
    = [ UpdateFile "apache/trafficcontrol" ".env" "Update Go version to 1.22.1"
          ("GO_VERSION=1.22.1" ++ new_line) (Sample.blob_sha ("$1.22.1" ++ new_line))
          "go-1.22.1" None;
        UpdateFile "apache/trafficcontrol" "GO_VERSION" "Update Go version to 1.22.1"
          ("$1.22.1" ++ new_line) (Sample.blob_sha ("1.22.1" ++ new_line))
          "go-1.22.1" None;
        CreateGitRef "apache/trafficcontrol" "refs/heads/go-1.22.1" "c0" ]
  ∧ file_on_branch out.2 "apache/trafficcontrol" "go-1.22.1" "GO_VERSION"
    = Some (Blob ("$1.22.1" ++ new_line)).
Proof. vm_compute. repeat split; reflexivity. Qed.

(** ** The log of requests only grows *)

Lemma log_grows_read_only {A} (m : M A) : read_only m → log_grows m.
Proof. intros Hm w. by rewrite Hm. Qed.

Lemma log_grows_bind {A B} (m : M A) (k : A → M B) :
  log_grows m → (∀ a, log_grows (k a)) → log_grows (bind m k).
Proof.
  intros Hm Hk w. unfold bind. specialize (Hm w).
  destruct (m w) as [[a|e] w1]; simpl in *; [|done].
  etrans; [exact Hm|apply Hk].
Qed.

Lemma log_grows_try_except {A} (m : M A) (handler : exn → option (M A)) :
  log_grows m → (∀ e h, handler e = Some h → log_grows h) →
  log_grows (try_except m handler).
Proof.
  intros Hm Hh w. unfold try_except. specialize (Hm w).
  destruct (m w) as [[a|e] w1]; simpl in *; [done|].
  destruct (handler e) as [h|] eqn:He; [|done].
  etrans; [exact Hm|by eapply Hh].
Qed.

Lemma log_grows_request (r : option Request) : log_grows (request r).
Proof.
  intros w. unfold request, bind, modify, get, ret, raise.
  destruct r as [r|]; simpl; destruct (gh_outage w); simpl; try done;
    by apply suffix_cons_r.
Qed.

Lemma log_grows_store_repo (name : string) (R : Repository) : log_grows (store_repo name R).
Proof. by intros w. Qed.

Lemma log_grows_PullRequest_add_to_labels (name : string) (n : N) (l : string) :
  log_grows (PullRequest_add_to_labels name n l).
Proof.
  unfold PullRequest_add_to_labels.
  apply log_grows_bind; [apply log_grows_request|intros _].
  apply log_grows_bind; [apply log_grows_read_only, read_only_find_repo|intros R].
  destruct (pulls R !! n); [apply log_grows_store_repo|by apply log_grows_read_only].
Qed.

(** What [create_pull] leaves in the log, whatever the answer. *)
Lemma Repository_create_pull_log (name t b h base : string) (mcm : bool)
    (w w' : World) (r : result N) :
  Repository_create_pull name t b h base mcm w = (r, w') →
  gh_log w' = CreatePull name t b h base :: gh_log w.
Proof.
  unfold Repository_create_pull, request, find_repo, store_repo, not_found, unprocessable,
    bind, modify, get, ret, raise.
  simpl. intros H.
  repeat (case_match; simplify_eq/=); done.
Qed.

Lemma read_only_get_release_notes (K : Constants)
    (re_search : string → string → result (option string)) (v : string) :
  read_only (get_release_notes K re_search v).
Proof.
  intros w. unfold get_release_notes, bind, lift.
  destruct (release_page w); [|done].
  destruct (re_search _ _) as [[g|]|]; done.
Qed.

Lemma read_only_get_pr_body (K : Constants)
    (re_search : string → string → result (option string))
    (str_format : string → list (string * string) → result string) (v url : string) :
  read_only (get_pr_body K re_search str_format v url).
Proof.
  unfold get_pr_body.
  apply read_only_bind; [apply read_only_read_file|intros t].
  apply read_only_bind; [apply read_only_get_release_notes|intros n].
  apply read_only_lift.
Qed.

(** ** C8: [create_pr] and a pull request that is already open *)

(** C8.  When the search results, all of which resolve to pull requests
    of the repository, include one whose head ref is exactly the branch,
    [create_pr] returns with the world as it was: the pull request is left
    untouched and none is created, whichever other results come before it.
    Results whose head ref is not exactly the branch do not stop it: when
    no result is on the branch and [create_pr] returns, it has sent the
    request that creates the pull request. *)
Theorem create_pr_existing_pull
    (K : Constants) (re_search : string → string → result (option string))
    (str_format : string → list (string * string) → result string)
    (self : GoPRMaker) (go_version commit_message owner branch target : string)
    (w : World) (R : Repository) :
  gh_outage w = None →
  gh_repos w !! repo self = Some R →
  let prs := default [] (gh_search w !! ("repo:" ++ repo self ++ " is:pr is:open head:" ++ branch)) in
  (∀ n, n ∈ prs → is_Some (pulls R !! n)) →
  ((∃ n pr, n ∈ prs ∧ pulls R !! n = Some pr ∧ pr_head_ref pr = branch) →
   create_pr K re_search str_format self go_version commit_message owner branch target w
   = (Ok tt, w))
  ∧ ((∀ n pr, n ∈ prs → pulls R !! n = Some pr → pr_head_ref pr ≠ branch) →
     ∀ w', create_pr K re_search str_format self go_version commit_message owner branch target w
           = (Ok tt, w') →
       ∃ body, CreatePull (repo self) commit_message body (owner ++ ":" ++ branch) target
               ∈ gh_log w').
Proof.
  intros Hup HR prs Hall. split.
  - intros Hex. unfold create_pr.
    rewrite (bind_ok _ _ _ _ _ (Github_search_issues_ok w Hup _)).
    by rewrite (bind_ok _ _ _ _ _ (find_pull_some w Hup self R _ branch HR Hall Hex)).
  - intros Hnone w' Hrun. unfold create_pr in Hrun.
    rewrite (bind_ok _ _ _ _ _ (Github_search_issues_ok w Hup _)) in Hrun.
    assert (Hloop : find_pull self prs branch w = (Ok false, w)).
    { apply (find_pull_none w Hup self R _ branch HR).
      intros n Hn. destruct (Hall n Hn) as [pr Hpr]. exists pr. split; [done|].
      by eapply Hnone. }
    rewrite (bind_ok _ _ _ _ _ Hloop) in Hrun.
    apply bind_inv in Hrun as [(url & w1 & Hm & Hrun)|(e & _ & ?)]; [|done].
    apply read_only_run in Hm as ->; [|apply read_only_get_go_milestone].
    destruct url as [url|]; [|done].
    apply bind_inv in Hrun as [(body & w2 & Hb & Hrun)|(e & _ & ?)]; [|done].
    apply read_only_run in Hb as ->; [|apply read_only_get_pr_body].
    apply bind_inv in Hrun as [(number & w3 & Hc & Hrun)|(e & _ & ?)]; [|done].
    apply Repository_create_pull_log in Hc.
    exists body.
    assert (Hlog : log_grows
      (try_except
         (let* go_version_label := Repository_get_label (repo self) "go version" in
          PullRequest_add_to_labels (repo self) number go_version_label)
         (λ e, if is_UnknownObjectException e then Some (ret tt) else None))).
    { apply log_grows_try_except.
      - apply log_grows_bind; [apply log_grows_read_only, read_only_Repository_get_label|].
        intros l. apply log_grows_PullRequest_add_to_labels.
      - intros e h He. destruct (is_UnknownObjectException e); simplify_eq.
        by apply log_grows_read_only. }
    specialize (Hlog w3). rewrite Hrun in Hlog. simpl in Hlog.
    destruct Hlog as [new ->]. rewrite Hc.
    apply elem_of_app. right. by left.
Qed.

Lemma create_pr_existing_pull_witness :
  create_pr Sample.K Sample.re_search Sample.str_format Sample.maker
    "1.22.5" "Update Go version to 1.22.5" "apache" "go-1.22.5" "master" Sample.world_with_pull
  = (Ok tt, Sample.world_with_pull).
Proof.
  apply (create_pr_existing_pull Sample.K Sample.re_search Sample.str_format Sample.maker
           "1.22.5" "Update Go version to 1.22.5" "apache" "go-1.22.5" "master"
           Sample.world_with_pull Sample.trafficcontrol_with_pulls eq_refl eq_refl).
  - intros n Hn. vm_compute in Hn.
    apply elem_of_cons in Hn as [->|Hn]; [by eexists|].
    apply list_elem_of_singleton in Hn as ->. by eexists.
  - exists 7%N, (Sample.open_pull "go-1.22.5"). split; [|split; reflexivity].
    vm_compute. apply elem_of_cons. right. by left.
Defined.

(** ** C6: [branch_exists] *)

(** A version read from a branch comes from a file of that branch. *)
Lemma get_repo_go_version_inv
    (K : Constants) (blob_sha : string → string) (self : GoPRMaker) (branch : string)
    (w w' : World) (content : string) :
  get_repo_go_version K blob_sha self branch w = (Ok content, w') →
  ∃ file R head t,
    environ w !! ENV_GO_VERSION_FILE K = Some file
    ∧ gh_repos w !! repo self = Some R
    ∧ branches R !! branch = Some head
    ∧ tree_of R head = Some t
    ∧ t !! file = Some (Blob content).
Proof.
  unfold get_repo_go_version, getenv, file_contents, Repository_get_contents, request,
    find_repo, not_found, bind, get, ret, raise.
  intros H. rewrite strip_prefix_app in H. simpl in H.
  destruct (environ w !! ENV_GO_VERSION_FILE K) as [file|] eqn:Hfile; [|done].
  destruct (gh_outage w); [done|].
  destruct (gh_repos w !! repo self) as [R|] eqn:HR; [|done].
  destruct (branches R !! branch) as [head|] eqn:Hhead; simpl in H; [|done].
  destruct (tree_of R head) as [t|] eqn:Ht; simpl in H; [|done].
  destruct (t !! file) as [[c|]|] eqn:Hc; simplify_eq/=.
  by exists file, R, head, t.
Qed.

(** The answer of the service for a branch it does not have. *)
Lemma get_repo_go_version_no_branch
    (K : Constants) (blob_sha : string → string) (self : GoPRMaker) (branch : string)
    (w : World) (file : string) (R : Repository) :
  gh_outage w = None →
  environ w !! ENV_GO_VERSION_FILE K = Some file →
  gh_repos w !! repo self = Some R →
  branches R !! branch = None →
  get_repo_go_version K blob_sha self branch w
  = (Err (GithubException 404
            (Some (PyStr ("No commit found for the ref refs/heads/" ++ branch)))), w).
Proof.
  intros Hup Hfile HR Hb.
  unfold get_repo_go_version, getenv, file_contents, Repository_get_contents, request,
    find_repo, not_found, bind, get, ret, raise.
  rewrite strip_prefix_app. simpl. by rewrite Hfile, Hup, HR, Hb.
Qed.

(** C6.  When the read of the version fails with a [GithubException] whose
    data has no ["message"], that error does not reach the caller of
    [branch_exists]: the handler, which means to re-raise whatever is not
    the "ref not found" error, first evaluates [e.data["message"]], and
    the caller receives the [KeyError] of that lookup instead. *)
Theorem branch_exists_error_without_message
    (K : Constants) (blob_sha : string → string) (self : GoPRMaker) (branch : string)
    (w : World) (status : N) :
  (get_repo_go_version K blob_sha self branch w).1 = Err (GithubException status None) →
  branch_exists K blob_sha self branch w = (Err (KeyError "message"), w).
Proof.
  intros Hread.
  pose proof (read_only_get_repo_go_version K blob_sha self branch w) as Hw.
  unfold branch_exists, bind, try_except.
  destruct (get_repo_go_version K blob_sha self branch w) as [r w1]; simpl in *.
  by subst.
Qed.

Lemma branch_exists_error_without_message_witness :
  (get_repo_go_version Sample.K Sample.blob_sha Sample.maker_1_22_5 "go-1.22.5"
     Sample.world_bad_gateway).1 = Err (GithubException 502 None)
  ∧ branch_exists Sample.K Sample.blob_sha Sample.maker_1_22_5 "go-1.22.5"
      Sample.world_bad_gateway
    = (Err (KeyError "message"), Sample.world_bad_gateway).
Proof.
  split; [reflexivity|].
  apply (branch_exists_error_without_message Sample.K Sample.blob_sha Sample.maker_1_22_5
           "go-1.22.5" Sample.world_bad_gateway 502).
  reflexivity.
Defined.

(** ** The local clone *)

Lemma local_step_git_fetch_origin : local_step git_fetch_origin.
Proof.
  intros w r w'. unfold git_fetch_origin, bind, get, modify, raise.
  intros H. repeat (case_match; simplify_eq/=); eauto 10.
Qed.

Lemma local_step_git_checkout (sha : string) : local_step (git_checkout sha).
Proof.
  intros w r w'. unfold git_checkout, bind, get, modify, raise.
  intros H. repeat (case_match; simplify_eq/=); eauto 10.
Qed.

Lemma local_step_run_update_golang_org_x_sh
    (script : gmap string string → option (gmap string string)) :
  local_step (run_update_golang_org_x_sh script).
Proof.
  intros w r w'. unfold run_update_golang_org_x_sh, bind, get, modify, raise.
  intros H. repeat (case_match; simplify_eq/=); eauto 10.
Qed.



(** In a clean clone, whose work tree holds the files of the index, a
    checkout is never refused and leaves the files of the commit. *)
Lemma checkout_refused_clean (idx target : gmap string string) :
  checkout_refused idx target idx = false.
Proof.
  unfold checkout_refused. apply not_true_is_false.
  intros (path & _ & H)%existsb_exists.
  apply andb_true_iff in H as [_ H]. apply bool_decide_eq_true in H. done.
Qed.

Lemma checkout_worktree_clean (idx target : gmap string string) :
  checkout_worktree idx target idx = target.
Proof.
  apply map_eq. intros path. unfold checkout_worktree, switched.
  rewrite lookup_union, !map_lookup_filter. simpl.
  destruct (decide (idx !! path = target !! path)) as [Heq|Hne].
  - rewrite (bool_decide_eq_false_2 (idx !! path ≠ target !! path)) by (by intros []).
    rewrite <- Heq. by destruct (idx !! path).
  - rewrite (bool_decide_eq_true_2 (idx !! path ≠ target !! path)) by done.
    by destruct (target !! path) as [y|], (idx !! path) as [x|].
Qed.

Lemma git_checkout_clean (sha : string) (w : World) (c : GitCommit)
    (t : gmap string TreeEntry) :
  worktree (git w) = index (git w) →
  local_commits (git w) !! sha = Some c →
  local_trees (git w) !! commit_tree c = Some t →
  git_checkout sha w = (Ok tt, set_git (set_checkout (blobs t) (blobs t)) w).
Proof.
  intros Hclean Hc Ht. unfold git_checkout, bind, get, modify, raise. simpl.
  rewrite Hc. simpl. rewrite Ht, Hclean.
  by rewrite checkout_refused_clean, checkout_worktree_clean.
Qed.

(** A local modification stays when the checkout does not switch its
    path, and stops the checkout when it does. *)
Example checkout_keeps_local_modification :
  let idx : gmap string string := {[ "go.sum" := "v0.20.0"; "GO_VERSION" := "1.22.1" ]} in
  let target : gmap string string := {[ "go.sum" := "v0.20.0"; "GO_VERSION" := "1.22.5" ]} in
  let wt : gmap string string := {[ "go.sum" := "edited"; "GO_VERSION" := "1.22.1" ]} in
  checkout_refused idx target wt = false
  ∧ checkout_worktree idx target wt = {[ "go.sum" := "edited"; "GO_VERSION" := "1.22.5" ]}.
Proof. vm_compute. split; reflexivity. Qed.

Example checkout_refuses_to_overwrite :
  let idx : gmap string string := {[ "go.sum" := "v0.20.0"; "GO_VERSION" := "1.22.1" ]} in
  let target : gmap string string := {[ "go.sum" := "v0.20.0"; "GO_VERSION" := "1.22.5" ]} in
  let wt : gmap string string := {[ "go.sum" := "v0.20.0"; "GO_VERSION" := "edited" ]} in
  checkout_refused idx target wt = true.
Proof. vm_compute. reflexivity. Qed.


Lemma read_only_git_diff_exit_code (file : string) : read_only (git_diff_exit_code file).
Proof. done. Qed.

Lemma read_only_collect_tree_elements (fs : list string) (acc : list InputGitTreeElement) :
  read_only (collect_tree_elements fs acc).
Proof.
  revert acc. induction fs as [|f fs IH]; intros acc; simpl; [done|].
  apply read_only_bind; [apply read_only_git_diff_exit_code|intros [|]]; [apply IH|].
  apply read_only_bind; [apply read_only_read_file|intros c]. apply IH.
Qed.



Lemma overlay_lookup (els : list InputGitTreeElement) (base : gmap string TreeEntry)
    (path : string) :
  overlay els base !! path ≠ base !! path → ∃ e, e ∈ els ∧ element_path e = path.
Proof.
  unfold overlay. revert base. induction els as [|e els IH]; intros base; simpl; [done|].
  intros H. destruct (decide (element_path e = path)) as [Heq|Hne].
  - exists e. split; [by left|done].
  - destruct (IH (<[element_path e := Blob (element_content e)]> base)) as (e' & He' & Hp).
    + by rewrite lookup_insert_ne.
    + exists e'. split; [by right|done].
Qed.








Lemma new_id_fresh (r : Repository) :
  commits r !! new_id r = None ∧ trees r !! new_id r = None.
Proof.
  pose proof (is_fresh (dom (commits r) ∪ dom (trees r))) as H. fold (new_id r) in H.
  split; apply not_elem_of_dom; set_solver.
Qed.

(** ** The git data requests *)

Lemma git_log_tree_inv (sha tree_hash : string) (w w' : World) :
  git_log_tree sha w = (Ok tree_hash, w') →
  w' = w ∧ ∃ c, local_commits (git w) !! sha = Some c ∧ tree_hash = commit_tree c.
Proof.
  unfold git_log_tree, bind, get, ret, raise. intros H.
  repeat (case_match; simplify_eq/=). eauto.
Qed.

Lemma git_log_tree_err (sha : string) (w w' : World) (e : exn) :
  git_log_tree sha w = (Err e, w') → w' = w.
Proof.
  unfold git_log_tree, bind, get, ret, raise. intros H.
  by repeat (case_match; simplify_eq/=).
Qed.

Lemma Repository_get_git_tree_inv (name sha h : string) (w w' : World) :
  Repository_get_git_tree name sha w = (Ok h, w') →
  w' = w ∧ h = sha ∧ ∃ R t, gh_repos w !! name = Some R ∧ trees R !! sha = Some t.
Proof.
  unfold Repository_get_git_tree, request, find_repo, not_found, bind, get, ret, raise.
  intros H. repeat (case_match; simplify_eq/=). eauto 10.
Qed.

Lemma Repository_get_git_commit_inv (name sha h : string) (w w' : World) :
  Repository_get_git_commit name sha w = (Ok h, w') →
  w' = w ∧ h = sha ∧ ∃ R c, gh_repos w !! name = Some R ∧ commits R !! sha = Some c.
Proof.
  unfold Repository_get_git_commit, Repository_get_commit, request, find_repo, not_found,
    bind, get, ret, raise.
  intros H. repeat (case_match; simplify_eq/=). eauto 10.
Qed.



(** ** C7: [update_golang_org_x] *)




(** With a script that changes nothing, no commit is made. *)
Example update_golang_org_x_idle :
  update_golang_org_x Sample.idle_sh Sample.maker_1_22_5 "c0" Sample.world
  = (Ok None,
     set_git (set_checkout (blobs Sample.root_tree) (blobs Sample.root_tree))
       (set_git (set_objects (commits Sample.trafficcontrol) (trees Sample.trafficcontrol))
          Sample.world)).
Proof. vm_compute. reflexivity. Qed.

(** ** C2 and C3: [set_go_version] *)

Lemma add_commit_tree_of (R : Repository) (t : gmap string TreeEntry) (parents : list string)
    (message : string) (a c : option InputGitAuthor) :
  tree_of (add_commit R t parents message a c).2 (add_commit R t parents message a c).1
  = Some t.
Proof.
  unfold add_commit, tree_of. simpl. rewrite lookup_insert_eq. simpl.
  by rewrite lookup_insert_eq.
Qed.

Lemma file_contents_inv (blob_sha : string → string) (self : GoPRMaker) (file branch : string)
    (w w' : World) (p s c : string) :
  file_contents blob_sha self file branch w = (Ok (p, s, c), w') →
  w' = w ∧ p = file ∧ s = blob_sha c
  ∧ ∃ R head t, gh_repos w !! repo self = Some R ∧ branches R !! branch = Some head
      ∧ tree_of R head = Some t ∧ t !! file = Some (Blob c).
Proof.
  unfold file_contents, Repository_get_contents, request, find_repo, not_found,
    bind, get, ret, raise.
  intros H. rewrite strip_prefix_app in H. simpl in H.
  destruct (gh_outage w); [done|].
  destruct (gh_repos w !! repo self) as [R|] eqn:HR; [|done].
  destruct (branches R !! branch) as [head|] eqn:Hhead; simpl in H; [|done].
  destruct (tree_of R head) as [t|] eqn:Ht; simpl in H; [|done].
  destruct (t !! file) as [[c'|]|] eqn:Hc; simplify_eq/=.
  repeat split; try done. by exists R, head, t.
Qed.

Lemma request_inv (q : Request) (w w' : World) (r : result unit) :
  request (Some q) w = (r, w') →
  w' = set_gh_log (cons q) w
  ∧ (r = Ok tt ∧ gh_outage w = None ∨ ∃ e, r = Err e).
Proof.
  unfold request, bind, modify, get, ret, raise. simpl.
  destruct (gh_outage w); intros [= <- <-]; eauto.
Qed.

Lemma find_repo_inv (name : string) (w w' : World) (r : result Repository) :
  find_repo name w = (r, w') →
  w' = w ∧ ∀ R, r = Ok R → gh_repos w !! name = Some R.
Proof.
  unfold find_repo, not_found, bind, get, ret, raise.
  destruct (gh_repos w !! name); intros [= <- <-]; split; try done.
  by intros R [= ->].
Qed.

(** What an [update_file] request leaves behind: the request in the log
    and, when it is accepted, the file replaced at the head of the branch. *)
Lemma Repository_update_file_inv (blob_sha : string → string)
    (name path message content sha branch : string) (cm a : option InputGitAuthor)
    (w w' : World) (r : result string) :
  Repository_update_file blob_sha name path message content sha branch cm a w = (r, w') →
  gh_log w' = UpdateFile name path message content sha branch a :: gh_log w
  ∧ gh_outage w' = gh_outage w
  ∧ ∀ c, r = Ok c →
      ∃ R' t, gh_repos w' !! name = Some R' ∧ branches R' !! branch = Some c
        ∧ tree_of R' c = Some t ∧ t !! path = Some (Blob content).
Proof.
  unfold Repository_update_file. intros H.
  apply bind_inv in H as [([] & w1 & Hreq & H)|(e & Hreq & ->)];
    apply request_inv in Hreq as [Hw1 Hr].
  2:{ subst w'. repeat split; try done. }
  assert (Hrejected : ∀ e, raise e w1 = (r, w') →
      gh_log w' = UpdateFile name path message content sha branch a :: gh_log w
      ∧ gh_outage w' = gh_outage w
      ∧ ∀ c, r = Ok c →
          ∃ R' t, gh_repos w' !! name = Some R' ∧ branches R' !! branch = Some c
            ∧ tree_of R' c = Some t ∧ t !! path = Some (Blob content)).
  { intros e [= <- <-]. subst w1. repeat split; try done. }
  apply bind_inv in H as [(R & w2 & Hfind & H)|(e & Hfind & ->)];
    apply find_repo_inv in Hfind as [-> HR].
  2:{ subst w1. repeat split; try done. }
  destruct (branches R !! branch) as [head|] eqn:Hhead; [|by eapply Hrejected].
  destruct (tree_of R head) as [t|] eqn:Ht; [|by eapply Hrejected].
  destruct (t !! path) as [[old|]|] eqn:Hold; try by eapply Hrejected.
  case_bool_decide as Hsha; [|by eapply Hrejected].
  pose proof (add_commit_tree_of R (<[path := Blob content]> t) [head] message a cm) as Htree.
  destruct (add_commit _ _ _ _ _ _) as [c R'] eqn:Hadd. simpl in Htree.
  unfold bind, store_repo, modify, ret in H. inversion H; subst r w' w1. simpl.
  repeat split; try done.
  intros c' [= <-]. exists (set_branches <[branch := c]> R'), (<[path := Blob content]> t).
  rewrite !lookup_insert_eq. repeat split; try done.
  simpl. by rewrite lookup_insert_eq.
Qed.

Lemma Repository_create_git_ref_log (name ref sha : string) (w w' : World) (r : result unit) :
  Repository_create_git_ref name ref sha w = (r, w') →
  gh_log w' = CreateGitRef name ref sha :: gh_log w ∧ environ w' = environ w.
Proof.
  unfold Repository_create_git_ref. intros H.
  apply bind_inv in H as [([] & w1 & Hreq & H)|(e & Hreq & ->)];
    apply request_inv in Hreq as [Hw1 _]; [|by subst w'].
  apply bind_inv in H as [(R & w2 & Hfind & H)|(e & Hfind & ->)];
    apply find_repo_inv in Hfind as [-> _]; [|by subst w1].
  unfold unprocessable, store_repo, modify, raise in H.
  repeat case_match; simplify_eq; done.
Qed.

Lemma read_only_Repository_get_branch (name branch : string) :
  read_only (Repository_get_branch name branch).
Proof. unfold Repository_get_branch. read_only_solve. Qed.

(** Every request [set_go_version] sends, in any world and whatever the
    answers: one to create the branch, then updates whose message is the
    commit message and whose branch is the new one.  The update of the
    version file writes a dollar sign before the version; the update of
    [.env] carries, as the id of the blob it replaces, the id of the blob
    just written to the version file. *)
Lemma set_go_version_requests
    (K : Constants) (blob_sha : string → string) (self : GoPRMaker)
    (go_version commit_message source_branch_name : string) (w w' : World)
    (r : result string) :
  set_go_version K blob_sha self go_version commit_message source_branch_name w = (r, w') →
  ∃ new, gh_log w' = (new ++ gh_log w)%list
    ∧ ∀ go_version_file, environ w !! ENV_GO_VERSION_FILE K = Some go_version_file →
        Forall (sent_by_set_go_version blob_sha go_version commit_message source_branch_name
                  go_version_file) new.
Proof.
  unfold set_go_version. intros H.
  apply bind_inv in H as [(sha & w1 & Hb & H)|(e & Hb & ->)];
    apply read_only_run in Hb as ->; try apply read_only_Repository_get_branch.
  2:{ exists []. split; [done|]. intros f Hf. constructor. }
  apply bind_inv in H as [([] & w1 & Href & H)|(e & Href & ->)];
    apply Repository_create_git_ref_log in Href as [Hlog1 Henv1].
  2:{ eexists [_]. split; [done|]. intros f Hf. by repeat constructor. }
  apply bind_inv in H as [(file & w2 & Hfile & H)|(e & Hfile & ->)];
    pose proof (read_only_run _ _ _ _ (read_only_getenv _) Hfile) as ->.
  2:{ eexists [_]. split; [done|]. intros f Hf. by repeat constructor. }
  assert (Henv : environ w !! ENV_GO_VERSION_FILE K = Some file).
  { rewrite <- Henv1. unfold getenv, bind, get, ret, raise in Hfile.
    destruct (environ w1 !! _); by simplify_eq. }
  apply bind_inv in H as [([[p s] c] & w2 & Hfc & H)|(e & Hfc & ->)];
    pose proof (read_only_run _ _ _ _ (read_only_file_contents _ _ _ _) Hfc) as ->.
  2:{ eexists [_]. split; [done|]. intros f Hf. by repeat constructor. }
  apply bind_inv in H as [(kwargs & w2 & Hkw & H)|(e & Hkw & ->)].
  2:{ exists [CreateGitRef (repo self) ("refs/heads/" ++ source_branch_name) sha].
      unfold try_except, getenv, bind, get, ret, raise in Hkw.
      destruct (environ w1 !! ENV_GIT_AUTHOR_NAME K); simpl in Hkw; simplify_eq. }
  assert (Hkwargs : w2 = w1 ∧ kw_branch kwargs = source_branch_name
            ∧ kw_content kwargs = "$" ++ go_version ++ new_line
            ∧ kw_path kwargs = file ∧ kw_message kwargs = commit_message
            ∧ kw_sha kwargs = s).
  { unfold try_except, getenv, bind, get, ret, raise in Hkw.
    destruct (environ w1 !! ENV_GIT_AUTHOR_NAME K); simpl in Hkw; by simplify_eq. }
  destruct Hkwargs as (-> & Hkb & Hkc & Hkp & Hkm & Hks). clear Hkw.
  unfold update_file in H. rewrite Hkb, Hkc, Hkp, Hkm, Hks in H. simpl in H.
  apply bind_inv in H as [(c1 & w2 & Hup1 & H)|(e & Hup1 & ->)];
    apply Repository_update_file_inv in Hup1 as (Hlog2 & _ & Hdone).
  2:{ eexists [_; _]. split; [by rewrite Hlog2, Hlog1|].
      intros f Hf. assert (f = file) as -> by (rewrite Henv in Hf; by inversion Hf).
      repeat constructor; simpl; eauto. }
  destruct (Hdone c1 eq_refl) as (R' & t & HR' & Hhead & Htree & Hblob).
  apply bind_inv in H as [([[p' s'] c'] & w3 & Hfc' & H)|(e & Hfc' & ->)];
    pose proof (read_only_run _ _ _ _ (read_only_file_contents _ _ _ _) Hfc') as ->.
  2:{ eexists [_; _]. split; [by rewrite Hlog2, Hlog1|].
      intros f Hf. assert (f = file) as -> by (rewrite Henv in Hf; by inversion Hf).
      repeat constructor; simpl; eauto. }
  apply file_contents_inv in Hfc' as (_ & -> & -> & R2 & head2 & t2 & HR2 & Hh2 & Ht2 & Hb2).
  assert (c' = "$" ++ go_version ++ new_line) as ->.
  { rewrite HR' in HR2. inversion HR2; subst R2.
    rewrite Hhead in Hh2. inversion Hh2; subst head2.
    rewrite Htree in Ht2. inversion Ht2; subst t2.
    rewrite Hblob in Hb2. by inversion Hb2. }
  apply Repository_update_file_inv in H as (Hlog3 & _ & _).
  eexists [_; _; _]. split; [by rewrite Hlog3, Hlog2, Hlog1|].
  intros f Hf. assert (f = file) as -> by (rewrite Henv in Hf; by inversion Hf).
  constructor; [simpl; split; [done|split; [done|by right]]|].
  constructor; [simpl; split; [done|split; [done|by left]]|].
  by repeat constructor.
Qed.

(** C2, at version 1.22.5 in the sample world.  The update of the version
    file is sent with a dollar sign before the version, and that is what
    the file holds on the new branch afterwards; the update of [.env] is
    sent with the same commit message and the content [GO_VERSION=1.22.5]
    and a newline, but [.env] on the branch is still the old one. *)
Theorem set_go_version_writes_dollar_version :
  let w' := (set_go_version Sample.K Sample.blob_sha Sample.maker
               "1.22.5" "Update Go version to 1.22.5" "go-1.22.5" Sample.world).2 in
  gh_log w' !! 1%nat
  = Some (UpdateFile "apache/trafficcontrol" "GO_VERSION" "Update Go version to 1.22.5"
            ("$1.22.5" ++ new_line) (Sample.blob_sha "1.22.1") "go-1.22.5" None)
  ∧ file_on_branch w' "apache/trafficcontrol" "go-1.22.5" "GO_VERSION"
    = Some (Blob ("$1.22.5" ++ new_line))
  ∧ "$1.22.5" ++ new_line ≠ "1.22.5" ++ new_line
  ∧ (∃ sha, gh_log w' !! 0%nat
            = Some (UpdateFile "apache/trafficcontrol" ".env" "Update Go version to 1.22.5"
                      ("GO_VERSION=1.22.5" ++ new_line) sha "go-1.22.5" None))
  ∧ file_on_branch w' "apache/trafficcontrol" "go-1.22.5" ".env"
    = Some (Blob ("GO_VERSION=1.22.1" ++ new_line)).
Proof.
  vm_compute. repeat split; try reflexivity; [discriminate|by eexists].
Qed.

(** C3, at version 1.22.5 in the sample world.  The update of [.env] is
    sent with the id of the blob just written to the version file, which
    is not the id of the blob at [.env], and the service rejects it: the
    call ends with the 409 of a stale hash. *)
Theorem set_go_version_env_update_rejected :
  let outcome := set_go_version Sample.K Sample.blob_sha Sample.maker
                   "1.22.5" "Update Go version to 1.22.5" "go-1.22.5" Sample.world in
  let version_blob := Sample.blob_sha ("$1.22.5" ++ new_line) in
  gh_log outcome.2 !! 0%nat
  = Some (UpdateFile "apache/trafficcontrol" ".env" "Update Go version to 1.22.5"
            ("GO_VERSION=1.22.5" ++ new_line) version_blob "go-1.22.5" None)
  ∧ file_on_branch outcome.2 "apache/trafficcontrol" "go-1.22.5" "GO_VERSION"
    = Some (Blob ("$1.22.5" ++ new_line))
  ∧ file_on_branch outcome.2 "apache/trafficcontrol" "go-1.22.5" ".env"
    = Some (Blob ("GO_VERSION=1.22.1" ++ new_line))
  ∧ Sample.blob_sha ("GO_VERSION=1.22.1" ++ new_line) ≠ version_blob
  ∧ outcome.1 = Err (GithubException 409
                       (Some (PyStr (".env does not match " ++ version_blob)))).
Proof.
  vm_compute. repeat split; try reflexivity. discriminate.
Qed.

(** * Further properties *)

(** ** The version patterns *)

Lemma get_major_version_shape (v : string) :
  get_major_version v = ""
  ∨ ∃ major minor,
      Str.all Str.is_digit major = true ∧ major ≠ ""
      ∧ Str.all Str.is_digit minor = true ∧ minor ≠ ""
      ∧ get_major_version v = major ++ "." ++ minor.
Proof.
  unfold get_major_version.
  destruct (Str.span Str.is_digit v) as [major rest] eqn:Hv.
  destruct major as [|c major]; [by left|].
  destruct rest as [|d rest]; [by left|].
  destruct (Str.is_dot d) eqn:Hd; [|by left].
  destruct (Str.span Str.is_digit rest) as [minor rest'] eqn:Hrest.
  destruct minor as [|c' minor]; [by left|].
  apply span_spec in Hv as (_ & HM & _).
  apply span_spec in Hrest as (_ & Hm & _).
  right. exists (String c major), (String c' minor). done.
Qed.

(** X1.  [get_major_version] is idempotent: the major version of a major
    version is that major version. *)
Theorem get_major_version_idempotent (v : string) :
  get_major_version (get_major_version v) = get_major_version v.
Proof.
  destruct (get_major_version_shape v) as [->|(major & minor & HM & HM0 & Hm & Hm0 & ->)];
    [reflexivity|].
  pose proof (get_major_version_match major minor "" HM Hm HM0 Hm0) as H.
  simpl in H. by rewrite !append_empty_r in H.
Qed.

Lemma all_app (p : ascii → bool) (a b : string) :
  Str.all p (a ++ b) = Str.all p a && Str.all p b.
Proof. induction a as [|c a IH]; simpl; [done|]. by rewrite IH, andb_assoc. Qed.

(** X2.  [search_version_token] finds the leftmost run of digits and dots
    and takes all of it: the text before the token has no digit and no
    dot, the token is not empty and made of digits and dots only, and what
    follows does not start with one.  It finds nothing exactly when the
    text has no digit and no dot. *)
Theorem search_version_token_leftmost_longest (s : string) :
  (search_version_token s = None
   ∧ Str.all (λ c, negb (Str.is_digit_or_dot c)) s = true)
  ∨ (∃ before token after,
       s = before ++ token ++ after
       ∧ Str.all (λ c, negb (Str.is_digit_or_dot c)) before = true
       ∧ token ≠ "" ∧ Str.all Str.is_digit_or_dot token = true
       ∧ Str.starts_with Str.is_digit_or_dot after = false
       ∧ search_version_token s = Some token).
Proof.
  induction s as [|c s IH]; [by left|].
  simpl. destruct (Str.is_digit_or_dot c) eqn:Hc.
  - right. destruct (Str.span Str.is_digit_or_dot s) as [t after] eqn:Hs.
    apply span_spec in Hs as (-> & Ht & Hafter).
    exists "", (String c t), after. simpl. rewrite Hc, Ht. done.
  - destruct IH as [[-> Hall]|(before & token & after & -> & Hb & Ht0 & Ht & Ha & ->)].
    + left. by rewrite Hall.
    + right. exists (String c before), token, after. simpl. rewrite Hc, Hb. done.
Qed.

(** ** White space in the release notes *)

Lemma single_spaced_collapse_from (in_run : bool) (s : string) :
  single_spaced in_run (Str.collapse_from in_run s) = true.
Proof.
  revert in_run. induction s as [|c s IH]; intros in_run; simpl; [done|].
  destruct (Str.is_space c) eqn:Hc.
  - destruct in_run; [apply IH|]. simpl. apply IH.
  - simpl. rewrite Hc. apply IH.
Qed.

Lemma visible_collapse_from (in_run : bool) (s : string) :
  visible (Str.collapse_from in_run s) = visible s.
Proof.
  revert in_run. induction s as [|c s IH]; intros in_run; simpl; [done|].
  destruct (Str.is_space c) eqn:Hc.
  - destruct in_run; simpl; apply IH.
  - simpl. rewrite Hc. by rewrite IH.
Qed.

(** X3.  The text [get_release_notes] returns has no white space but
    single spaces (no newline, no tab, no two spaces in a row), and the
    release page is searched with the dots of the version escaped.  It never
    changes the world. *)
Theorem get_release_notes_single_spaced
    (K : Constants) (re_search : string → string → result (option string))
    (go_version : string) (w w' : World) (notes : string) :
  get_release_notes K re_search go_version w = (Ok notes, w') →
  w' = w
  ∧ single_spaced false notes = true
  ∧ ∃ page group0,
      release_page w = Ok page
      ∧ re_search ("<p>\s*\n\s*go" ++ Str.escape_dots go_version ++ ".*?</p>") page
        = Ok (Some group0)
      ∧ notes = Str.collapse_whitespace group0
      ∧ visible notes = visible group0.
Proof.
  unfold get_release_notes, bind, lift, ret, raise. intros H.
  destruct (release_page w) as [page|] eqn:Hpage; [|done].
  destruct (re_search _ page) as [[group0|]|] eqn:Hsearch; simplify_eq.
  split; [done|]. split; [apply single_spaced_collapse_from|].
  exists page, group0. repeat split; try done.
  apply visible_collapse_from.
Qed.

Lemma get_release_notes_single_spaced_witness :
  get_release_notes Sample.K Sample.re_search "1.22.5" Sample.world
  = (Ok Sample.notes_1_22_5, Sample.world)
  ∧ single_spaced false Sample.notes_1_22_5 = true.
Proof.
  assert (H : get_release_notes Sample.K Sample.re_search "1.22.5" Sample.world
              = (Ok Sample.notes_1_22_5, Sample.world))
    by (vm_compute; reflexivity).
  split; [exact H|].
  exact (proj1 (proj2 (get_release_notes_single_spaced _ _ _ _ _ _ H))).
Defined.

(** The search of [get_release_notes] on the sample page: the paragraph of
    1.22.5, with its line feeds and indentation, is found past that of
    1.22.4; a paragraph that does not break the line after its opening tag
    is not found. *)
Example re_search_release_history :
  Sample.re_search "<p>\s*\n\s*go1\.22\.5.*?</p>" Sample.release_history
  = Ok (Some ("<p>" ++ new_line
              ++ "  go1.22.5 (released 2024-07-02) includes security fixes to the" ++ new_line
              ++ "  net/http package,  as well as bug fixes to the compiler." ++ new_line
              ++ "</p>")).
Proof. vm_compute. reflexivity. Qed.

Example re_search_same_line :
  Sample.re_search "<p>\s*\n\s*go1\.22\.5.*?</p>" "<p> go1.22.5 (released 2024-07-02) </p>"
  = Ok None.
Proof. vm_compute. reflexivity. Qed.

Example str_format_no_field :
  Sample.str_format "Update Go" [("GO_VERSION", "1.22.5")] = Ok "Update Go".
Proof. reflexivity. Qed.

Example str_format_missing_field :
  Sample.str_format "Go {GO_VERSION}: {NOTES}" [("GO_VERSION", "1.22.5")]
  = Err (KeyError "NOTES").
Proof. reflexivity. Qed.

(** White space of every kind is collapsed, the no-break space included. *)
Example collapse_whitespace_no_break_space :
  Str.collapse_whitespace ("a" ++ String "160" (String "009" (String "133" "b"))) = "a b".
Proof. reflexivity. Qed.

(** ** The latest release of a major version *)

Lemma search_version_token_some (s token : string) :
  search_version_token s = Some token →
  token ≠ "" ∧ Str.all Str.is_digit_or_dot token = true.
Proof.
  induction s as [|c s IH]; simpl; [done|].
  destruct (Str.is_digit_or_dot c) eqn:Hc; [|done].
  destruct (Str.span Str.is_digit_or_dot s) as [t after] eqn:Hs.
  apply span_spec in Hs as (_ & Ht & _).
  intros [= <-]. simpl. by rewrite Hc, Ht.
Qed.

(** The loop looks at its first argument only through equality with the
    major version of each token. *)
Lemma latest_major_loop_fixed (major_version : string) (content : list GoVersion)
    (token : string) :
  latest_major_loop major_version content = Some token →
  latest_major_loop (get_major_version token) content = Some token.
Proof.
  intros H.
  destruct (latest_major_loop_some _ _ _ H) as (before & r & after & _ & _ & _ & Hmajor & _).
  by rewrite Hmajor.
Qed.

(** X4.  The version [get_latest_major_upgrade] returns is made of digits
    and dots only, so a pinned text with any other character (a newline
    at its end, say) is never equal to it; and it is a fixed point: asked
    for the latest upgrade of the version it returned, the function
    returns that version again. *)
Theorem get_latest_major_upgrade_fixed_point
    (from_go_version latest : string) (w w' : World) :
  get_latest_major_upgrade from_go_version w = (Ok latest, w') →
  latest ≠ "" ∧ Str.all Str.is_digit_or_dot latest = true
  ∧ (∀ pinned, Str.all Str.is_digit_or_dot pinned = false → pinned ≠ latest)
  ∧ get_latest_major_upgrade latest w = (Ok latest, w).
Proof.
  unfold get_latest_major_upgrade, bind, ret, raise. intros H.
  destruct (go_version_feed w) as [content|] eqn:Hfeed; [|done].
  destruct (latest_major_loop _ content) as [t|] eqn:Hloop; simplify_eq.
  destruct (latest_major_loop_some _ _ _ Hloop) as (_ & r & _ & _ & _ & Htoken & _).
  destruct (search_version_token_some _ _ Htoken) as [Hne Hall].
  repeat split; try done.
  - intros pinned Hp ->. congruence.
  - by rewrite (latest_major_loop_fixed _ _ _ Hloop).
Qed.

Lemma get_latest_major_upgrade_fixed_point_witness :
  get_latest_major_upgrade "1.22.5" Sample.world = (Ok "1.22.5", Sample.world)
  ∧ "1.22.1" ++ new_line ≠ "1.22.5".
Proof.
  assert (H : get_latest_major_upgrade "1.22.1" Sample.world = (Ok "1.22.5", Sample.world))
    by reflexivity.
  destruct (get_latest_major_upgrade_fixed_point _ _ _ _ H) as (_ & _ & Hpinned & Hfix).
  split; [exact Hfix|]. discriminate.
Defined.

(** ** The repository handle and the constructor *)

(** X5.  [get_repo] turns exactly the bad-credentials answer of the
    service into [PermissionError]; any other error (the 404 of an unknown
    repository among them) is passed on as it is, the handle of an existing
    repository is returned, and the world is never changed. *)
Theorem get_repo_outcome (K : Constants) (repo_name : string) (w : World) :
  get_repo K repo_name w
  = match gh_outage w with
    | Some e =>
        if is_BadCredentialsException e
        then (Err (PermissionError ("Credentials from token '" ++ ENV_GITHUB_TOKEN K
                                    ++ "' were bad")), w)
        else (Err e, w)
    | None =>
        match gh_repos w !! repo_name with
        | Some _ => (Ok repo_name, w)
        | None => (Err (GithubException 404 (Some (PyStr "Not Found"))), w)
        end
    end.
Proof.
  unfold get_repo, try_except, Github_get_repo, request, find_repo, not_found,
    bind, get, ret, raise.
  destruct (gh_outage w) as [e|]; simpl.
  - by destruct (is_BadCredentialsException e).
  - by destruct (gh_repos w !! repo_name).
Qed.

(** X6.  The constructor only reads.  It raises [KeyError] when the
    variable naming the repository is not set; when it succeeds, [repo] is
    the repository named by that variable, which the service knows,
    [latest_go_version] is not assigned yet, and [author] is built from
    the author variable, or left unset when that variable is missing. *)
Theorem init_outcome (K : Constants) (w w' : World) (r : result GoPRMaker) :
  init K w = (r, w') →
  w' = w
  ∧ (environ w !! ENV_GITHUB_REPOSITORY K = None →
     r = Err (KeyError (ENV_GITHUB_REPOSITORY K)))
  ∧ (∀ self, r = Ok self →
       environ w !! ENV_GITHUB_REPOSITORY K = Some (repo self)
       ∧ is_Some (gh_repos w !! repo self)
       ∧ latest_go_version self = None
       ∧ author self
         = (λ name, {| author_name := name;
                       author_email := GIT_AUTHOR_EMAIL_TEMPLATE_format K name |})
           <$> environ w !! ENV_GIT_AUTHOR_NAME K).
Proof.
  unfold init, get_repo_name. intros H.
  apply bind_inv in H as [(name & w1 & Hname & H)|(e & Hname & ->)];
    pose proof (read_only_run _ _ _ _ (read_only_getenv _) Hname) as ->;
    unfold getenv, bind, get, ret, raise in Hname;
    destruct (environ w !! ENV_GITHUB_REPOSITORY K) as [name'|] eqn:Henv; simplify_eq.
  2:{ repeat split; try done. }
  apply bind_inv in H as [(handle & w1 & Hrepo & H)|(e & Hrepo & ->)];
    pose proof (read_only_run _ _ _ _ (read_only_get_repo _ _) Hrepo) as ->.
  2:{ repeat split; try done. }
  unfold get_repo, try_except, Github_get_repo, request, find_repo, not_found,
    bind, get, ret, raise in Hrepo.
  destruct (gh_outage w) as [e|]; simpl in Hrepo;
    [by destruct (is_BadCredentialsException e)|].
  destruct (gh_repos w !! name) as [R|] eqn:HR; simpl in Hrepo; simplify_eq.
  unfold try_except, getenv, bind, get, ret, raise in H.
  destruct (environ w !! ENV_GIT_AUTHOR_NAME K) as [a|] eqn:Ha; simpl in H; simplify_eq;
    (split; [done|]; split; [done|]; intros self [= <-]; simpl; rewrite HR; eauto).
Qed.

Lemma init_outcome_witness :
  ∃ self, init Sample.K Sample.world = (Ok self, Sample.world)
          ∧ repo self = "apache/trafficcontrol" ∧ author self = None.
Proof.
  assert (H : init Sample.K Sample.world = (Ok Sample.maker, Sample.world)) by reflexivity.
  destruct (init_outcome _ _ _ _ H) as (_ & _ & Hok).
  destruct (Hok _ eq_refl) as (_ & _ & _ & Hauthor).
  exists Sample.maker. split; [exact H|]. split; [reflexivity|exact Hauthor].
Defined.

(** ** Reading the pinned version *)

(** X7.  With the service answering and the branch in place,
    [get_repo_go_version] returns the content of the version file exactly as
    it is stored, nothing stripped; it raises [IsADirectoryError] when the
    path is a directory and the 404 of the service when the branch has no
    such path. *)
Theorem get_repo_go_version_outcome
    (K : Constants) (blob_sha : string → string) (self : GoPRMaker) (branch : string)
    (w : World) (file head : string) (R : Repository) (t : gmap string TreeEntry) :
  gh_outage w = None →
  environ w !! ENV_GO_VERSION_FILE K = Some file →
  gh_repos w !! repo self = Some R →
  branches R !! branch = Some head →
  tree_of R head = Some t →
  get_repo_go_version K blob_sha self branch w
  = match t !! file with
    | Some (Blob content) => (Ok content, w)
    | Some Directory =>
        (Err (IsADirectoryError ("cannot get file contents of '" ++ file
                                 ++ "': is a directory")), w)
    | None => (Err (GithubException 404 (Some (PyStr "Not Found"))), w)
    end.
Proof.
  intros Hup Hfile HR Hhead Ht.
  unfold get_repo_go_version, getenv, file_contents, Repository_get_contents, request,
    find_repo, not_found, bind, get, ret, raise.
  rewrite strip_prefix_app. simpl. rewrite Hfile, Hup, HR, Hhead. simpl. rewrite Ht. simpl.
  by destruct (t !! file) as [[c|]|].
Qed.

Lemma get_repo_go_version_outcome_witness :
  get_repo_go_version Sample.K Sample.blob_sha Sample.maker "master" Sample.world
  = (Ok "1.22.1", Sample.world).
Proof.
  exact (get_repo_go_version_outcome Sample.K Sample.blob_sha Sample.maker "master"
           Sample.world "GO_VERSION" "c0" Sample.trafficcontrol Sample.root_tree
           eq_refl eq_refl eq_refl eq_refl eq_refl).
Defined.

(** X8.  When the version of the branch is read, [branch_exists] answers
    whether it equals [latest_go_version], and raises [AttributeError] if
    [run] has not assigned that attribute yet. *)
Theorem branch_exists_after_read
    (K : Constants) (blob_sha : string → string) (self : GoPRMaker) (branch : string)
    (w w' : World) (repo_go_version : string) :
  get_repo_go_version K blob_sha self branch w = (Ok repo_go_version, w') →
  branch_exists K blob_sha self branch w
  = match latest_go_version self with
    | Some latest => (Ok (bool_decide (latest = repo_go_version)), w)
    | None => (Err (AttributeError "latest_go_version"), w)
    end.
Proof.
  intros H.
  pose proof (read_only_run _ _ _ _ (read_only_get_repo_go_version _ _ _ _) H) as ->.
  unfold branch_exists, bind, try_except. rewrite H.
  unfold get_latest_go_version.
  destruct (latest_go_version self) as [latest|]; simpl; [|done].
  by case_bool_decide.
Qed.

Lemma branch_exists_after_read_witness :
  branch_exists Sample.K Sample.blob_sha Sample.maker "master" Sample.world
  = (Err (AttributeError "latest_go_version"), Sample.world)
  ∧ branch_exists Sample.K Sample.blob_sha Sample.maker_1_22_5 "master" Sample.world
    = (Ok false, Sample.world).
Proof.
  assert (H : get_repo_go_version Sample.K Sample.blob_sha Sample.maker "master" Sample.world
              = (Ok "1.22.1", Sample.world)) by reflexivity.
  split.
  - exact (branch_exists_after_read _ _ Sample.maker _ _ _ _ H).
  - exact (branch_exists_after_read _ _ Sample.maker_1_22_5 _ _ _ _ H).
Defined.

(** X21.  [branch_exists] only reads.  It returns [True] only when the
    branch exists and the version read from it is [latest_go_version].
    When reading the version fails with the "ref not found" error of the
    service, it returns [False]; the service answers so for a branch it
    does not have.  Any other error of the read reaches the caller as it
    is, provided that, when it is a [GithubException], its data has a
    message. *)
Theorem branch_exists_handler
    (K : Constants) (blob_sha : string → string) (self : GoPRMaker) (branch : string)
    (w : World) :
  let outcome := (get_repo_go_version K blob_sha self branch w).1 in
  let answer := branch_exists K blob_sha self branch w in
  answer.2 = w
  ∧ (answer.1 = Ok true →
     ∃ R head content,
       gh_repos w !! repo self = Some R ∧ branches R !! branch = Some head
       ∧ outcome = Ok content ∧ latest_go_version self = Some content)
  ∧ (∀ e, outcome = Err e → is_ref_not_found e = true → answer.1 = Ok false)
  ∧ (∀ e, outcome = Err e → is_ref_not_found e = false →
          (∀ status, e ≠ GithubException status None) → answer.1 = Err e)
  ∧ (∀ file R,
       gh_outage w = None → environ w !! ENV_GO_VERSION_FILE K = Some file →
       gh_repos w !! repo self = Some R → branches R !! branch = None →
       answer.1 = Ok false).
Proof.
  intros outcome answer.
  pose proof (read_only_get_repo_go_version K blob_sha self branch w) as Hw.
  assert (Hcases :
    answer.2 = w
    ∧ (answer.1 = Ok true → ∃ content, outcome = Ok content ∧ latest_go_version self = Some content)
    ∧ (∀ e, outcome = Err e → is_ref_not_found e = true → answer.1 = Ok false)
    ∧ (∀ e, outcome = Err e → is_ref_not_found e = false →
            (∀ status, e ≠ GithubException status None) → answer.1 = Err e)).
  { subst outcome answer. unfold branch_exists, bind, try_except.
    destruct (get_repo_go_version K blob_sha self branch w) as [[content|e] w1] eqn:Hread;
      simpl in Hw; subst w1; simpl.
    - unfold get_latest_go_version.
      destruct (latest_go_version self) as [latest|]; simpl.
      + case_bool_decide as Heq; simpl; repeat split; try done.
        intros _. exists content. by subst.
      + repeat split; done.
    - destruct e as [| | |status [[message|]|]| | | | | | |]; cbn -[Str.strip_prefix];
        try (repeat split; intros; simplify_eq; done).
      + case_bool_decide as Hprefix; cbn -[Str.strip_prefix];
          repeat split; intros; simplify_eq; try done.
        * cbn -[Str.strip_prefix] in *. by rewrite bool_decide_eq_true_2 in *.
        * cbn -[Str.strip_prefix] in *. by rewrite bool_decide_eq_false_2 in *.
      + repeat split; intros; simplify_eq; try done.
        match goal with H : ∀ s : N, _ ≠ _ |- _ => by destruct (H status) end. }
  destruct Hcases as (H0 & H1 & H2 & H3).
  split; [done|]. split; [|split; [done|split; [done|]]].
  - intros Htrue. destruct (H1 Htrue) as (content & Hout & Hlatest).
    subst outcome.
    destruct (get_repo_go_version K blob_sha self branch w) as [r w1] eqn:Hread.
    simpl in Hout. subst r.
    apply get_repo_go_version_inv in Hread as (file & R & head & t & _ & HR & Hb & _).
    by exists R, head, content.
  - intros file R Hup Hfile HR Hb.
    apply (H2 (GithubException 404
                 (Some (PyStr ("No commit found for the ref refs/heads/" ++ branch)))));
      subst outcome.
    + by rewrite (get_repo_go_version_no_branch K blob_sha self branch w file R).
    + reflexivity.
Qed.

Lemma branch_exists_handler_witness :
  (branch_exists Sample.K Sample.blob_sha Sample.maker_1_22_5 "go-1.22.5" Sample.world).1
  = Ok false
  ∧ (branch_exists Sample.K Sample.blob_sha Sample.maker_1_22_5 "go-1.22.5"
       (Sample.world_outage Sample.server_error)).1
    = Err Sample.server_error.
Proof.
  split.
  - destruct (branch_exists_handler Sample.K Sample.blob_sha Sample.maker_1_22_5 "go-1.22.5"
                Sample.world) as (_ & _ & _ & _ & H).
    apply (H "GO_VERSION" Sample.trafficcontrol); reflexivity.
  - destruct (branch_exists_handler Sample.K Sample.blob_sha Sample.maker_1_22_5 "go-1.22.5"
                (Sample.world_outage Sample.server_error)) as (_ & _ & _ & H & _).
    apply H; [reflexivity|reflexivity|discriminate].
Defined.

(** ** More on [set_go_version] *)

Lemma Repository_get_branch_inv (name branch sha : string) (w w' : World) :
  Repository_get_branch name branch w = (Ok sha, w') →
  w' = w ∧ gh_outage w = None
  ∧ ∃ R, gh_repos w !! name = Some R ∧ branches R !! branch = Some sha.
Proof.
  unfold Repository_get_branch, request, find_repo, not_found, bind, get, ret, raise.
  intros H. repeat (case_match; simplify_eq/=). eauto.
Qed.

Lemma Repository_create_git_ref_inv (name ref sha : string) (w w' : World) :
  Repository_create_git_ref name ref sha w = (Ok tt, w') →
  ∃ R b, Str.strip_prefix "refs/heads/" ref = Some b
    ∧ gh_repos w !! name = Some R ∧ branches R !! b = None
    ∧ w' = set_gh_repos <[name := set_branches <[b := sha]> R]>
             (set_gh_log (cons (CreateGitRef name ref sha)) w).
Proof.
  unfold Repository_create_git_ref. intros H.
  apply bind_inv in H as [([] & w1 & Hreq & H)|(e & _ & ?)]; [|done].
  apply request_inv in Hreq as [-> _].
  apply bind_inv in H as [(R & w2 & Hfind & H)|(e & _ & ?)]; [|done].
  apply find_repo_inv in Hfind as [-> HR]. specialize (HR R eq_refl). simpl in HR.
  destruct (Str.strip_prefix "refs/heads/" ref) as [b|] eqn:Hb; [|done].
  case_bool_decide as Hbranch; [done|].
  case_bool_decide as Hcommit; [|done].
  unfold store_repo, modify in H. inversion H; subst w'.
  exists R, b. repeat split; try done.
  destruct (branches R !! b) eqn:Hlook; [|done]. destruct Hbranch. eauto.
Qed.

(** An accepted [update_file]: what was there, and what is there now. *)
Lemma Repository_update_file_ok (blob_sha : string → string)
    (name path message content sha branch c : string) (cm a : option InputGitAuthor)
    (w w' : World) :
  Repository_update_file blob_sha name path message content sha branch cm a w = (Ok c, w') →
  ∃ R head t old,
    gh_repos w !! name = Some R ∧ branches R !! branch = Some head
    ∧ tree_of R head = Some t ∧ t !! path = Some (Blob old) ∧ blob_sha old = sha
    ∧ c = (add_commit R (<[path := Blob content]> t) [head] message a cm).1
    ∧ gh_repos w'
      = <[name := set_branches <[branch := c]>
                    (add_commit R (<[path := Blob content]> t) [head] message a cm).2]>
          (gh_repos w).
Proof.
  unfold Repository_update_file. intros H.
  apply bind_inv in H as [([] & w1 & Hreq & H)|(e & _ & ?)]; [|done].
  apply request_inv in Hreq as [-> _].
  apply bind_inv in H as [(R & w2 & Hfind & H)|(e & _ & ?)]; [|done].
  apply find_repo_inv in Hfind as [-> HR]. specialize (HR R eq_refl). simpl in HR.
  destruct (branches R !! branch) as [head|] eqn:Hhead; [|done].
  destruct (tree_of R head) as [t|] eqn:Ht; [|done].
  destruct (t !! path) as [[old|]|] eqn:Hold; try done.
  case_bool_decide as Hsha; [|done].
  destruct (add_commit _ _ _ _ _ _) as [c0 R'] eqn:Hadd.
  unfold bind, store_repo, modify, ret in H. inversion H; subst c w'. simpl.
  exists R, head, t, old. unfold add_commit in Hadd. by inversion Hadd.
Qed.

(** X9.  [set_go_version] returns a commit only when the blob at the
    [.env] path of the branch, once the version file is rewritten, has the
    same id as the blob just written to the version file: the second update
    is made against that id.  The branch did not exist before, and was
    created at the head of [master]. *)
Theorem set_go_version_returns_only_if_ids_agree
    (K : Constants) (blob_sha : string → string) (self : GoPRMaker)
    (go_version commit_message source_branch_name commit : string) (w w' : World) :
  set_go_version K blob_sha self go_version commit_message source_branch_name w
  = (Ok commit, w') →
  ∃ go_version_file R master_head t env_blob,
    environ w !! ENV_GO_VERSION_FILE K = Some go_version_file
    ∧ gh_repos w !! repo self = Some R
    ∧ branches R !! "master" = Some master_head
    ∧ branches R !! source_branch_name = None
    ∧ tree_of R master_head = Some t
    ∧ <[go_version_file := Blob ("$" ++ go_version ++ new_line)]> t
        !! Str.path_join (Str.dirname go_version_file) ".env" = Some (Blob env_blob)
    ∧ blob_sha env_blob = blob_sha ("$" ++ go_version ++ new_line).
Proof.
  unfold set_go_version. intros H.
  apply bind_inv in H as [(sha & w1 & Hb & H)|(e & _ & ?)]; [|done].
  apply Repository_get_branch_inv in Hb as (-> & Hup & R & HR & Hmaster).
  apply bind_inv in H as [([] & w1 & Href & H)|(e & _ & ?)]; [|done].
  apply Repository_create_git_ref_inv in Href as (R0 & b & Hstrip & HR0 & Hfree & ->).
  rewrite strip_prefix_app in Hstrip. inversion Hstrip; subst b.
  rewrite HR in HR0. inversion HR0; subst R0.
  set (w1 := set_gh_repos _ _) in *.
  apply bind_inv in H as [(file & w2 & Hfile & H)|(e & _ & ?)]; [|done].
  pose proof (read_only_run _ _ _ _ (read_only_getenv _) Hfile) as ->.
  assert (Henv : environ w !! ENV_GO_VERSION_FILE K = Some file).
  { unfold getenv, bind, get, ret, raise in Hfile. simpl in Hfile.
    destruct (environ w !! _); by simplify_eq. }
  apply bind_inv in H as [([[p s] c] & w2 & Hfc & H)|(e & _ & ?)]; [|done].
  apply file_contents_inv in Hfc as (-> & -> & -> & R1 & head1 & t1 & HR1 & Hh1 & Ht1 & Hc1).
  subst w1. simpl in HR1. rewrite lookup_insert_eq in HR1. inversion HR1; subst R1.
  simpl in Hh1. rewrite lookup_insert_eq in Hh1. inversion Hh1; subst head1.
  change (tree_of R sha = Some t1) in Ht1.
  set (w1 := set_gh_repos _ _) in *.
  apply bind_inv in H as [(kwargs & w2 & Hkw & H)|(e & _ & ?)]; [|done].
  assert (Hkwargs : w2 = w1 ∧ kw_branch kwargs = source_branch_name
            ∧ kw_content kwargs = "$" ++ go_version ++ new_line
            ∧ kw_path kwargs = file ∧ kw_message kwargs = commit_message
            ∧ kw_sha kwargs = blob_sha c).
  { unfold try_except, getenv, bind, get, ret, raise in Hkw.
    destruct (environ w1 !! ENV_GIT_AUTHOR_NAME K); simpl in Hkw; by simplify_eq. }
  destruct Hkwargs as (-> & Hkb & Hkc & Hkp & Hkm & Hks). clear Hkw.
  unfold update_file in H. rewrite Hkb, Hkc, Hkp, Hkm, Hks in H. simpl in H.
  apply bind_inv in H as [(c1 & w2 & Hup1 & H)|(e & _ & ?)]; [|done].
  apply Repository_update_file_ok in Hup1
    as (R1 & head1 & t1' & old1 & HR1' & Hh1' & Ht1' & _ & _ & Hc1' & Hrepos2).
  subst w1. simpl in HR1'. rewrite lookup_insert_eq in HR1'. inversion HR1'; subst R1.
  simpl in Hh1'. rewrite lookup_insert_eq in Hh1'. inversion Hh1'; subst head1.
  change (tree_of R sha = Some t1') in Ht1'. rewrite Ht1 in Ht1'. inversion Ht1'; subst t1'.
  pose proof (add_commit_tree_of (set_branches <[source_branch_name:=sha]> R)
                (<[file := Blob ("$" ++ go_version ++ new_line)]> t1) [sha] commit_message
                (kw_author kwargs) None) as Htree.
  destruct (add_commit _ _ _ _ _ _) as [c1' R1'] eqn:Hadd.
  simpl in Hc1', Hrepos2, Htree. subst c1'.
  apply bind_inv in H as [([[p' s'] c'] & w3 & Hfc' & H)|(e & _ & ?)]; [|done].
  apply file_contents_inv in Hfc' as (-> & -> & -> & R2 & head2 & t2 & HR2 & Hh2 & Ht2 & Hb2).
  apply Repository_update_file_ok in H
    as (R3 & head3 & t3 & old3 & HR3 & Hh3 & Ht3 & Hold3 & Hsha3 & _ & _).
  rewrite HR2 in HR3. inversion HR3; subst R3.
  rewrite Hh2 in Hh3. inversion Hh3; subst head3.
  rewrite Ht2 in Ht3. inversion Ht3; subst t3.
  rewrite Hrepos2, lookup_insert_eq in HR2. inversion HR2; subst R2.
  simpl in Hh2. rewrite lookup_insert_eq in Hh2. inversion Hh2; subst head2.
  change (tree_of R1' c1 = Some t2) in Ht2.
  rewrite Htree in Ht2. inversion Ht2; subst t2.
  rewrite lookup_insert_eq in Hb2. inversion Hb2; subst c'.
  exists file, R, sha, t1, old3. done.
Qed.

Lemma request_some_ok (q : Request) (w : World) :
  gh_outage w = None → request (Some q) w = (Ok tt, set_gh_log (cons q) w).
Proof. intros Hup. unfold request, bind, modify, get, ret, raise. simpl. by rewrite Hup. Qed.

(** X10.  When the branch to create is already there, [set_go_version]
    stops at the request that creates it: the service refuses the ref, the
    error reaches the caller, and no file is updated. *)
Theorem set_go_version_branch_taken
    (K : Constants) (blob_sha : string → string) (self : GoPRMaker)
    (go_version commit_message source_branch_name master_head : string)
    (w : World) (R : Repository) :
  gh_outage w = None →
  gh_repos w !! repo self = Some R →
  branches R !! "master" = Some master_head →
  is_Some (branches R !! source_branch_name) →
  set_go_version K blob_sha self go_version commit_message source_branch_name w
  = (Err (GithubException 422 (Some (PyStr "Reference already exists"))),
     set_gh_log (cons (CreateGitRef (repo self) ("refs/heads/" ++ source_branch_name)
                         master_head)) w).
Proof.
  intros Hup HR Hmaster Htaken.
  assert (Hb : Repository_get_branch (repo self) "master" w = (Ok master_head, w)).
  { unfold Repository_get_branch.
    rewrite (bind_ok _ _ _ _ _ (request_none_ok w Hup)).
    rewrite (bind_ok _ _ _ _ _ (find_repo_ok w _ _ HR)). by rewrite Hmaster. }
  unfold set_go_version. rewrite (bind_ok _ _ _ _ _ Hb).
  apply bind_err. unfold Repository_create_git_ref.
  rewrite (bind_ok _ _ _ _ _ (request_some_ok _ w Hup)).
  rewrite (bind_ok _ _ _ _ _ (find_repo_ok (set_gh_log _ w) _ _ HR)).
  rewrite strip_prefix_app. by rewrite bool_decide_eq_true_2.
Qed.

Lemma set_go_version_branch_taken_witness :
  set_go_version Sample.K Sample.blob_sha Sample.maker "1.22.5"
    "Update Go version to 1.22.5" "master" Sample.world
  = (Err (GithubException 422 (Some (PyStr "Reference already exists"))),
     set_gh_log (cons (CreateGitRef "apache/trafficcontrol" "refs/heads/master" "c0"))
       Sample.world).
Proof.
  apply (set_go_version_branch_taken Sample.K Sample.blob_sha Sample.maker "1.22.5"
           "Update Go version to 1.22.5" "master" "c0" Sample.world Sample.trafficcontrol);
    try reflexivity.
  by eexists.
Defined.

(** X11.  Every file update [set_go_version] sends names as author the
    one built from the author variable of the environment, and names none
    when that variable is not set. *)
Theorem set_go_version_author
    (K : Constants) (blob_sha : string → string) (self : GoPRMaker)
    (go_version commit_message source_branch_name : string) (w w' : World)
    (r : result string) :
  set_go_version K blob_sha self go_version commit_message source_branch_name w = (r, w') →
  ∃ new, gh_log w' = (new ++ gh_log w)%list
    ∧ ∀ q a, q ∈ new → request_author q = Some a →
        a = (λ name, {| author_name := name;
                        author_email := GIT_AUTHOR_EMAIL_TEMPLATE_format K name |})
            <$> environ w !! ENV_GIT_AUTHOR_NAME K.
Proof.
  unfold set_go_version. intros H.
  assert (Hnone : ∀ l : list Request, (∀ q, q ∈ l → request_author q = None) →
            ∀ q a, q ∈ l → request_author q = Some a →
              a = (λ name, {| author_name := name;
                              author_email := GIT_AUTHOR_EMAIL_TEMPLATE_format K name |})
                  <$> environ w !! ENV_GIT_AUTHOR_NAME K).
  { intros l Hl q a Hq Ha. rewrite (Hl q Hq) in Ha. done. }
  assert (Href1 : ∀ sha q, q ∈ [CreateGitRef (repo self)
                                  ("refs/heads/" ++ source_branch_name) sha] →
                    request_author q = None).
  { intros sha q ->%list_elem_of_singleton. done. }
  apply bind_inv in H as [(sha & w1 & Hb & H)|(e & Hb & ->)];
    apply read_only_run in Hb as ->; try apply read_only_Repository_get_branch.
  2:{ exists []. split; [done|]. intros q a Hq. by apply elem_of_nil in Hq. }
  apply bind_inv in H as [([] & w1 & Href & H)|(e & Href & ->)];
    apply Repository_create_git_ref_log in Href as [Hlog1 Henv1].
  2:{ eexists [_]. split; [done|]. by eapply Hnone, Href1. }
  apply bind_inv in H as [(file & w2 & Hfile & H)|(e & Hfile & ->)];
    pose proof (read_only_run _ _ _ _ (read_only_getenv _) Hfile) as ->.
  2:{ eexists [_]. split; [done|]. by eapply Hnone, Href1. }
  apply bind_inv in H as [([[p s] c] & w2 & Hfc & H)|(e & Hfc & ->)];
    pose proof (read_only_run _ _ _ _ (read_only_file_contents _ _ _ _) Hfc) as ->.
  2:{ eexists [_]. split; [done|]. by eapply Hnone, Href1. }
  apply bind_inv in H as [(kwargs & w2 & Hkw & H)|(e & Hkw & ->)].
  2:{ unfold try_except, getenv, bind, get, ret, raise in Hkw.
      destruct (environ w1 !! ENV_GIT_AUTHOR_NAME K); simpl in Hkw; simplify_eq. }
  assert (Hkwargs : w2 = w1
            ∧ kw_author kwargs
              = (λ name, {| author_name := name;
                            author_email := GIT_AUTHOR_EMAIL_TEMPLATE_format K name |})
                <$> environ w !! ENV_GIT_AUTHOR_NAME K).
  { rewrite <- Henv1. unfold try_except, getenv, bind, get, ret, raise in Hkw.
    destruct (environ w1 !! ENV_GIT_AUTHOR_NAME K); simpl in Hkw; by simplify_eq. }
  destruct Hkwargs as (-> & Hauthor). clear Hkw.
  unfold update_file in H. simpl in H.
  apply bind_inv in H as [(c1 & w2 & Hup1 & H)|(e & Hup1 & ->)];
    apply Repository_update_file_inv in Hup1 as (Hlog2 & _ & _).
  2:{ eexists [_; _]. split; [by rewrite Hlog2, Hlog1|].
      intros q a [->|Hq]%elem_of_cons Ha; [by simplify_eq/=|].
      by eapply Hnone; [apply Href1| |]. }
  apply bind_inv in H as [([[p' s'] c'] & w3 & Hfc' & H)|(e & Hfc' & ->)];
    pose proof (read_only_run _ _ _ _ (read_only_file_contents _ _ _ _) Hfc') as ->.
  2:{ eexists [_; _]. split; [by rewrite Hlog2, Hlog1|].
      intros q a [->|Hq]%elem_of_cons Ha; [by simplify_eq/=|].
      by eapply Hnone; [apply Href1| |]. }
  apply Repository_update_file_inv in H as (Hlog3 & _ & _).
  eexists [_; _; _]. split; [by rewrite Hlog3, Hlog2, Hlog1|].
  intros q a [->|[->|Hq]%elem_of_cons]%elem_of_cons Ha; [by simplify_eq/=..|].
  by eapply Hnone; [apply Href1| |].
Qed.

Lemma set_go_version_author_witness :
  ∃ q, gh_log (set_go_version Sample.K Sample.blob_sha Sample.maker "1.22.5"
                 "Update Go version to 1.22.5" "go-1.22.5" Sample.world_with_author).2
       !! 1%nat = Some q
       ∧ request_author q
         = Some (Some {| author_name := "asf-ci";
                         author_email := "asf-ci@users.noreply.github.com" |}).
Proof.
  destruct (set_go_version_author Sample.K Sample.blob_sha Sample.maker "1.22.5"
              "Update Go version to 1.22.5" "go-1.22.5" Sample.world_with_author _ _
              (surjective_pairing _))
    as (new & Hlog & Hauthor).
  change (gh_log Sample.world_with_author) with (@nil Request) in Hlog.
  rewrite app_nil_r in Hlog.
  destruct (gh_log _ !! 1%nat) as [q|] eqn:Hq; [|by vm_compute in Hq].
  exists q. split; [done|].
  destruct (request_author q) as [a|] eqn:Ha.
  - f_equal. apply (Hauthor q a); [|done].
    rewrite <- Hlog. by eapply list_elem_of_lookup_2.
  - exfalso. vm_compute in Hq. inversion Hq; subst q. discriminate.
Defined.

(** ** More on [update_golang_org_x] *)

Lemma repos_extended_refl (w w' : World) : gh_repos w' = gh_repos w → repos_extended w w'.
Proof. intros Heq name R HR. exists R. by rewrite Heq. Qed.

Lemma repos_extended_trans (w1 w2 w3 : World) :
  repos_extended w1 w2 → repos_extended w2 w3 → repos_extended w1 w3.
Proof.
  intros H12 H23 name R HR.
  destruct (H12 name R HR) as (R2 & HR2 & Hb & Hp & Hl & Hm & Hc & Ht).
  destruct (H23 name R2 HR2) as (R3 & HR3 & Hb' & Hp' & Hl' & Hm' & Hc' & Ht').
  exists R3. repeat split; try congruence; by etrans.
Qed.

Lemma repos_extended_insert (w w' : World) (name : string) (R R' : Repository) :
  gh_repos w !! name = Some R →
  gh_repos w' = <[name := R']> (gh_repos w) →
  branches R' = branches R → pulls R' = pulls R → labels R' = labels R →
  milestones R' = milestones R → commits R ⊆ commits R' → trees R ⊆ trees R' →
  repos_extended w w'.
Proof.
  intros HR Hw' Hb Hp Hl Hm Hc Ht name0 R0 HR0. rewrite Hw'.
  destruct (decide (name = name0)) as [<-|Hne].
  - rewrite lookup_insert_eq. exists R'. rewrite HR in HR0. inversion HR0; subst R0. done.
  - rewrite lookup_insert_ne by done. exists R0. done.
Qed.

Lemma Repository_create_git_tree_extends (name : string) (els : list InputGitTreeElement)
    (base_tree : string) (w w' : World) (r : result string) :
  Repository_create_git_tree name els base_tree w = (r, w') →
  repos_extended w w' ∧ git w' = git w
  ∧ gh_log w' = CreateGitTree name els base_tree :: gh_log w.
Proof.
  unfold Repository_create_git_tree. intros H.
  apply bind_inv in H as [([] & w1 & Hreq & H)|(e & Hreq & ->)];
    apply request_inv in Hreq as [Hw1 _].
  2:{ subst w'. split; [by apply repos_extended_refl|done]. }
  apply bind_inv in H as [(R & w2 & Hfind & H)|(e & Hfind & ->)];
    apply find_repo_inv in Hfind as [-> HR].
  2:{ subst w1. split; [by apply repos_extended_refl|done]. }
  specialize (HR R eq_refl). subst w1. simpl in HR.
  destruct (trees R !! base_tree) as [base|].
  2:{ unfold unprocessable, raise in H. inversion H; subst.
      split; [by apply repos_extended_refl|done]. }
  unfold bind, store_repo, modify, ret in H. inversion H; subst r w'. simpl.
  split; [|done].
  eapply repos_extended_insert; [exact HR|done|simpl; try done..].
  apply insert_subseteq, new_id_fresh.
Qed.

Lemma Repository_create_git_commit_extends (name message tree : string)
    (parents : list string) (a c : option InputGitAuthor) (w w' : World) (r : result string) :
  Repository_create_git_commit name message tree parents a c w = (r, w') →
  repos_extended w w' ∧ git w' = git w
  ∧ gh_log w' = CreateGitCommit name message tree parents a :: gh_log w.
Proof.
  unfold Repository_create_git_commit. intros H.
  apply bind_inv in H as [([] & w1 & Hreq & H)|(e & Hreq & ->)];
    apply request_inv in Hreq as [Hw1 _].
  2:{ subst w'. split; [by apply repos_extended_refl|done]. }
  apply bind_inv in H as [(R & w2 & Hfind & H)|(e & Hfind & ->)];
    apply find_repo_inv in Hfind as [-> HR].
  2:{ subst w1. split; [by apply repos_extended_refl|done]. }
  specialize (HR R eq_refl). subst w1. simpl in HR.
  destruct (_ && _).
  2:{ unfold unprocessable, raise in H. inversion H; subst.
      split; [by apply repos_extended_refl|done]. }
  unfold bind, store_repo, modify, ret in H. inversion H; subst r w'. simpl.
  split; [|done].
  eapply repos_extended_insert; [exact HR|done|simpl; try done..].
  apply insert_subseteq, new_id_fresh.
Qed.

(** X12.  The loop of [update_golang_org_x] collects one tree element for
    each file of its list that is changed in the work tree, in the order of
    the list and with the content read from the work tree, and nothing for
    a file that is not changed; it leaves the world as it was. *)
Theorem collect_tree_elements_exact (fs : list string) (acc els : list InputGitTreeElement)
    (w w' : World) :
  collect_tree_elements fs acc w = (Ok els, w') →
  w' = w
  ∧ ∃ new, els = (acc ++ new)%list
      ∧ element_path <$> new = List.filter (tracked_file_changed (git w)) fs
      ∧ ∀ e, e ∈ new → read_file (element_path e) w = (Ok (element_content e), w).
Proof.
  intros H.
  pose proof (read_only_run _ _ _ _ (read_only_collect_tree_elements _ _) H) as ->.
  split; [done|]. revert acc H. induction fs as [|f fs IH]; intros acc; simpl.
  - intros [= ->]. exists []. rewrite app_nil_r. split; [done|]. split; [done|].
    intros e He. by apply elem_of_nil in He.
  - unfold bind at 1. unfold git_diff_exit_code, bind, get, ret. simpl.
    destruct (tracked_file_changed (git w) f) eqn:Hf; simpl.
    + destruct (read_file f w) as [[content|e] w1] eqn:Hread; [|done].
      pose proof (read_only_run _ _ _ _ (read_only_read_file _) Hread) as ->.
      intros H. apply IH in H as (new & -> & Hpaths & Hread').
      exists ({| element_path := f; element_content := content |} :: new).
      rewrite <- app_assoc. split; [done|]. split; [rewrite fmap_cons; simpl; by f_equal|].
      intros e [->|He]%elem_of_cons; [done|by apply Hread'].
    + intros H. apply IH in H as (new & -> & Hpaths & Hread').
      by exists new.
Qed.

Lemma collect_tree_elements_exact_witness :
  ∃ w new,
    collect_tree_elements files_to_check [] w = (Ok new, w)
    ∧ element_path <$> new = ["go.sum"].
Proof.
  pose (w := (run_update_golang_org_x_sh Sample.update_golang_org_x_sh
                (git_checkout "c0" (git_fetch_origin Sample.world).2).2).2).
  assert (H : collect_tree_elements files_to_check [] w
              = (Ok [{| element_path := "go.sum";
                        element_content := "golang.org/x/sys v0.21.0" |}], w))
    by (vm_compute; reflexivity).
  destruct (collect_tree_elements_exact _ _ _ _ _ H) as (_ & new & Hnew & Hpaths & _).
  exists w, new. simpl in Hnew. subst new. split; [exact H|reflexivity].
Defined.

(** X13.  Whatever its outcome, [update_golang_org_x] moves no branch and
    touches no pull request, label or milestone, and every commit and tree
    of every repository is still there, unchanged, afterwards: all it can
    add is one tree and one commit. *)
Theorem update_golang_org_x_extends
    (script : gmap string string → option (gmap string string))
    (self : GoPRMaker) (previous_commit : string) (w w' : World) (r : result (option string)) :
  update_golang_org_x script self previous_commit w = (r, w') →
  repos_extended w w'.
Proof.
  unfold update_golang_org_x. intros H.
  apply bind_inv in H as [([] & w1 & Hfetch & H)|(e & Hfetch & ->)];
    destruct (local_step_git_fetch_origin _ _ _ Hfetch) as (Hr1 & _).
  2:{ by apply repos_extended_refl. }
  apply bind_inv in H as [([] & w2 & Hco & H)|(e & Hco & ->)];
    destruct (local_step_git_checkout _ _ _ _ Hco) as (Hr2 & _).
  2:{ apply repos_extended_refl. congruence. }
  apply bind_inv in H as [([] & w3 & Hsh & H)|(e & Hsh & ->)];
    destruct (local_step_run_update_golang_org_x_sh _ _ _ _ Hsh) as (Hr3 & _).
  2:{ apply repos_extended_refl. congruence. }
  assert (H03 : repos_extended w w3) by (apply repos_extended_refl; congruence).
  apply bind_inv in H as [(els & w4 & Hcol & H)|(e & Hcol & ->)];
    pose proof (read_only_run _ _ _ _ (read_only_collect_tree_elements _ _) Hcol) as ->;
    [|done].
  case_bool_decide; [by inversion H; subst|].
  apply bind_inv in H as [(tree_hash & w4 & Hlogt & H)|(e & Hlogt & ->)].
  2:{ by apply git_log_tree_err in Hlogt as ->. }
  apply git_log_tree_inv in Hlogt as (-> & _).
  apply bind_inv in H as [(base_tree & w4 & Hgt & H)|(e & Hgt & ->)];
    apply read_only_run in Hgt as ->;
    try (unfold Repository_get_git_tree; read_only_solve); [|done].
  apply bind_inv in H as [(tree & w4 & Hct & H)|(e & Hct & ->)];
    apply Repository_create_git_tree_extends in Hct as (H34 & _).
  2:{ by eapply repos_extended_trans. }
  assert (H04 : repos_extended w w4) by (by eapply repos_extended_trans).
  apply bind_inv in H as [(latest & w5 & Hlatest & H)|(e & Hlatest & ->)].
  2:{ unfold get_latest_go_version, ret, raise in Hlatest.
      destruct (latest_go_version self); by simplify_eq. }
  assert (w5 = w4) as ->.
  { unfold get_latest_go_version, ret, raise in Hlatest.
    destruct (latest_go_version self); by simplify_eq. }
  apply bind_inv in H as [(parent & w5 & Hgc & H)|(e & Hgc & ->)];
    apply read_only_run in Hgc as ->;
    try (unfold Repository_get_git_commit, Repository_get_commit; read_only_solve); [|done].
  apply bind_inv in H as [(c & w6 & Hcc & H)|(e & Hcc & ->)];
    apply Repository_create_git_commit_extends in Hcc as (H46 & _).
  2:{ by eapply repos_extended_trans. }
  inversion H; subst. by eapply repos_extended_trans.
Qed.

Lemma update_golang_org_x_extends_witness :
  ∃ R', gh_repos (update_golang_org_x Sample.update_golang_org_x_sh Sample.maker_1_22_5 "c0"
                    Sample.world).2 !! "apache/trafficcontrol" = Some R'
        ∧ branches R' = branches Sample.trafficcontrol.
Proof.
  destruct (update_golang_org_x_extends Sample.update_golang_org_x_sh Sample.maker_1_22_5
              "c0" Sample.world _ _ (surjective_pairing _)
              "apache/trafficcontrol" Sample.trafficcontrol eq_refl)
    as (R' & HR' & Hbranches & _).
  exists R'. split; [exact HR'|exact Hbranches].
Defined.

Lemma filter_ext_eq {A} (p q : A → bool) (l : list A) :
  (∀ x, p x = q x) → List.filter p l = List.filter q l.
Proof. intros H. induction l as [|x l IH]; simpl; [done|]. by rewrite H, IH. Qed.

Lemma collect_tree_elements_paths (fs : list string) (els : list InputGitTreeElement)
    (w w' : World) :
  collect_tree_elements fs [] w = (Ok els, w') →
  w' = w ∧ element_path <$> els = List.filter (tracked_file_changed (git w)) fs.
Proof.
  intros H.
  pose proof (read_only_run _ _ _ _ (read_only_collect_tree_elements _ _) H) as ->.
  split; [done|].
  assert (Hgen : ∀ fs acc els, collect_tree_elements fs acc w = (Ok els, w) →
            element_path <$> els
            = ((element_path <$> acc) ++ List.filter (tracked_file_changed (git w)) fs)%list).
  { clear. intros fs. induction fs as [|f fs IH]; intros acc els; simpl.
    - intros [= ->]. by rewrite app_nil_r.
    - unfold bind at 1. unfold git_diff_exit_code, bind, get, ret. simpl.
      destruct (tracked_file_changed (git w) f) eqn:Hf; simpl.
      + destruct (read_file f w) as [[content|e] w1] eqn:Hread; [|done].
        pose proof (read_only_run _ _ _ _ (read_only_read_file _) Hread) as ->.
        intros H. apply IH in H. rewrite H, fmap_app. simpl. by rewrite <- app_assoc.
      + apply IH. }
  by apply Hgen in H.
Qed.

(** X14.  When [update_golang_org_x] returns a commit, it has sent two
    requests and no more: one for a tree with an element for each changed
    file it checks, in the order checked, and one for a commit on that tree
    whose message names [latest_go_version], whose only parent is the
    commit it started from and whose author is the author of the maker. *)
Theorem update_golang_org_x_requests
    (script : gmap string string → option (gmap string string))
    (self : GoPRMaker) (previous_commit commit : string) (w w' : World) :
  update_golang_org_x script self previous_commit w = (Ok (Some commit), w') →
  ∃ latest els base_tree tree,
    latest_go_version self = Some latest
    ∧ element_path <$> els
      = List.filter (tracked_file_changed (git w')) files_to_check
    ∧ gh_log w'
      = CreateGitCommit (repo self) ("Update golang.org/x/ dependencies for go" ++ latest)
          tree [previous_commit] (author self)
        :: CreateGitTree (repo self) els base_tree :: gh_log w.
Proof.
  unfold update_golang_org_x. intros H.
  apply bind_inv in H as [([] & w1 & Hfetch & H)|(e & _ & ?)]; [|done].
  destruct (local_step_git_fetch_origin _ _ _ Hfetch) as (_ & Hl1 & _).
  apply bind_inv in H as [([] & w2 & Hco & H)|(e & _ & ?)]; [|done].
  destruct (local_step_git_checkout _ _ _ _ Hco) as (_ & Hl2 & _).
  apply bind_inv in H as [([] & w3 & Hsh & H)|(e & _ & ?)]; [|done].
  destruct (local_step_run_update_golang_org_x_sh _ _ _ _ Hsh) as (_ & Hl3 & _).
  apply bind_inv in H as [(els & w4 & Hcol & H)|(e & _ & ?)]; [|done].
  apply collect_tree_elements_paths in Hcol as (-> & Hpaths).
  case_bool_decide; [done|].
  apply bind_inv in H as [(tree_hash & w4 & Hlogt & H)|(e & _ & ?)]; [|done].
  apply git_log_tree_inv in Hlogt as (-> & _).
  apply bind_inv in H as [(base_tree & w4 & Hgt & H)|(e & _ & ?)]; [|done].
  apply Repository_get_git_tree_inv in Hgt as (-> & -> & _).
  apply bind_inv in H as [(tree & w4 & Hct & H)|(e & _ & ?)]; [|done].
  apply Repository_create_git_tree_extends in Hct as (_ & Hg4 & Hlog4).
  apply bind_inv in H as [(latest & w5 & Hlatest & H)|(e & _ & ?)]; [|done].
  unfold get_latest_go_version, ret, raise in Hlatest.
  destruct (latest_go_version self) as [latest'|] eqn:Hl; simplify_eq.
  apply bind_inv in H as [(parent & w7 & Hgc & H)|(e & _ & ?)]; [|done].
  apply Repository_get_git_commit_inv in Hgc as (-> & -> & _).
  apply bind_inv in H as [(c & w8 & Hcc & H)|(e & _ & ?)]; [|done].
  apply Repository_create_git_commit_extends in Hcc as (_ & Hg6 & Hlog6).
  inversion H; subst c w8. clear H.
  exists latest, els, tree_hash, tree. split; [done|].
  split; [by rewrite Hg6, Hg4|].
  rewrite Hlog6, Hlog4. congruence.
Qed.

Lemma update_golang_org_x_requests_witness :
  gh_log (update_golang_org_x Sample.update_golang_org_x_sh Sample.maker_1_22_5 "c0"
            Sample.world).2
  = [CreateGitCommit "apache/trafficcontrol" "Update golang.org/x/ dependencies for go1.22.5"
       "0" ["c0"] None;
     CreateGitTree "apache/trafficcontrol"
       [{| element_path := "go.sum"; element_content := "golang.org/x/sys v0.21.0" |}] "t0"].
Proof.
  pose (res := update_golang_org_x Sample.update_golang_org_x_sh Sample.maker_1_22_5 "c0"
                 Sample.world).
  assert (Hrun : update_golang_org_x Sample.update_golang_org_x_sh Sample.maker_1_22_5 "c0"
                   Sample.world = (Ok (Some "1"), res.2)) by (vm_compute; reflexivity).
  destruct (update_golang_org_x_requests _ _ _ _ _ _ Hrun) as (l & els & b & t & _ & _ & Hlog).
  vm_compute. reflexivity.
Defined.

(** ** More on [create_pr] and [get_pr_body] *)

Lemma path_join_absolute (a b : string) :
  Str.starts_with (λ c, bool_decide (c = "/"%char)) b = true → Str.path_join a b = b.
Proof. unfold Str.path_join. by intros ->. Qed.

(** X15.  [get_pr_body] opens the template at the root of the file
    system, whatever directory the module is in, since the second
    component of the joined path is absolute; when no file [/pr_template.md]
    exists it raises [FileNotFoundError] before any request is made, and
    otherwise the body is the template formatted with the version, its
    major version, the release notes and the milestone URL. *)
Theorem get_pr_body_template_at_root
    (K : Constants) (re_search : string → string → result (option string))
    (str_format : string → list (string * string) → result string)
    (go_version milestone_url : string) (w : World) :
  (∀ module_dir, Str.path_join module_dir "/pr_template.md" = "/pr_template.md")
  ∧ (files w !! "/pr_template.md" = None →
     get_pr_body K re_search str_format go_version milestone_url w
     = (Err (FileNotFoundError "/pr_template.md"), w))
  ∧ (∀ template notes,
       files w !! "/pr_template.md" = Some template →
       get_release_notes K re_search go_version w = (Ok notes, w) →
       get_pr_body K re_search str_format go_version milestone_url w
       = (str_format template
            [("GO_VERSION", go_version); ("GO_MAJOR_VERSION", get_major_version go_version);
             ("RELEASE_NOTES", notes); ("MILESTONE_URL", milestone_url)], w)).
Proof.
  split; [intros d; by apply path_join_absolute|].
  unfold get_pr_body. rewrite path_join_absolute by done.
  split.
  - intros Hnone. apply bind_err.
    unfold read_file, bind, get, ret, raise. simpl. by rewrite Hnone.
  - intros template notes Hfile Hnotes.
    assert (Hread : read_file "/pr_template.md" w = (Ok template, w)).
    { unfold read_file, bind, get, ret, raise. simpl. by rewrite Hfile. }
    rewrite (bind_ok _ _ _ _ _ Hread), (bind_ok _ _ _ _ _ Hnotes). done.
Qed.

Lemma get_pr_body_template_at_root_witness :
  get_pr_body Sample.K Sample.re_search Sample.str_format "1.22.5"
    "https://github.com/golang/go/milestone/212" Sample.world
  = (Ok (Sample.body_1_22_5 "https://github.com/golang/go/milestone/212"), Sample.world).
Proof.
  destruct (get_pr_body_template_at_root Sample.K Sample.re_search Sample.str_format "1.22.5"
              "https://github.com/golang/go/milestone/212" Sample.world) as (_ & _ & H).
  rewrite (H Sample.pr_template Sample.notes_1_22_5);
    [vm_compute; reflexivity|reflexivity|vm_compute; reflexivity].
Defined.

Lemma head_ref_of_label (owner branch : string) :
  Str.contains ":" owner = false → head_ref_of (owner ++ ":" ++ branch) = branch.
Proof.
  induction owner as [|c owner IH]; simpl; [done|].
  intros [Hc Hrest]%orb_false_iff.
  apply bool_decide_eq_false in Hc.
  rewrite bool_decide_eq_false_2 by congruence.
  assert (Hcontains : Str.contains ":" (owner ++ String ":" branch) = true).
  { clear. induction owner as [|d owner IH]; simpl; [done|]. by rewrite IH, orb_true_r. }
  rewrite Hcontains. by apply IH.
Qed.

(** X16.  With no pull request open on the branch, a milestone that has a
    URL and a body that renders, [create_pr] creates the pull request
    under a number that was free: its title is the commit message, its head
    is [owner:branch], its base the target branch, and maintainers may
    modify it.  It carries the label "go version" when the repository has
    that label, and no label when it has not: the missing label is not an
    error. *)
Theorem create_pr_creates
    (K : Constants) (re_search : string → string → result (option string))
    (str_format : string → list (string * string) → result string)
    (self : GoPRMaker) (go_version commit_message owner branch target : string)
    (w : World) (G R : Repository) (milestone : Milestone) (url body : string) :
  gh_outage w = None →
  gh_repos w !! repo self = Some R →
  (∀ n, n ∈ default [] (gh_search w !! ("repo:" ++ repo self ++ " is:pr is:open head:" ++ branch)) →
        ∃ pr, pulls R !! n = Some pr ∧ pr_head_ref pr ≠ branch) →
  gh_repos w !! GO_REPO_NAME K = Some G →
  find_milestone ("Go" ++ go_version) (milestones G) = Some milestone →
  raw_html_url milestone = Some url →
  get_pr_body K re_search str_format go_version url w = (Ok body, w) →
  Str.contains ":" owner = false →
  is_Some (branches R !! branch) → is_Some (branches R !! target) →
  ∃ w' R' number,
    create_pr K re_search str_format self go_version commit_message owner branch target w
    = (Ok tt, w')
    ∧ gh_repos w' !! repo self = Some R'
    ∧ pulls R !! number = None
    ∧ pulls R' !! number
      = Some {| pr_title := commit_message; pr_body := body;
                pr_head_label := owner ++ ":" ++ branch; pr_head_ref := branch;
                pr_base := target; pr_open := true; pr_maintainer_can_modify := true;
                pr_labels := if bool_decide ("go version" ∈ labels R)
                             then ["go version"] else [] |}
    ∧ branches R' = branches R.
Proof.
  intros Hup HR Hprs HG Hfind Hurl Hbody Howner Hbranch Htarget.
  unfold create_pr.
  rewrite (bind_ok _ _ _ _ _ (Github_search_issues_ok w Hup _)).
  rewrite (bind_ok _ _ _ _ _ (find_pull_none w Hup self R _ branch HR Hprs)).
  assert (Hm : get_go_milestone K self go_version w = (Ok (Some url), w)).
  { rewrite (get_go_milestone_eval w Hup K self go_version G HG), Hfind. by rewrite Hurl. }
  rewrite (bind_ok _ _ _ _ _ Hm), (bind_ok _ _ _ _ _ Hbody).
  set (number := fresh (dom (pulls R))).
  set (pr := {| pr_title := commit_message; pr_body := body;
                pr_head_label := owner ++ ":" ++ branch; pr_head_ref := branch;
                pr_base := target; pr_open := true; pr_maintainer_can_modify := true;
                pr_labels := [] |}).
  set (q := CreatePull (repo self) commit_message body (owner ++ ":" ++ branch) target).
  set (R1 := set_pulls <[number := pr]> R).
  set (w1 := set_gh_repos <[repo self := R1]> (set_gh_log (cons q) w)).
  assert (Hfree : pulls R !! number = None).
  { apply not_elem_of_dom, is_fresh. }
  assert (Hcreate : Repository_create_pull (repo self) commit_message body
                      (owner ++ ":" ++ branch) target true w = (Ok number, w1)).
  { unfold Repository_create_pull.
    rewrite (bind_ok _ _ _ _ _ (request_some_ok _ w Hup)).
    rewrite (bind_ok _ _ _ _ _ (find_repo_ok (set_gh_log _ w) _ _ HR)).
    rewrite head_ref_of_label by done.
    rewrite !bool_decide_eq_true_2 by done. done. }
  rewrite (bind_ok _ _ _ _ _ Hcreate).
  assert (Hup1 : gh_outage w1 = None) by done.
  assert (HR1 : gh_repos w1 !! repo self = Some R1) by (simpl; apply lookup_insert_eq).
  assert (Hget : Repository_get_label (repo self) "go version" w1
                 = (if bool_decide ("go version" ∈ labels R)
                    then Ok "go version"
                    else Err (GithubException 404 (Some (PyStr "Not Found"))), w1)).
  { unfold Repository_get_label.
    rewrite (bind_ok _ _ _ _ _ (request_none_ok w1 Hup1)).
    rewrite (bind_ok _ _ _ _ _ (find_repo_ok w1 _ _ HR1)).
    change (labels R1) with (labels R). by case_bool_decide. }
  unfold try_except.
  case_bool_decide as Hlabel.
  - (* the label exists *)
    rewrite (bind_ok _ _ _ _ _ Hget). unfold PullRequest_add_to_labels.
    rewrite (bind_ok _ _ _ _ _ (request_some_ok _ w1 Hup1)).
    rewrite (bind_ok _ _ _ _ _
               (find_repo_ok (set_gh_log (cons (AddToLabels (repo self) number "go version"))
                                w1) (repo self) R1 HR1)).
    change (pulls R1 !! number) with (<[number := pr]> (pulls R) !! number).
    rewrite lookup_insert_eq. unfold store_repo, modify.
    eexists _, _, number. split; [reflexivity|]. simpl.
    rewrite lookup_insert_eq. split; [done|]. split; [done|].
    simpl. rewrite lookup_insert_eq. done.
  - (* no such label *)
    rewrite (bind_err _ _ _ _ _ Hget). simpl.
    exists w1, R1, number. split; [done|]. split; [done|]. split; [done|].
    simpl. by rewrite lookup_insert_eq.
Qed.

(** ** More on [run] *)

Lemma read_only_branch_exists (K : Constants) (blob_sha : string → string)
    (self : GoPRMaker) (branch : string) :
  read_only (branch_exists K blob_sha self branch).
Proof.
  unfold branch_exists.
  apply read_only_bind.
  - apply read_only_try_except.
    + apply read_only_bind; [apply read_only_get_repo_go_version|intros v].
      apply read_only_bind; [|intros l; case_bool_decide; apply read_only_ret].
      unfold get_latest_go_version. destruct (latest_go_version self);
        [apply read_only_ret|apply read_only_raise].
    + intros e h He. destruct e as [| | |status [[message|]|]| | | | | | |]; simplify_eq;
        try apply read_only_raise.
      case_bool_decide; simplify_eq. apply read_only_ret.
  - intros [b|]; apply read_only_ret.
Qed.

Lemma read_only_Repository_get_git_ref (name ref : string) :
  read_only (Repository_get_git_ref name ref).
Proof. unfold Repository_get_git_ref. read_only_solve. Qed.

Lemma read_only_Repository_get_commit (name sha : string) :
  read_only (Repository_get_commit name sha).
Proof. unfold Repository_get_commit. read_only_solve. Qed.

(** X17.  In version-only mode [run] sends nothing but the requests that
    prepare the branch (create the ref, update the two files): no tree, no
    commit, no move of a branch, no pull request and no label, whatever
    the outcome. *)
Theorem run_version_only_requests
    (K : Constants) (blob_sha : string → string)
    (re_search : string → string → result (option string))
    (str_format : string → list (string * string) → result string)
    (script : gmap string string → option (gmap string string))
    (self : GoPRMaker) (w w' : World) (r : result GoPRMaker) :
  run K blob_sha re_search str_format script self true w = (r, w') →
  ∃ new, gh_log w' = (new ++ gh_log w)%list ∧ Forall prepares_branch new.
Proof.
  unfold run. intros H.
  assert (Hnil : ∀ w0 : World, gh_log w0 = gh_log w →
            ∃ new, gh_log w0 = (new ++ gh_log w)%list ∧ Forall prepares_branch new).
  { intros w0 Hw0. exists []. by split. }
  apply bind_inv in H as [(pinned & w1 & Hread & H)|(e & Hread & ->)];
    pose proof (read_only_run _ _ _ _ (read_only_get_repo_go_version _ _ _ _) Hread) as ->;
    [|by apply Hnil].
  apply get_repo_go_version_inv in Hread as (file & _ & _ & _ & Hfile & _).
  apply bind_inv in H as [(latest & w1 & Hlatest & H)|(e & Hlatest & ->)];
    apply read_only_run in Hlatest as ->; try apply read_only_get_latest_major_upgrade;
    [|by apply Hnil].
  case_bool_decide; [inversion H; subst; by apply Hnil|].
  apply bind_inv in H as [(exists_ & w1 & Hex & H)|(e & Hex & ->)];
    apply read_only_run in Hex as ->; try apply read_only_branch_exists;
    [|by apply Hnil].
  assert (Hprep : ∃ commit w2 new,
            gh_log w2 = (new ++ gh_log w)%list ∧ Forall prepares_branch new
            ∧ ((let* _ := git_fetch_origin in
                let* _ := git_checkout commit in
                ret (set_latest_go_version latest self)) w2 = (r, w')
               ∨ (∃ e, r = Err e ∧ w' = w2))).
  { apply bind_inv in H as [(commit & w1 & Hset & H)|(e & Hset & ->)].
    - assert (Hlog1 : ∃ new, gh_log w1 = (new ++ gh_log w)%list
                        ∧ Forall prepares_branch new).
      { destruct exists_; simpl in Hset.
        - unfold ret in Hset. inversion Hset; subst. by apply Hnil.
        - apply bind_inv in Hset as [(c & w2 & Hset & Hret)|(e & Hset & ?)]; [|done].
          unfold ret in Hret. inversion Hret; subst.
          apply set_go_version_requests in Hset as (new & Hlog & Hall).
          exists new. split; [done|].
          eapply Forall_impl; [exact (Hall file Hfile)|].
          intros [] Hq; done. }
      destruct Hlog1 as (new & Hlog1 & Hall).
      apply bind_inv in H as [(c & w2 & Hc & H)|(e & Hc & ->)].
      + assert (w2 = w1) as ->.
        { destruct commit as [c0|]; [by inversion Hc|].
          apply bind_inv in Hc as [(rf & w3 & Hrf & Hc)|(e & Hrf & ?)]; [|done].
          apply read_only_run in Hrf as ->; [|apply read_only_Repository_get_git_ref].
          by apply read_only_run in Hc; [|apply read_only_Repository_get_commit]. }
        exists c, w1, new. eauto.
      + assert (w' = w1) as ->.
        { destruct commit as [c0|]; [by inversion Hc|].
          apply bind_inv in Hc as [(rf & w3 & Hrf & Hc)|(e' & Hrf & ?)].
          - apply read_only_run in Hrf as ->; [|apply read_only_Repository_get_git_ref].
            by apply read_only_run in Hc; [|apply read_only_Repository_get_commit].
          - by apply read_only_run in Hrf; [|apply read_only_Repository_get_git_ref]. }
        exists "", w1, new. eauto 10.
    - destruct exists_; simpl in Hset; [by inversion Hset|].
      apply bind_inv in Hset as [(c & w2 & Hset & Hret)|(e' & Hset & ?)]; [done|].
      apply set_go_version_requests in Hset as (new & Hlog & Hall).
      exists "", w', new. split; [done|]. split; [|eauto].
      eapply Forall_impl; [exact (Hall file Hfile)|].
      intros [] Hq; done. }
  destruct Hprep as (commit & w2 & new & Hlog & Hall & [Hsync|(e & -> & ->)]);
    [|by exists new].
  exists new. split; [|done]. rewrite <- Hlog.
  apply bind_inv in Hsync as [([] & w3 & Hfetch & Hsync)|(e & Hfetch & ->)];
    destruct (local_step_git_fetch_origin _ _ _ Hfetch) as (_ & Hl3 & _); [|done].
  apply bind_inv in Hsync as [([] & w4 & Hco & Hsync)|(e & Hco & ->)];
    destruct (local_step_git_checkout _ _ _ _ Hco) as (_ & Hl4 & _); [|congruence].
  unfold ret in Hsync. inversion Hsync; subst. congruence.
Qed.

Lemma run_version_only_requests_witness :
  ∃ new, gh_log (run Sample.K Sample.blob_sha Sample.re_search Sample.str_format
                   Sample.update_golang_org_x_sh Sample.maker true Sample.world).2
         = new
         ∧ Forall prepares_branch new.
Proof.
  destruct (run_version_only_requests Sample.K Sample.blob_sha Sample.re_search
              Sample.str_format Sample.update_golang_org_x_sh Sample.maker Sample.world
              _ _ (surjective_pairing _)) as (new & Hlog & Hall).
  exists new. split; [|exact Hall].
  rewrite Hlog. change (gh_log Sample.world) with (@nil Request). apply app_nil_r.
Defined.

(** X18.  A run does not take up the branch an earlier run prepared.
    [set_go_version] leaves "$", the version and a line feed in the version
    file of the branch it creates, which is not the version the next run
    looks for there.  So let the repository be out of date, and let the
    branch of the latest version exist with a version file that holds
    something other than that version.  Then [branch_exists] answers
    [False] and [run], in either mode, fails on creating the branch again:
    the service answers 422, "Reference already exists", and that request
    is the only one sent. *)
Theorem run_branch_not_taken_up
    (K : Constants) (blob_sha : string → string)
    (re_search : string → string → result (option string))
    (str_format : string → list (string * string) → result string)
    (script : gmap string string → option (gmap string string))
    (self : GoPRMaker) (update_version_only : bool) (w : World)
    (file pinned latest master_head head content : string) (R : Repository)
    (master_tree t : gmap string TreeEntry) :
  gh_outage w = None →
  environ w !! ENV_GO_VERSION_FILE K = Some file →
  gh_repos w !! repo self = Some R →
  branches R !! "master" = Some master_head →
  tree_of R master_head = Some master_tree →
  master_tree !! file = Some (Blob pinned) →
  get_latest_major_upgrade pinned w = (Ok latest, w) →
  pinned ≠ latest →
  branches R !! ("go-" ++ latest) = Some head →
  tree_of R head = Some t →
  t !! file = Some (Blob content) →
  content ≠ latest →
  branch_exists K blob_sha (set_latest_go_version latest self) ("go-" ++ latest) w
  = (Ok false, w)
  ∧ run K blob_sha re_search str_format script self update_version_only w
    = (Err (GithubException 422 (Some (PyStr "Reference already exists"))),
       set_gh_log (cons (CreateGitRef (repo self) ("refs/heads/go-" ++ latest) master_head)) w).
Proof.
  intros Hup Hfile HR Hmaster Hmt Hpinned Hlatest Hne Hbranch Ht Hcontent Hne'.
  set (self' := set_latest_go_version latest self).
  assert (Hread : ∀ (s : GoPRMaker) b h tr text,
            repo s = repo self →
            branches R !! b = Some h → tree_of R h = Some tr →
            tr !! file = Some (Blob text) →
            get_repo_go_version K blob_sha s b w = (Ok text, w)).
  { intros s b h tr text Hs Hb Htr Htext.
    unfold get_repo_go_version, getenv, file_contents, Repository_get_contents, request,
      find_repo, not_found, bind, get, ret, raise.
    rewrite strip_prefix_app. simpl.
    rewrite Hfile, Hup, Hs, HR, Hb. simpl. rewrite Htr. simpl.
    by rewrite Htext. }
  assert (Hexists : branch_exists K blob_sha self' ("go-" ++ latest) w = (Ok false, w)).
  { unfold branch_exists, bind, try_except.
    rewrite (Hread self' ("go-" ++ latest) head t content eq_refl Hbranch Ht Hcontent).
    simpl. by rewrite bool_decide_eq_false_2. }
  split; [exact Hexists|].
  unfold run.
  rewrite (bind_ok _ _ _ _ _ (Hread self "master" master_head master_tree pinned
             eq_refl Hmaster Hmt Hpinned)).
  rewrite (bind_ok _ _ _ _ _ Hlatest). fold self'.
  rewrite bool_decide_eq_false_2 by done.
  rewrite (bind_ok _ _ _ _ _ Hexists). simpl negb. cbv iota.
  apply bind_err, bind_err.
  assert (Hb : Repository_get_branch (repo self') "master" w = (Ok master_head, w)).
  { unfold Repository_get_branch.
    rewrite (bind_ok _ _ _ _ _ (request_none_ok w Hup)).
    rewrite (bind_ok _ _ _ _ _ (find_repo_ok w _ _ HR)). by rewrite Hmaster. }
  unfold set_go_version. rewrite (bind_ok _ _ _ _ _ Hb).
  apply bind_err. unfold Repository_create_git_ref.
  rewrite (bind_ok _ _ _ _ _ (request_some_ok _ w Hup)).
  rewrite (bind_ok _ _ _ _ _ (find_repo_ok (set_gh_log _ w) _ _ HR)).
  rewrite strip_prefix_app. by rewrite bool_decide_eq_true_2.
Qed.

(** ** The path of the environment file *)

Lemma upto_last_slash_app (d name : string) :
  Str.contains "/" name = false → Str.upto_last_slash (d ++ "/" ++ name) = d ++ "/".
Proof.
  intros Hname. induction d as [|c d IH]; simpl.
  - by rewrite Hname.
  - assert (Hc : Str.contains "/" (d ++ String "/" name) = true).
    { clear. induction d as [|x d IH]; simpl; [done|]. by rewrite IH, orb_true_r. }
    simpl in IH. by rewrite Hc, IH.
Qed.

Lemma rstrip_slash_app (d : string) : Str.rstrip_slash (d ++ "/") = Str.rstrip_slash d.
Proof. induction d as [|c d IH]; simpl; [done|]. by rewrite IH. Qed.

Lemma rstrip_slash_all (s : string) :
  Str.all (λ c, bool_decide (c = "/"%char)) s = true → Str.rstrip_slash s = "".
Proof.
  induction s as [|c s IH]; simpl; [done|].
  intros [Hc Hs]%andb_true_iff. by rewrite (IH Hs), Hc.
Qed.

(** X19.  The environment file [set_go_version] updates lies in the
    directory of the version file: for a version file [d/name], with [d]
    not ending in a slash and [name] free of slashes, its path is [d/.env],
    and for a version file at the top of the repository it is [.env]. *)
Theorem env_path_same_directory (d name : string) :
  Str.contains "/" name = false →
  Str.path_join (Str.dirname name) ".env" = ".env"
  ∧ (d ≠ "" → Str.rstrip_slash d = d →
     Str.dirname (d ++ "/" ++ name) = d
     ∧ Str.path_join (Str.dirname (d ++ "/" ++ name)) ".env" = d ++ "/.env").
Proof.
  intros Hname. split.
  - assert (Hhead : Str.upto_last_slash name = "").
    { clear -Hname. induction name as [|c name IH]; simpl in *; [done|].
      apply orb_false_iff in Hname as [Hc Hrest]. rewrite Hrest.
      apply bool_decide_eq_false in Hc. by rewrite bool_decide_eq_false_2 by congruence. }
    unfold Str.dirname. by rewrite Hhead.
  - intros Hd Hstrip.
    assert (Hdir : Str.dirname (d ++ "/" ++ name) = d).
    { unfold Str.dirname. rewrite upto_last_slash_app by done.
      destruct (Str.all _ (d ++ "/")) eqn:Hall.
      - apply rstrip_slash_all in Hall. rewrite rstrip_slash_app in Hall. congruence.
      - by rewrite rstrip_slash_app. }
    split; [done|]. rewrite Hdir. unfold Str.path_join. simpl.
    rewrite bool_decide_eq_false_2 by done.
    by rewrite bool_decide_eq_true_2.
Qed.

Lemma env_path_same_directory_witness :
  Str.path_join (Str.dirname "GO_VERSION") ".env" = ".env"
  ∧ Str.path_join (Str.dirname ("traffic_ops/app" ++ "/" ++ "GO_VERSION")) ".env"
    = "traffic_ops/app/.env".
Proof.
  destruct (env_path_same_directory "traffic_ops/app" "GO_VERSION" eq_refl) as [Htop Hsub].
  split; [exact Htop|].
  exact (proj2 (Hsub ltac:(discriminate) eq_refl)).
Defined.

Lemma set_go_version_returns_only_if_ids_agree_witness :
  ∃ commit env_blob,
    (set_go_version Sample.K Sample.blob_sha Sample.maker "1.22.5"
       "Update Go version to 1.22.5" "go-1.22.5" Sample.world_dollar_env).1 = Ok commit
    ∧ Sample.blob_sha env_blob = Sample.blob_sha ("$1.22.5" ++ new_line).
Proof.
  pose (res := set_go_version Sample.K Sample.blob_sha Sample.maker "1.22.5"
                 "Update Go version to 1.22.5" "go-1.22.5" Sample.world_dollar_env).
  assert (Hrun : set_go_version Sample.K Sample.blob_sha Sample.maker "1.22.5"
                   "Update Go version to 1.22.5" "go-1.22.5" Sample.world_dollar_env
                 = (Ok "3", res.2)) by (vm_compute; reflexivity).
  destruct (set_go_version_returns_only_if_ids_agree _ _ _ _ _ _ _ _ _ Hrun)
    as (f & R & mh & t & env_blob & _ & _ & _ & _ & _ & _ & Hids).
  exists "3", env_blob. split; [by rewrite Hrun|exact Hids].
Defined.

Lemma create_pr_creates_witness :
  ∃ w' R' number,
    create_pr Sample.K Sample.re_search Sample.str_format Sample.maker_1_22_5 "1.22.5"
      "Update Go version to 1.22.5" "apache" "go-1.22.5" "master" Sample.world_ready
    = (Ok tt, w')
    ∧ gh_repos w' !! "apache/trafficcontrol" = Some R'
    ∧ pr_labels <$> pulls R' !! number = Some ["go version"]
    ∧ pr_body <$> pulls R' !! number
      = Some (Sample.body_1_22_5 "https://github.com/golang/go/milestone/340").
Proof.
  destruct (create_pr_creates Sample.K Sample.re_search Sample.str_format Sample.maker_1_22_5
              "1.22.5" "Update Go version to 1.22.5" "apache" "go-1.22.5" "master"
              Sample.world_ready
              (Sample.golang [Sample.milestone_1_23; Sample.milestone_1_22_5_with_url])
              (Sample.trafficcontrol_bumped ∅) Sample.milestone_1_22_5_with_url
              "https://github.com/golang/go/milestone/340"
              (Sample.body_1_22_5 "https://github.com/golang/go/milestone/340"))
    as (w' & R' & number & Hrun & HR' & Hfree & Hpr & _);
    try reflexivity; try (by eexists); try (vm_compute; reflexivity).
  { intros n Hn. vm_compute in Hn. by apply elem_of_nil in Hn. }
  exists w', R', number. split; [exact Hrun|]. split; [exact HR'|].
  by rewrite Hpr.
Defined.

Lemma run_branch_not_taken_up_witness :
  file_on_branch Sample.world_after_run "apache/trafficcontrol" "go-1.22.5" "GO_VERSION"
  = Some (Blob ("$1.22.5" ++ new_line))
  ∧ (run Sample.K Sample.blob_sha Sample.re_search Sample.str_format
       Sample.update_golang_org_x_sh Sample.maker false Sample.world_after_run).1
    = Err (GithubException 422 (Some (PyStr "Reference already exists"))).
Proof.
  split; [vm_compute; reflexivity|].
  destruct (run_branch_not_taken_up Sample.K Sample.blob_sha Sample.re_search
              Sample.str_format Sample.update_golang_org_x_sh Sample.maker false
              Sample.world_after_run "GO_VERSION" "1.22.1" "1.22.5" "c0" "1"
              ("$1.22.5" ++ new_line)
              (default Sample.trafficcontrol
                 (gh_repos Sample.world_after_run !! "apache/trafficcontrol"))
              Sample.root_tree
              (<["GO_VERSION" := Blob ("$1.22.5" ++ new_line)]> Sample.root_tree))
    as [_ Hrun]; first [by rewrite Hrun|vm_compute; reflexivity|discriminate].
Defined.

(** ** Moving the branch *)

(** X20.  [update_branch] only ever moves the branch forward: when it
    succeeds, the branch existed, the commit it pointed at is the new
    commit or one of its ancestors, and the branch now points at the new
    commit, nothing else being changed in the repository; when it fails,
    the repositories are as they were. *)
Theorem update_branch_fast_forward
    (self : GoPRMaker) (branch_name sha : string) (w w' : World) (r : result unit) :
  update_branch self branch_name sha w = (r, w') →
  gh_log w' = PatchRef (repo self) branch_name sha :: gh_log w
  ∧ ((∃ e, r = Err e) → gh_repos w' = gh_repos w)
  ∧ (r = Ok tt →
     ∃ R head,
       gh_repos w !! repo self = Some R ∧ branches R !! branch_name = Some head
       ∧ is_Some (commits R !! sha)
       ∧ reaches (size (commits R)) (commits R) sha head = true
       ∧ gh_repos w' = <[repo self := set_branches <[branch_name := sha]> R]> (gh_repos w)).
Proof.
  unfold update_branch, Requester_patch_ref. intros H.
  apply bind_inv in H as [([] & w1 & Hreq & H)|(e & Hreq & ->)];
    apply request_inv in Hreq as [-> _].
  2:{ repeat split; try done. }
  apply bind_inv in H as [(R & w2 & Hfind & H)|(e & Hfind & ->)];
    apply find_repo_inv in Hfind as [-> HR].
  2:{ repeat split; try done. }
  specialize (HR R eq_refl). simpl in HR.
  unfold unprocessable, store_repo, modify, raise in H.
  destruct (branches R !! branch_name) as [head|] eqn:Hhead.
  2:{ inversion H; subst. repeat split; try done. }
  case_bool_decide as Hcommit.
  2:{ inversion H; subst. repeat split; try done. }
  destruct (reaches _ _ sha head) eqn:Hreach; inversion H; subst.
  - split; [done|]. split; [by intros [e ?]|]. intros _. by exists R, head.
  - repeat split; try done.
Qed.

Lemma update_branch_fast_forward_witness :
  ∃ R', gh_repos (update_branch Sample.maker "go-1.22.5" "c1"
                    (set_gh_repos (λ _, {[ "apache/trafficcontrol" :=
                        set_branches <["go-1.22.5" := "c0"]> (Sample.trafficcontrol_bumped ∅) ]})
                       Sample.world_ready)).2 !! "apache/trafficcontrol" = Some R'
        ∧ branches R' !! "go-1.22.5" = Some "c1".
Proof.
  pose (w := set_gh_repos (λ _, {[ "apache/trafficcontrol" :=
              set_branches <["go-1.22.5" := "c0"]> (Sample.trafficcontrol_bumped ∅) ]})
             Sample.world_ready).
  assert (Hrun : update_branch Sample.maker "go-1.22.5" "c1" w
                 = (Ok tt, (update_branch Sample.maker "go-1.22.5" "c1" w).2))
    by (vm_compute; reflexivity).
  destruct (update_branch_fast_forward _ _ _ _ _ _ Hrun) as (_ & _ & Hok).
  destruct (Hok eq_refl) as (R & head & HR & _ & _ & _ & Hrepos).
  eexists. fold w. rewrite Hrepos, lookup_insert_eq. split; [reflexivity|].
  simpl. apply lookup_insert_eq.
Defined.
